(** * proxmox_vm_info: a shallow embedding of the module and its properties

    The development follows [plugins/modules/proxmox_vm_info.py]:

    - [Str]: the string operations the module uses ([str.split], [in]);
    - [Re]: the fragment of Python's [re] syntax that occurs in the module
      (literals, [.], classes, [?], [*], [+], alternation, [^] and [$]),
      with [re.search] implemented by position-aware derivatives and proved
      sound and complete for a relational semantics;
    - [Py]: ordered dictionaries and the dynamically typed values that the
      Proxmox API delivers;
    - [VmInfo]: the class [ProxmoxVmInfoAnsible] and [main], written in a
      small state-and-exception monad, with the API client, [int] and [str]
      as parameters.

    The modules [StrFacts] to [ListingFacts] hold the lemmas; the
    properties of the module itself, C1 to C10, come last. *)

From Stdlib Require Import String Ascii List ZArith Bool Lia DecimalString.
Import ListNotations.
Open Scope string_scope.

(* ================================================================= *)
(** ** Strings *)

Module Str.

(** [c in s] for a one-character [c]. *)
Fixpoint contains (c : ascii) (s : string) : bool :=
  match s with
  | EmptyString => false
  | String a s' => if Ascii.eqb a c then true else contains c s'
  end.

(** [s.split(sep)] for a one-character separator: the list is never empty,
    and adjacent separators give empty pieces. *)
Fixpoint split (sep : ascii) (s : string) : list string :=
  match s with
  | EmptyString => [EmptyString]
  | String a s' =>
      if Ascii.eqb a sep then EmptyString :: split sep s'
      else match split sep s' with
           | h :: t => String a h :: t
           | [] => [String a EmptyString]
           end
  end.

Definition is_empty (s : string) : bool :=
  match s with EmptyString => true | _ => false end.

(** [s.count(c)] for a one-character [c]. *)
Fixpoint count (c : ascii) (s : string) : nat :=
  match s with
  | EmptyString => 0
  | String a s' => (if Ascii.eqb a c then 1 else 0) + count c s'
  end.

End Str.

(* ================================================================= *)
(** ** Regular expressions: the fragment of [re] used by the module *)

Module Re.

(** Character sets: a literal, [.], a range [[a-b]] and a listed class
    such as [[12]]. *)
Inductive cset : Type :=
| Lit (c : ascii)
| Dot
| Range (lo hi : ascii)
| OneOf (cs : string).

Definition newline : ascii := "010"%char.

Definition in_range (lo hi c : ascii) : bool :=
  (N_of_ascii lo <=? N_of_ascii c)%N && (N_of_ascii c <=? N_of_ascii hi)%N.

Definition cset_mem (p : cset) (c : ascii) : bool :=
  match p with
  | Lit a => Ascii.eqb a c
  | Dot => negb (Ascii.eqb c newline)
  | Range lo hi => in_range lo hi c
  | OneOf cs => Str.contains c cs
  end.

Inductive regex : Type :=
| Empty                      (* no string at all; only arises in residuals *)
| Eps
| Chr (p : cset)
| Bol                        (* ^ *)
| Eol                        (* $ *)
| Seq (r1 r2 : regex)
| Alt (r1 r2 : regex)
| Star (r : regex).

Definition Plus (r : regex) : regex := Seq r (Star r).   (* r+ *)
Definition Opt (r : regex) : regex := Alt r Eps.         (* r? *)

Fixpoint cat (rs : list regex) : regex :=
  match rs with
  | [] => Eps
  | [r] => r
  | r :: rs' => Seq r (cat rs')
  end.

Fixpoint alt (rs : list regex) : regex :=
  match rs with
  | [] => Empty
  | [r] => r
  | r :: rs' => Alt r (alt rs')
  end.

Fixpoint lit (s : string) : regex :=
  match s with
  | EmptyString => Eps
  | String c EmptyString => Chr (Lit c)
  | String c s' => Seq (Chr (Lit c)) (lit s')
  end.

(** [$] without [re.MULTILINE]: at the end of the input, or just before a
    newline that is the last character. *)
Definition at_eol (rest : string) : bool :=
  match rest with
  | EmptyString => true
  | String c EmptyString => Ascii.eqb c newline
  | _ => false
  end.

(** A position is described by [b], whether it is the start of the input
    (where [^] holds), and by the input [rest] that follows it. *)
Fixpoint nullable (b : bool) (rest : string) (r : regex) : bool :=
  match r with
  | Empty => false
  | Eps => true
  | Chr _ => false
  | Bol => b
  | Eol => at_eol rest
  | Seq r1 r2 => nullable b rest r1 && nullable b rest r2
  | Alt r1 r2 => nullable b rest r1 || nullable b rest r2
  | Star _ => true
  end.

(** Residual of [r] after reading [c] at a position followed by
    [String c rest]. *)
Fixpoint deriv (b : bool) (c : ascii) (rest : string) (r : regex) : regex :=
  match r with
  | Empty | Eps | Bol | Eol => Empty
  | Chr p => if cset_mem p c then Eps else Empty
  | Seq r1 r2 =>
      Alt (Seq (deriv b c rest r1) r2)
          (if nullable b (String c rest) r1 then deriv b c rest r2 else Empty)
  | Alt r1 r2 => Alt (deriv b c rest r1) (deriv b c rest r2)
  | Star r1 => Seq (deriv b c rest r1) (Star r1)
  end.

(** Does [r] match some prefix of [s], starting at this position? *)
Fixpoint match_from (b : bool) (s : string) (r : regex) : bool :=
  match s with
  | EmptyString => nullable b "" r
  | String c s' =>
      if nullable b s r then true else match_from false s' (deriv b c s' r)
  end.

Fixpoint search_later (s : string) (r : regex) : bool :=
  match s with
  | EmptyString => false
  | String _ s' => if match_from false s' r then true else search_later s' r
  end.

(** [re.search(r, s) is not None]: a match starting at any position. *)
Definition search (r : regex) (s : string) : bool :=
  if match_from true s r then true else search_later s r.

(** *** Relational semantics *)

(** [Mat b r w rest]: at a position with start flag [b], [r] consumes [w]
    and is followed by [rest]. *)
Inductive Mat : bool -> regex -> string -> string -> Prop :=
| MEps b rest : Mat b Eps "" rest
| MChr b p c rest : cset_mem p c = true -> Mat b (Chr p) (String c "") rest
| MBol rest : Mat true Bol "" rest
| MEol b rest : at_eol rest = true -> Mat b Eol "" rest
| MSeq b r1 r2 w1 w2 rest :
    Mat b r1 w1 (w2 ++ rest) ->
    Mat (b && Str.is_empty w1) r2 w2 rest ->
    Mat b (Seq r1 r2) (w1 ++ w2) rest
| MAltL b r1 r2 w rest : Mat b r1 w rest -> Mat b (Alt r1 r2) w rest
| MAltR b r1 r2 w rest : Mat b r2 w rest -> Mat b (Alt r1 r2) w rest
| MStar0 b r rest : Mat b (Star r) "" rest
| MStarS b r w1 w2 rest :
    Mat b r w1 (w2 ++ rest) ->
    Mat (b && Str.is_empty w1) (Star r) w2 rest ->
    Mat b (Star r) (w1 ++ w2) rest.

(** Patterns whose every alternative begins with [^]. *)
Fixpoint anchored (r : regex) : bool :=
  match r with
  | Bol => true
  | Seq r1 _ => anchored r1
  | Alt r1 r2 => anchored r1 && anchored r2
  | _ => false
  end.

(** Patterns whose every alternative ends with [$]. *)
Fixpoint ends_eol (r : regex) : bool :=
  match r with
  | Eol => true
  | Seq _ r2 => ends_eol r2
  | Alt r1 r2 => ends_eol r1 && ends_eol r2
  | _ => false
  end.

Definition all_ascii : list ascii := map ascii_of_nat (seq 0 256).

Definition chars_of (p : cset) : list ascii := filter (cset_mem p) all_ascii.

(** The words of a pattern without star; an anchor consumes nothing. *)
Fixpoint words (r : regex) : option (list string) :=
  match r with
  | Empty => Some []
  | Eps | Bol | Eol => Some [EmptyString]
  | Chr p => Some (map (fun c => String c EmptyString) (chars_of p))
  | Seq r1 r2 =>
      match words r1, words r2 with
      | Some l1, Some l2 => Some (flat_map (fun a => map (append a) l2) l1)
      | _, _ => None
      end
  | Alt r1 r2 =>
      match words r1, words r2 with
      | Some l1, Some l2 => Some (l1 ++ l2)%list
      | _, _ => None
      end
  | Star _ => None
  end.

End Re.

(* ================================================================= *)
(** ** Python values and ordered dictionaries *)

Module Py.

(** A [dict] keeps insertion order: assigning to an existing key replaces
    the value in place, assigning to a new key appends it. *)
Section Dict.
Context {V : Type}.

Fixpoint dict_get (k : string) (d : list (string * V)) : option V :=
  match d with
  | [] => None
  | (k', v) :: d' => if String.eqb k' k then Some v else dict_get k d'
  end.

Fixpoint dict_set (k : string) (v : V) (d : list (string * V)) : list (string * V) :=
  match d with
  | [] => [(k, v)]
  | (k', v') :: d' =>
      if String.eqb k' k then (k', v) :: d' else (k', v') :: dict_set k v d'
  end.

Fixpoint dict_del (k : string) (d : list (string * V)) : list (string * V) :=
  match d with
  | [] => []
  | (k', v') :: d' =>
      if String.eqb k' k then dict_del k d' else (k', v') :: dict_del k d'
  end.

Definition dict_keys (d : list (string * V)) : list string := map fst d.

(** [d.update(e)] *)
Fixpoint dict_update (d e : list (string * V)) : list (string * V) :=
  match e with
  | [] => d
  | (k, v) :: e' => dict_update (dict_set k v d) e'
  end.

End Dict.

(** A disk or network record: a dictionary from strings to strings. *)
Definition item : Type := list (string * string).

(** The values found in the API's answers and in the records the module
    returns.  [VFloat m e] is the finite float [m * 2^e]; [VItems] is a list
    of disk or network records; [VOther] is any other object (a list, a
    nested dictionary), known only by its printed form. *)
Inductive value : Type :=
| VNone
| VBool (b : bool)
| VInt (z : Z)
| VFloat (m e : Z)
| VStr (s : string)
| VItems (l : list item)
| VOther (repr : string).

Definition dict : Type := list (string * value).

(** [isinstance(v, (int, float))]; [bool] is a subclass of [int]. *)
Definition is_numeric (v : value) : bool :=
  match v with
  | VBool _ | VInt _ | VFloat _ _ => true
  | _ => false
  end.

(** [v == z] for an integer [z]. *)
Definition py_eq_int (v : value) (z : Z) : bool :=
  match v with
  | VBool b => ((if b then 1 else 0) =? z)%Z
  | VInt a => (a =? z)%Z
  | VFloat m e =>
      if (0 <=? e)%Z then (m * 2 ^ e =? z)%Z else (m =? z * 2 ^ (- e))%Z
  | _ => false
  end.

Definition string_of_Z (z : Z) : string := NilZero.string_of_int (Z.to_int z).

(** Truth value of an optional string parameter and of an optional integer. *)
Definition truthy_str (o : option string) : bool :=
  match o with
  | Some s => negb (Str.is_empty s)
  | None => false
  end.

Definition truthy_int (o : option Z) : bool :=
  match o with
  | Some z => negb (z =? 0)%Z
  | None => false
  end.

Definition opt_str_value (o : option string) : value :=
  match o with
  | Some s => VStr s
  | None => VNone
  end.

(** [str(KeyError(k))] *)
Definition key_error (k : string) : string := "'" ++ k ++ "'".

End Py.

(* ================================================================= *)
(** ** The module *)

Module VmInfo.
Import Str Re Py.

(** *** The world outside the module *)

(** What the interpreter and the cluster supply.  [py_int] is the builtin
    [int] ([inl] carries the text of the exception it raises) and
    [py_str_ext] is [str] on floats, lists and other objects; neither is
    modelled further.  The remaining fields are the answers of the API
    client: [inl e] is an exception whose text is [e].  [get_node] and
    [get_vmid] are the helpers of the base class [ProxmoxAnsible], which
    either return, raise or call [fail_json] themselves. *)
Inductive outcome (A : Type) : Type :=
| Ret (a : A)
| Raise (e : string)          (* an [Exception] *)
| FailJson (msg : string).    (* [module.fail_json]: leaves the module *)
Arguments Ret {A} a.
Arguments Raise {A} e.
Arguments FailJson {A} msg.

Record world : Type := {
  py_int : value -> string + Z;
  py_str_ext : value -> string;
  nodes_get : string + list dict;                  (* nodes.get() *)
  qemu_get : value -> string + list dict;          (* nodes(node).qemu.get() *)
  lxc_get : value -> string + list dict;           (* nodes(node).lxc().get() *)
  config_get : value -> value -> string + dict;    (* nodes(node).qemu(vmid).config.get() *)
  get_node : string -> outcome (option dict);
  get_vmid : string -> outcome value
}.

Definition py_str (W : world) (v : value) : string :=
  match v with
  | VNone => "None"
  | VBool true => "True"
  | VBool false => "False"
  | VInt z => string_of_Z z
  | VStr s => s
  | _ => py_str_ext W v
  end.

(** *** State and control *)

Inductive api_call : Type :=
| NodesGet
| QemuGet (node : value)
| LxcGet (node : value)
| ConfigGet (node vmid : value)
| GetNode (node : string)
| GetVmid (name : string).

(** The two accumulators of the class, and the requests sent so far. *)
Record state : Type := {
  disks : list item;
  nets : list item;
  calls : list api_call
}.

Definition init_state : state := {| disks := []; nets := []; calls := [] |}.

Definition M (A : Type) : Type := state -> outcome A * state.

Definition ret {A} (a : A) : M A := fun st => (Ret a, st).
Definition raise {A} (e : string) : M A := fun st => (Raise e, st).
Definition fail_json {A} (msg : string) : M A := fun st => (FailJson msg, st).

Definition bind {A B} (m : M A) (k : A -> M B) : M B :=
  fun st =>
    match m st with
    | (Ret a, st') => k a st'
    | (Raise e, st') => (Raise e, st')
    | (FailJson msg, st') => (FailJson msg, st')
    end.

Notation "x <- m ;; k" := (bind m (fun x => k))
  (at level 61, m at next level, right associativity).
Notation "' p <- m ;; k" := (bind m (fun p => k))
  (at level 61, p pattern, m at next level, right associativity).

(** [try: m  except Exception as e: fail_json(msg=prefix % e)] *)
Definition try_fail {A} (prefix : string) (m : M A) : M A :=
  fun st =>
    match m st with
    | (Raise e, st') => (FailJson (prefix ++ e), st')
    | r => r
    end.

Definition of_sum {A} (r : string + A) : M A :=
  match r with
  | inl e => raise e
  | inr a => ret a
  end.

Definition log (c : api_call) : M unit :=
  fun st => (Ret tt, {| disks := disks st; nets := nets st; calls := calls st ++ [c] |}).

Definition request {A} (c : api_call) (r : string + A) : M A :=
  _ <- log c ;; of_sum r.

Definition helper {A} (c : api_call) (r : outcome A) : M A :=
  _ <- log c ;; fun st => (r, st).

(** [d[k]] *)
Definition getitem (d : dict) (k : string) : M value :=
  match dict_get k d with
  | Some v => ret v
  | None => raise (key_error k)
  end.

(** *** The patterns *)

Definition digit : regex := Chr (Range "0" "9").

(** [regex] of [add_to_disks], as written in the source and as a term. *)
Definition disk_value_pattern : string := "^.+:[0-9].+/.+\..+".

Definition disk_value_regex : regex :=
  cat [Bol; Plus (Chr Dot); Chr (Lit ":"); digit; Plus (Chr Dot);
       Chr (Lit "/"); Plus (Chr Dot); Chr (Lit "."); Plus (Chr Dot)].

(** [disk_regex] and [net_regex] of [get_vm_configs]. *)
Definition disk_pattern : string :=
  "^ide[0-3]{1}$|^scsi(30|[12][0-9]|[0-9])$|^virtio(1[0-5]|[0-9])$|^sata[0-5]{1}$|^efidisk0$|^tpmstate0$|^unused(25[0-5]|[12][0-4][0-9]|[1-9]?[0-9])$".

Definition disk_regex : regex :=
  alt [cat [Bol; lit "ide"; Chr (Range "0" "3"); Eol];
       cat [Bol; lit "scsi";
            alt [lit "30"; Seq (Chr (OneOf "12")) digit; digit]; Eol];
       cat [Bol; lit "virtio";
            alt [Seq (Chr (Lit "1")) (Chr (Range "0" "5")); digit]; Eol];
       cat [Bol; lit "sata"; Chr (Range "0" "5"); Eol];
       cat [Bol; lit "efidisk0"; Eol];
       cat [Bol; lit "tpmstate0"; Eol];
       cat [Bol; lit "unused";
            alt [Seq (lit "25") (Chr (Range "0" "5"));
                 cat [Chr (OneOf "12"); Chr (Range "0" "4"); digit];
                 Seq (Opt (Chr (Range "1" "9"))) digit];
            Eol]].

Definition net_pattern : string := "^net(0[1-9]?|[1-9]?[0-9]*)$".

Definition net_regex : regex :=
  cat [Bol; lit "net";
       Alt (Seq (Chr (Lit "0")) (Opt (Chr (Range "1" "9"))))
           (Seq (Opt (Chr (Range "1" "9"))) (Star digit));
       Eol].

Definition is_digit (c : ascii) : bool := in_range "0" "9" c.

Fixpoint all_digits (s : string) : bool :=
  match s with
  | EmptyString => true
  | String c s' => is_digit c && all_digits s'
  end.

(** A non-empty piece of one line: what [.+] matches. *)
Definition line (s : string) : bool :=
  negb (is_empty s) && negb (contains newline s).

(** The keys [prefix0] ... [prefixN], written as Python prints integers. *)
Definition slot_keys (prefix : string) (first count : nat) : list string :=
  map (fun i => prefix ++ string_of_Z (Z.of_nat i)) (seq first count).

(** The keys that [disk_regex] accepts (see [disk_slot_spec]): the unused
    slots 150 to 199 are not among them. *)
Definition disk_slot_keys : list string :=
  (slot_keys "ide" 0 4 ++ slot_keys "scsi" 0 31 ++ slot_keys "virtio" 0 16 ++
   slot_keys "sata" 0 6 ++ ["efidisk0"; "tpmstate0"] ++
   slot_keys "unused" 0 150 ++ slot_keys "unused" 200 56)%list.

(** The keys that the documentation of the slots lists. *)
Definition documented_disk_keys : list string :=
  (slot_keys "ide" 0 4 ++ slot_keys "scsi" 0 31 ++ slot_keys "virtio" 0 16 ++
   slot_keys "sata" 0 6 ++ ["efidisk0"; "tpmstate0"] ++ slot_keys "unused" 0 256)%list.

Definition mem_string (k : string) (l : list string) : bool :=
  existsb (String.eqb k) l.

(** *** add_to_disks *)

(** [l[n]] *)
Definition index (l : list string) (n : nat) : string + string :=
  match nth_error l n with
  | Some x => inr x
  | None => inl "list index out of range"
  end.

(** One round of the loop over [value.split(',')]. *)
Definition disk_token (it : item) (data : string) : string + item :=
  if negb (search disk_value_regex data) && negb (contains "=" data) then inr it
  else if search disk_value_regex data then
    match index (split ":" data) 0 with
    | inl e => inl e
    | inr storage =>
        match index (split "/" data) 1 with
        | inl e => inl e
        | inr path => inr (dict_set "path" path (dict_set "storage" storage it))
        end
    end
  else
    match index (split "=" data) 0 with
    | inl e => inl e
    | inr k =>
        match index (split "=" data) 1 with
        | inl e => inl e
        | inr v => inr (dict_set k v it)
        end
    end.

Fixpoint disk_tokens (it : item) (datas : list string) : string + item :=
  match datas with
  | [] => inr it
  | data :: rest =>
      match disk_token it data with
      | inl e => inl e
      | inr it' => disk_tokens it' rest
      end
  end.

(** The record is appended only when the whole loop went through; any
    exception, also that of [value.split] on a value that is no string,
    makes the method return [False]. *)
Definition add_to_disks (name : string) (v : value) : M bool :=
  fun st =>
    match v with
    | VStr s =>
        match disk_tokens [("name", name)] (split "," s) with
        | inr it =>
            (Ret true,
             {| disks := disks st ++ [it]; nets := nets st; calls := calls st |})
        | inl _ => (Ret false, st)
        end
    | _ => (Ret false, st)
    end.

(** *** add_to_nets *)

Definition nic_models : list string := ["e1000"; "virtio"; "rtl8139"; "vmxnet3"].

Definition is_nic_model (k : string) : bool := existsb (String.eqb k) nic_models.

Definition net_token (it : item) (data : string) : string + item :=
  if contains "=" data then
    match split "=" data with
    | [k; v] =>
        if is_nic_model k then inr (dict_set "mac" v (dict_set "model" k it))
        else inr (dict_set k v it)
    | [] | [_] => inl "not enough values to unpack (expected 2, got 1)"
    | _ => inl "too many values to unpack (expected 2)"
    end
  else inr it.

Fixpoint net_tokens (it : item) (datas : list string) : string + item :=
  match datas with
  | [] => inr it
  | data :: rest =>
      match net_token it data with
      | inl e => inl e
      | inr it' => net_tokens it' rest
      end
  end.

Definition add_to_nets (name : string) (v : value) : M bool :=
  fun st =>
    match v with
    | VStr s =>
        match net_tokens [("name", name)] (split "," s) with
        | inr it =>
            (Ret true,
             {| disks := disks st; nets := nets st ++ [it]; calls := calls st |})
        | inl _ => (Ret false, st)
        end
    | _ => (Ret false, st)
    end.

(** *** vm_in_node and get_vm_node *)

Definition int_eq_opt (z : Z) (vmid : option Z) : bool :=
  match vmid with
  | Some v => (z =? v)%Z
  | None => false
  end.

Fixpoint vm_in_list (W : world) (vmid : option Z) (vms : list dict) : M bool :=
  match vms with
  | [] => ret false
  | vm :: rest =>
      v <- getitem vm "vmid" ;;
      z <- of_sum (py_int W v) ;;
      if int_eq_opt z vmid then ret true else vm_in_list W vmid rest
  end.

Definition vm_in_node (W : world) (vmid : option Z) (node : value) : M bool :=
  try_fail "Failed to retrieve QEMU VMs information: "
    (vms <- request (QemuGet node) (qemu_get W node) ;;
     vm_in_list W vmid vms).

Fixpoint node_of_vm (W : world) (vmid : option Z) (nodes : list dict) : M value :=
  match nodes with
  | [] => ret VNone
  | node :: rest =>
      n <- getitem node "node" ;;
      found <- vm_in_node W vmid n ;;
      if found then ret n else node_of_vm W vmid rest
  end.

Definition get_vm_node (W : world) (vmid : option Z) : M value :=
  try_fail "Failed to retrieve QEMU VMs Node Name: "
    (nodes <- request NodesGet (nodes_get W) ;;
     node_of_vm W vmid nodes).

(** *** get_vm_configs *)

Definition is_disk_slot (key : string) : bool := search disk_regex key.
Definition is_net_slot (key : string) : bool := search net_regex key.

(** The body of the loop over [list(vm)]; the triple is [vm], [dsw], [nsw]. *)
Definition classify_key (key : string) (acc : dict * bool * bool)
  : M (dict * bool * bool) :=
  let '(vm, dsw, nsw) := acc in
  val <- getitem vm key ;;
  if is_disk_slot key then
    _ <- add_to_disks key val ;;
    ret (dict_del key vm, true, nsw)
  else if is_net_slot key then
    _ <- add_to_nets key val ;;
    ret (dict_del key vm, dsw, true)
  else if String.eqb key "cpu" && is_numeric val then
    ret (dict_set "cpu" (VStr "default") vm, dsw, nsw)
  else ret (vm, dsw, nsw).

Fixpoint classify_keys (keys : list string) (acc : dict * bool * bool)
  : M (dict * bool * bool) :=
  match keys with
  | [] => ret acc
  | key :: rest => acc' <- classify_key key acc ;; classify_keys rest acc'
  end.

(** [vm['disks'] = self.disks; self.disks = []] and the same for nets.  The
    list stored in the record is never appended to again, because the
    attribute is bound to a new list, so the record can hold a copy. *)
Definition attach_disks (vm : dict) : M dict :=
  fun st =>
    (Ret (dict_set "disks" (VItems (disks st)) vm),
     {| disks := []; nets := nets st; calls := calls st |}).

Definition attach_nets (vm : dict) : M dict :=
  fun st =>
    (Ret (dict_set "nets" (VItems (nets st)) vm),
     {| disks := disks st; nets := []; calls := calls st |}).

Definition get_vm_configs (W : world) (node : value) (vm : dict) : M dict :=
  try_fail "Failed to retrieve QEMU VMs information: "
    (vmid <- getitem vm "vmid" ;;
     vmcnf <- request (ConfigGet node vmid) (config_get W node vmid) ;;
     let vm1 := dict_set "node" node (dict_update vm vmcnf) in
     '(vm2, dsw, nsw) <- classify_keys (dict_keys vm1) (vm1, false, false) ;;
     vm3 <- (if dsw then attach_disks vm2 else ret vm2) ;;
     vm4 <- (if nsw then attach_nets vm3 else ret vm3) ;;
     ret vm4).

(** *** get_qemu_vms and get_lxc_vms *)

Fixpoint qemu_each (W : world) (node : value) (vmlist : list dict) : M (list dict) :=
  match vmlist with
  | [] => ret []
  | vm :: rest =>
      v <- getitem vm "vmid" ;;
      z <- of_sum (py_int W v) ;;
      out <- get_vm_configs W node
               (dict_set "type" (VStr "qemu") (dict_set "vmid" (VInt z) vm)) ;;
      outs <- qemu_each W node rest ;;
      ret (out :: outs)
  end.

(** [[vm for vm in vms if vm["vmid"] == vmid]] *)
Fixpoint filter_vmid (vmid : Z) (vms : list dict) : M (list dict) :=
  match vms with
  | [] => ret []
  | vm :: rest =>
      v <- getitem vm "vmid" ;;
      outs <- filter_vmid vmid rest ;;
      ret (if py_eq_int v vmid then vm :: outs else outs)
  end.

Definition select_vmid (vmid : option Z) (vms : list dict) : M (list dict) :=
  match vmid with
  | None => ret vms
  | Some z => filter_vmid z vms
  end.

Definition get_qemu_vms (W : world) (node : value) (vmid : option Z) : M (list dict) :=
  try_fail "Failed to retrieve QEMU VMs information: "
    (vmlist <- request (QemuGet node) (qemu_get W node) ;;
     vms <- qemu_each W node vmlist ;;
     select_vmid vmid vms).

Fixpoint lxc_each (W : world) (vms : list dict) : M (list dict) :=
  match vms with
  | [] => ret []
  | vm :: rest =>
      v <- getitem vm "vmid" ;;
      z <- of_sum (py_int W v) ;;
      outs <- lxc_each W rest ;;
      ret (dict_set "vmid" (VInt z) vm :: outs)
  end.

Definition get_lxc_vms (W : world) (node : value) (vmid : option Z) : M (list dict) :=
  try_fail "Failed to retrieve LXC VMs information: "
    (vmlist <- request (LxcGet node) (lxc_get W node) ;;
     vms <- lxc_each W vmlist ;;
     select_vmid vmid vms).

(** *** main *)

(** The parameters of the module as [AnsibleModule] hands them over; its
    own checks (the choices of type, exclusive parameters) come before the
    body of [main] and are not part of this model. *)
Record params : Type := {
  p_node : option string;
  p_type : string;
  p_vmid : option Z;
  p_name : option string
}.

(** The loop over all nodes of the branch without node, vmid and name; it
    also rebinds the variable [node], which the final message prints. *)
Fixpoint all_nodes (W : world) (nodes : list dict) (vms : list dict) (node : value)
  : M (list dict * value) :=
  match nodes with
  | [] => ret (vms, node)
  | entry :: rest =>
      n <- getitem entry "node" ;;
      nodevms <- get_qemu_vms W n None ;;
      all_nodes W rest (match nodevms with [] => vms | _ => vms ++ nodevms end) n
  end.

Definition not_exist_msg (W : world) (vmid : Z) (node : value) : string :=
  "VM with vmid " ++ string_of_Z vmid ++ " doesn't exist on node " ++ py_str W node.

(** From [vms = []] to the end of [main]. *)
Definition main_dispatch (W : world) (node : option string) (type : string)
    (vmid : option Z) (name : option string) : M (list dict) :=
  let nodev := opt_str_value node in
  '(vms, node') <-
    (if String.eqb type "lxc" then
       vms <- get_lxc_vms W nodev vmid ;; ret (vms, nodev)
     else if String.eqb type "qemu" then
       if truthy_str node then
         vms <- get_qemu_vms W nodev None ;; ret (vms, nodev)
       else if truthy_int vmid || truthy_str name then
         n <- get_vm_node W vmid ;;
         vms <- get_qemu_vms W n vmid ;; ret (vms, nodev)
       else
         nodes <- request NodesGet (nodes_get W) ;;
         all_nodes W nodes [] nodev
     else ret ([], nodev)) ;;
  match vms, vmid with
  | _ :: _, _ | _, None => ret vms                      (* exit_json *)
  | [], Some v => fail_json (not_exist_msg W v node')
  end.

Definition check_node (W : world) (node : option string) : M unit :=
  match node with
  | Some n =>
      if negb (Str.is_empty n) then
        r <- helper (GetNode n) (get_node W n) ;;
        match r with
        | None => fail_json ("Node " ++ n ++ " doesn't exist in PVE cluster")
        | Some _ => ret tt
        end
      else ret tt
  | None => ret tt
  end.

Definition resolve_vmid (W : world) (vmid : option Z) (name : option string)
  : M (option Z) :=
  match name with
  | Some n =>
      if negb (truthy_int vmid) && negb (Str.is_empty n) then
        v <- helper (GetVmid n) (get_vmid W n) ;;
        z <- of_sum (py_int W v) ;;
        ret (Some z)
      else ret vmid
  | None => ret vmid
  end.

(** [Ret vms] is [exit_json(changed=False, proxmox_vms=vms)]; [Raise] is an
    exception that nothing catches. *)
Definition main (W : world) (p : params) : M (list dict) :=
  _ <- check_node W (p_node p) ;;
  vmid <- resolve_vmid W (p_vmid p) (p_name p) ;;
  main_dispatch W (p_node p) (p_type p) vmid (p_name p).

(** *** Notions used in the statements *)

(** The record after the loop of [get_vm_configs] when no key is a slot:
    only a numeric cpu entry changes. *)
Definition cpu_fix (vm : dict) : dict :=
  match dict_get "cpu" vm with
  | Some v => if is_numeric v then dict_set "cpu" (VStr "default") vm else vm
  | None => vm
  end.

(** The record that enters the loop of [get_vm_configs]. *)
Definition merged (node : value) (vm vmcnf : dict) : dict :=
  dict_set "node" node (dict_update vm vmcnf).

(** The entry of the listing as [get_qemu_vms] hands it to [get_vm_configs]. *)
Definition tagged (vm : dict) (z : Z) : dict :=
  dict_set "type" (VStr "qemu") (dict_set "vmid" (VInt z) vm).

(** Both accumulators are empty. *)
Definition clean (st : state) : Prop := disks st = [] /\ nets st = [].

(** Two states with the same accumulators; the request logs may differ. *)
Definition sim (st1 st2 : state) : Prop :=
  disks st1 = disks st2 /\ nets st1 = nets st2.

(** A computation whose result and accumulators do not depend on the log. *)
Definition respects {A} (m : M A) : Prop :=
  forall st1 st2, sim st1 st2 ->
    fst (m st1) = fst (m st2) /\ sim (snd (m st1)) (snd (m st2)).

(** Requests that list virtual machines, containers, nodes or a
    configuration, as opposed to the two helpers of the base class. *)
Definition is_enumeration (c : api_call) : bool :=
  match c with
  | GetNode _ | GetVmid _ => false
  | _ => true
  end.

(** Between [st] and [st'] the accumulators did not change and no request
    listed virtual machines, containers, nodes or a configuration. *)
Definition only_helpers (st st' : state) : Prop :=
  disks st' = disks st /\ nets st' = nets st /\
  exists l, calls st' = (calls st ++ l)%list /\
            forallb (fun c => negb (is_enumeration c)) l = true.

(** *** A small cluster for the examples *)

(** One node, pve1, with the virtual machines 100 and 101, whose
    configurations are the two arguments, and the container 200, which the
    listing describes without a type.  [int] is decimal on strings here. *)
Definition example_int (v : value) : string + Z :=
  match v with
  | VInt z => inr z
  | VBool b => inr (if b then 1 else 0)%Z
  | VStr s =>
      match NilEmpty.int_of_string s with
      | Some d => inr (Z.of_int d)
      | None => inl ("invalid literal for int() with base 10: '" ++ s ++ "'")
      end
  | _ => inl "int() argument must be a string or a number"
  end.

Definition is_pve1 (node : value) : bool :=
  match node with
  | VStr s => String.eqb s "pve1"
  | _ => false
  end.

Definition cluster (cnf100 cnf101 : dict) : world := {|
  py_int := example_int;
  py_str_ext := fun _ => "?";
  nodes_get := inr [[("node", VStr "pve1"); ("status", VStr "online")]];
  qemu_get := fun node =>
    if is_pve1 node then
      inr [[("vmid", VInt 100); ("name", VStr "test1"); ("status", VStr "running");
            ("cpu", VFloat 1 (-6))];
           [("vmid", VInt 101); ("name", VStr "test2"); ("status", VStr "stopped");
            ("cpu", VInt 0)]]
    else inl "500 Internal Server Error";
  lxc_get := fun node =>
    if is_pve1 node then
      inr [[("vmid", VStr "200"); ("name", VStr "ct1"); ("status", VStr "running")]]
    else inl "500 Internal Server Error";
  config_get := fun node vmid =>
    if is_pve1 node then
      if py_eq_int vmid 100 then inr cnf100
      else if py_eq_int vmid 101 then inr cnf101
      else inl "500 Configuration file does not exist"
    else inl "500 Internal Server Error";
  get_node := fun n =>
    Ret (if String.eqb n "pve1" then Some [("node", VStr "pve1")] else None);
  get_vmid := fun name =>
    if String.eqb name "test1" then Ret (VInt 100)
    else if String.eqb name "test2" then Ret (VInt 101)
    else FailJson ("No VM with name " ++ name ++ " found")
|}.

Definition plain_config : dict :=
  [("cores", VInt 2); ("memory", VInt 2048); ("ostype", VStr "l26")].

Definition disk_config : dict :=
  [("cores", VInt 2);
   ("scsi0", VStr "local:100/vm-100-disk-0.qcow2,size=30G");
   ("net0", VStr "virtio=28:08:FE:80:DE:A3,bridge=br0,tag=100,firewall=0")].

Definition unused_config : dict :=
  [("cores", VInt 2);
   ("unused149", VStr "local:100/vm-100-disk-8.raw");
   ("unused150", VStr "local:100/vm-100-disk-9.raw")].

Definition broken_disk_config : dict :=
  [("scsi0", VStr "local:100/vm-100-disk-0.qcow2,size=30G");
   ("unused0", VInt 7)].

Definition net100_config : dict :=
  [("net100", VStr "virtio=28:08:FE:80:DE:A3,bridge=vmbr0")].

Definition override_config : dict :=
  [("vmid", VStr "one"); ("type", VStr "template")].

(** *** Notions used in the further properties *)

Definition opt_list {A} (o : option A) : list A :=
  match o with
  | Some a => [a]
  | None => []
  end.

(** The record that [add_to_disks] appends for a slot, if it appends one. *)
Definition disk_record (name : string) (v : value) : option item :=
  match v with
  | VStr s =>
      match disk_tokens [("name", name)] (split "," s) with
      | inr it => Some it
      | inl _ => None
      end
  | _ => None
  end.

Definition net_record (name : string) (v : value) : option item :=
  match v with
  | VStr s =>
      match net_tokens [("name", name)] (split "," s) with
      | inr it => Some it
      | inl _ => None
      end
  | _ => None
  end.

(** The keys that take the second branch of the loop of [get_vm_configs]. *)
Definition is_net_routed (key : string) : bool :=
  negb (is_disk_slot key) && is_net_slot key.

Definition is_slot (key : string) : bool := is_disk_slot key || is_net_slot key.

(** The records of the keys of [keys] that satisfy [p], with the values
    that the record [m] has for them, in the order of [keys]. *)
Definition slot_records (rec : string -> value -> option item)
    (p : string -> bool) (m : dict) (keys : list string) : list item :=
  flat_map (fun k => if p k then
                       match dict_get k m with
                       | Some v => opt_list (rec k v)
                       | None => []
                       end
                     else []) keys.

(** What the loop makes of the value of a key that is no slot. *)
Definition normal (key : string) (v : value) : value :=
  if String.eqb key "cpu" && is_numeric v then VStr "default" else v.

(** [vm["vmid"] == vmid] *)
Definition vmid_is (z : Z) (vm : dict) : bool :=
  match dict_get "vmid" vm with
  | Some v => py_eq_int v z
  | None => false
  end.

(** An outcome that is no exception and whose failure, if it is one,
    carries the given prefix. *)
Definition fails_with {A} (prefix : string) (r : outcome A) : Prop :=
  match r with
  | Ret _ => True
  | Raise _ => False
  | FailJson msg => exists e, msg = prefix ++ e
  end.

(** The integer vmid of an entry of a listing. *)
Definition entry_vmid (W : world) (vm : dict) (z : Z) : Prop :=
  exists v, dict_get "vmid" vm = Some v /\ py_int W v = inr z.

Definition qemu_prefix : string := "Failed to retrieve QEMU VMs information: ".
Definition lxc_prefix : string := "Failed to retrieve LXC VMs information: ".
Definition node_prefix : string := "Failed to retrieve QEMU VMs Node Name: ".

(** Every failure of the computation carries the given prefix. *)
Definition fail_prefix {A} (prefix : string) (m : M A) : Prop :=
  forall st msg, fst (m st) = FailJson msg -> exists e, msg = prefix ++ e.

(** No entry of the listing has the vmid that is looked for. *)
Definition vm_absent (W : world) (vmid : option Z) (l : list dict) : Prop :=
  Forall (fun vm => exists z, entry_vmid W vm z /\ vmid <> Some z) l.

(** The example cluster when the request for the nodes is refused. *)
Definition offline_cluster : world := {|
  py_int := example_int;
  py_str_ext := fun _ => "?";
  nodes_get := inl "Connection refused";
  qemu_get := fun _ => inl "Connection refused";
  lxc_get := fun _ => inl "Connection refused";
  config_get := fun _ _ => inl "Connection refused";
  get_node := fun _ => Raise "Connection refused";
  get_vmid := fun _ => Raise "Connection refused"
|}.

End VmInfo.

(* ================================================================= *)
(** ** Facts about strings *)

Module StrFacts.
Import Str.

Lemma app_nil_r (s : string) : s ++ "" = s.
Proof. induction s; simpl; congruence. Qed.

Lemma app_assoc (a b c : string) : (a ++ b) ++ c = a ++ (b ++ c).
Proof. induction a; simpl; congruence. Qed.

Lemma app_eq_nil (a b : string) : a ++ b = "" -> a = "" /\ b = "".
Proof. destruct a; simpl; [auto | discriminate]. Qed.

Lemma split_not_nil sep s : split sep s <> [].
Proof.
  destruct s as [|a s']; simpl; [discriminate|].
  destruct (Ascii.eqb a sep); [discriminate|].
  destruct (split sep s'); discriminate.
Qed.

Lemma contains_app c a b : contains c (a ++ b) = contains c a || contains c b.
Proof.
  induction a as [|x a IH]; simpl; [reflexivity|].
  destruct (Ascii.eqb x c); simpl; auto.
Qed.

(** A string contains the separator exactly when splitting gives at least
    two pieces, so that index [1] of the split exists. *)
Lemma contains_split c s :
  contains c s = true -> exists h x t, split c s = h :: x :: t.
Proof.
  induction s as [|a s IH]; simpl; [discriminate|].
  destruct (Ascii.eqb a c) eqn:E.
  - intros _. destruct (split c s) as [|x t] eqn:S.
    + now destruct (split_not_nil c s).
    + now exists "", x, t.
  - intros H. destruct (IH H) as (h & x & t & ->). now exists (String a h), x, t.
Qed.

Lemma split_no_sep c s : contains c s = false -> split c s = [s].
Proof.
  induction s as [|a s IH]; simpl; [reflexivity|].
  destruct (Ascii.eqb a c); [discriminate|].
  intros H. now rewrite (IH H).
Qed.

(** Splitting [k ++ sep ++ v] when [k] has no separator: the first piece is
    [k] and the rest is the split of [v]. *)
Lemma split_app c k v :
  contains c k = false -> split c (k ++ String c v) = k :: split c v.
Proof.
  induction k as [|a k IH]; simpl.
  - intros _. now rewrite Ascii.eqb_refl.
  - destruct (Ascii.eqb a c); [discriminate|].
    intros H. now rewrite (IH H).
Qed.

End StrFacts.

(* ================================================================= *)
(** ** The matcher agrees with the relational semantics *)

Module ReFacts.
Import Str StrFacts Re.

Create HintDb re.
#[export] Hint Constructors Mat : re.

Lemma nullable_sound r : forall b rest,
  nullable b rest r = true -> Mat b r "" rest.
Proof.
  induction r; simpl; intros b rest H; try discriminate; auto with re.
  - subst b. constructor.
  - apply andb_true_iff in H as [H1 H2].
    change (Mat b (Seq r1 r2) ("" ++ "") rest).
    apply MSeq; simpl; [|rewrite andb_true_r]; auto.
  - apply orb_true_iff in H as [H|H]; auto with re.
Qed.

Lemma nullable_complete b r w rest :
  Mat b r w rest -> w = "" -> nullable b rest r = true.
Proof.
  induction 1; simpl; intros E; auto; try discriminate.
  - apply StrFacts.app_eq_nil in E as [-> ->]. simpl in *.
    rewrite andb_true_r in IHMat2. rewrite IHMat1, IHMat2; auto.
  - rewrite IHMat; auto.
  - rewrite IHMat; auto using orb_true_r.
Qed.

Lemma nullable_Mat b rest r : nullable b rest r = true <-> Mat b r "" rest.
Proof.
  split; [apply nullable_sound | intros H; now apply (nullable_complete _ _ _ _ H)].
Qed.

(** Reading one character of a match is taking the residual. *)
Lemma Mat_deriv b r w0 rest :
  Mat b r w0 rest ->
  forall c w, w0 = String c w -> Mat false (deriv b c (w ++ rest) r) w rest.
Proof.
  induction 1; intros c0 u E; try discriminate.
  - injection E as -> <-. simpl. rewrite H. constructor.
  - destruct w1 as [|a w1]; simpl in E.
    + subst w2. simpl in *. rewrite andb_true_r in *.
      apply nullable_Mat in H. rewrite H. apply MAltR. now apply IHMat2.
    + injection E as -> <-. simpl in *. rewrite andb_false_r in *.
      apply MAltL. rewrite StrFacts.app_assoc. apply MSeq; simpl; auto.
  - simpl. apply MAltL. now apply IHMat.
  - simpl. apply MAltR. now apply IHMat.
  - destruct w1 as [|a w1]; simpl in E.
    + subst w2. simpl in *. rewrite andb_true_r in *. now apply IHMat2.
    + injection E as -> <-. simpl in *. rewrite andb_false_r in *.
      rewrite StrFacts.app_assoc. apply MSeq; simpl; auto.
Qed.

Lemma deriv_Mat r : forall b c w rest,
  Mat false (deriv b c (w ++ rest) r) w rest -> Mat b r (String c w) rest.
Proof.
  induction r; simpl; intros b c w rest H; try solve [inversion H].
  - destruct (cset_mem p c) eqn:E; inversion H; subst. now constructor.
  - inversion H as [| | | | | ? ? ? ? ? HL | ? ? ? ? ? HR | |]; subst.
    + inversion HL as [| | | | ? ? ? w1 w2 ? H1 H2 | | | |]; subst.
      rewrite StrFacts.app_assoc in H1. apply IHr1 in H1.
      change (Mat b (Seq r1 r2) (String c w1 ++ w2) rest).
      apply MSeq; simpl; [exact H1 | now rewrite andb_false_r].
    + destruct (nullable b (String c (w ++ rest)) r1) eqn:N; [|inversion HR].
      apply nullable_Mat in N. apply IHr2 in HR.
      change (Mat b (Seq r1 r2) ("" ++ String c w) rest).
      apply MSeq; simpl; [exact N | now rewrite andb_true_r].
  - inversion H; subst; auto with re.
  - inversion H as [| | | | ? ? ? w1 w2 ? H1 H2 | | | |]; subst.
    rewrite StrFacts.app_assoc in H1. apply IHr in H1.
    change (Mat b (Star r) (String c w1 ++ w2) rest).
    apply MStarS; simpl; [exact H1 | now rewrite andb_false_r].
Qed.

(** [match_from] finds exactly the matches of a prefix. *)
Lemma match_from_spec s : forall b r,
  match_from b s r = true <-> exists w rest, s = w ++ rest /\ Mat b r w rest.
Proof.
  induction s as [|c s IH]; intros b r; simpl.
  - rewrite nullable_Mat. split.
    + intros H. now exists "", "".
    + intros (w & rest & E & H). symmetry in E.
      apply StrFacts.app_eq_nil in E as [-> ->]. exact H.
  - destruct (nullable b (String c s) r) eqn:N.
    + split; [intros _|reflexivity]. apply nullable_Mat in N.
      now exists "", (String c s).
    + rewrite IH. split.
      * intros (w & rest & -> & H). exists (String c w), rest. split; [reflexivity|].
        now apply deriv_Mat.
      * intros (w & rest & E & H). destruct w as [|a w]; simpl in E.
        -- subst rest. apply nullable_Mat in H. congruence.
        -- injection E as <- ->. exists w, rest. split; [reflexivity|].
           now apply (Mat_deriv _ _ _ _ H).
Qed.

Lemma anchored_no_match r : anchored r = true ->
  forall w rest, ~ Mat false r w rest.
Proof.
  induction r; simpl; intros A w rest H; try discriminate.
  - inversion H.
  - inversion H; subst. eapply IHr1; eauto.
  - apply andb_true_iff in A as [A1 A2].
    inversion H; subst; [eapply IHr1 | eapply IHr2]; eauto.
Qed.

Lemma search_later_anchored r : anchored r = true ->
  forall s, search_later s r = false.
Proof.
  intros A. induction s as [|c s IH]; simpl; [reflexivity|].
  destruct (match_from false s r) eqn:E; [|exact IH].
  apply match_from_spec in E as (w & rest & _ & H).
  now destruct (anchored_no_match r A w rest).
Qed.

(** For an anchored pattern [re.search] succeeds exactly when the pattern
    matches a prefix of the string. *)
Lemma search_anchored r s : anchored r = true ->
  (search r s = true <-> exists w rest, s = w ++ rest /\ Mat true r w rest).
Proof.
  intros A. unfold search. rewrite <- match_from_spec.
  destruct (match_from true s r); [tauto|].
  now rewrite search_later_anchored.
Qed.

End ReFacts.

(* ================================================================= *)
(** ** What the three patterns accept *)

Module PatternFacts.
Import Str StrFacts Re ReFacts Py VmInfo.

(** Inversion of the relational semantics, one constructor at a time. *)
Lemma Mat_Seq_inv b r1 r2 w rest :
  Mat b (Seq r1 r2) w rest ->
  exists w1 w2, w = w1 ++ w2 /\ Mat b r1 w1 (w2 ++ rest) /\
                Mat (b && is_empty w1) r2 w2 rest.
Proof. inversion 1; subst; eauto. Qed.

Lemma Mat_Seq b r1 r2 w1 w2 w rest :
  w = w1 ++ w2 -> Mat b r1 w1 (w2 ++ rest) ->
  Mat (b && is_empty w1) r2 w2 rest -> Mat b (Seq r1 r2) w rest.
Proof. intros ->. apply MSeq. Qed.

Lemma Mat_Alt_inv b r1 r2 w rest :
  Mat b (Alt r1 r2) w rest -> Mat b r1 w rest \/ Mat b r2 w rest.
Proof. inversion 1; subst; auto. Qed.

Lemma Mat_Chr_inv b p w rest :
  Mat b (Chr p) w rest -> exists c, w = String c "" /\ cset_mem p c = true.
Proof. inversion 1; subst; eauto. Qed.

Lemma Mat_Lit_inv b a w rest : Mat b (Chr (Lit a)) w rest -> w = String a "".
Proof.
  intros H. apply Mat_Chr_inv in H as (c & -> & E).
  simpl in E. apply Ascii.eqb_eq in E. now subst.
Qed.

Lemma Mat_Bol_inv b w rest : Mat b Bol w rest -> w = "".
Proof. now inversion 1. Qed.

Lemma Mat_Eps_inv b w rest : Mat b Eps w rest -> w = "".
Proof. now inversion 1. Qed.

Lemma Mat_Eol_inv b w rest : Mat b Eol w rest -> w = "" /\ at_eol rest = true.
Proof. now inversion 1. Qed.

Lemma Mat_Opt_inv b p w rest :
  Mat b (Opt (Chr p)) w rest ->
  w = "" \/ exists c, w = String c "" /\ cset_mem p c = true.
Proof.
  intros H. apply Mat_Alt_inv in H as [H|H].
  - right. now apply Mat_Chr_inv in H.
  - left. now apply Mat_Eps_inv in H.
Qed.

Lemma Mat_lit_inv s : forall b w rest, Mat b (lit s) w rest -> w = s.
Proof.
  induction s as [|c s IH]; intros b w rest H; simpl in H.
  - now apply Mat_Eps_inv in H.
  - destruct s as [|c' s].
    + now apply Mat_Lit_inv in H.
    + apply Mat_Seq_inv in H as (w1 & w2 & -> & H1 & H2).
      apply Mat_Lit_inv in H1. apply IH in H2. now subst.
Qed.

Lemma Mat_lit s : forall b rest, Mat b (lit s) s rest.
Proof.
  induction s as [|c s IH]; intros b rest; simpl.
  - constructor.
  - destruct s as [|c' s].
    + constructor. simpl. apply Ascii.eqb_refl.
    + change (String c (String c' s)) with (String c "" ++ String c' s).
      apply MSeq; [constructor; simpl; apply Ascii.eqb_refl | apply IH].
Qed.

Lemma at_eol_inv rest :
  at_eol rest = true -> rest = "" \/ rest = String newline "".
Proof.
  destruct rest as [|c [|c' rest]]; simpl; auto; [|discriminate].
  intros E. apply Ascii.eqb_eq in E. subst. now right.
Qed.

(** **** The pattern of disk values *)

(** A token of the storage shape contains a slash, so that index 1 of
    [data.split('/')] exists. *)
Lemma disk_value_has_slash data :
  search disk_value_regex data = true -> contains "/" data = true.
Proof.
  intros H. apply search_anchored in H as (w & rest & -> & H); [|reflexivity].
  unfold disk_value_regex in H. simpl in H.
  apply Mat_Seq_inv in H as (w0 & w1 & -> & _ & H).
  apply Mat_Seq_inv in H as (w2 & w3 & -> & _ & H).
  apply Mat_Seq_inv in H as (w4 & w5 & -> & _ & H).
  apply Mat_Seq_inv in H as (w6 & w7 & -> & _ & H).
  apply Mat_Seq_inv in H as (w8 & w9 & -> & _ & H).
  apply Mat_Seq_inv in H as (wa & wb & -> & H & _).
  apply Mat_Lit_inv in H. subst wa.
  rewrite !contains_app. simpl. now rewrite !orb_true_r.
Qed.

(** **** The pattern of network slots *)

Lemma all_digits_app a b :
  all_digits (a ++ b) = all_digits a && all_digits b.
Proof. induction a; simpl; [reflexivity | now rewrite IHa, andb_assoc]. Qed.

Lemma star_digit_inv b r w rest :
  Mat b r w rest -> r = Star digit -> all_digits w = true.
Proof.
  induction 1; intros E; try discriminate; [reflexivity|].
  injection E as ->. rewrite all_digits_app, IHMat2 by reflexivity.
  apply Mat_Chr_inv in H as (c & -> & Hc). simpl. unfold is_digit.
  simpl in Hc. now rewrite Hc.
Qed.

Lemma star_digit s : forall b rest,
  all_digits s = true -> Mat b (Star digit) s rest.
Proof.
  induction s as [|c s IH]; simpl; intros b rest H; [constructor|].
  apply andb_true_iff in H as [Hc Hs].
  change (String c s) with (String c "" ++ s).
  apply MStarS; [now constructor | now apply IH].
Qed.

Lemma range_1_9_digit c : in_range "1" "9" c = true -> is_digit c = true.
Proof.
  unfold is_digit, in_range. rewrite !andb_true_iff, !N.leb_le. simpl. lia.
Qed.

(** [net_regex] accepts the word net followed by any number of decimal
    digits, none included, and allows one newline after it. *)
Lemma net_slot_spec key :
  is_net_slot key = true <->
  exists ds, all_digits ds = true /\
             (key = "net" ++ ds \/ key = "net" ++ ds ++ String newline "").
Proof.
  unfold is_net_slot. rewrite search_anchored by reflexivity. split.
  - intros (w & rest & -> & H). unfold net_regex in H. simpl in H.
    apply Mat_Seq_inv in H as (w0 & w1 & -> & H0 & H).
    apply Mat_Bol_inv in H0. subst w0.
    apply Mat_Seq_inv in H as (w2 & w3 & -> & H2 & H).
    apply (Mat_lit_inv "net") in H2. subst w2.
    apply Mat_Seq_inv in H as (ds & w5 & -> & Hd & H).
    apply Mat_Eol_inv in H as [-> He].
    exists ds. split.
    + apply Mat_Alt_inv in Hd as [Hd|Hd];
        apply Mat_Seq_inv in Hd as (a & b' & -> & Ha & Hb).
      * apply Mat_Lit_inv in Ha. subst a.
        apply Mat_Opt_inv in Hb as [->|(c & -> & Hc)]; [reflexivity|].
        simpl. now rewrite (range_1_9_digit c Hc).
      * pose proof (star_digit_inv _ _ _ _ Hb eq_refl) as Hs.
        rewrite all_digits_app, Hs.
        apply Mat_Opt_inv in Ha as [->|(c & -> & Hc)]; [reflexivity|].
        simpl. now rewrite (range_1_9_digit c Hc).
    + simpl. rewrite StrFacts.app_nil_r.
      apply at_eol_inv in He as [->| ->]; [left | right]; simpl;
        now rewrite ?StrFacts.app_nil_r.
  - intros (ds & Hd & E).
    assert (T : exists rest, at_eol rest = true /\ key = "net" ++ ds ++ rest).
    { destruct E as [->| ->].
      - exists "". now rewrite StrFacts.app_nil_r.
      - now exists (String newline ""). }
    destruct T as (rest & He & ->).
    exists ("net" ++ ds), rest. split; [now rewrite StrFacts.app_assoc|].
    unfold net_regex. simpl cat.
    apply (Mat_Seq _ _ _ "" ("net" ++ ds)); [reflexivity | constructor |].
    apply (Mat_Seq _ _ _ "net" ds); [reflexivity | apply (Mat_lit "net") |].
    apply (Mat_Seq _ _ _ ds ""); [now rewrite StrFacts.app_nil_r | | now constructor].
    apply MAltR.
    apply (Mat_Seq _ _ _ "" ds); [reflexivity | apply MAltR; constructor |].
    now apply star_digit.
Qed.

(** **** The pattern of disk slots *)

Lemma all_ascii_complete c : In c all_ascii.
Proof.
  unfold all_ascii. rewrite <- (ascii_nat_embedding c).
  apply in_map, in_seq. pose proof (nat_ascii_bounded c). lia.
Qed.

Lemma chars_of_complete p c : cset_mem p c = true -> In c (chars_of p).
Proof. intros H. apply filter_In. split; [apply all_ascii_complete | exact H]. Qed.

(** Every match of a pattern without star is one of its [words]. *)
Lemma words_sound b r w rest :
  Mat b r w rest -> forall l, words r = Some l -> In w l.
Proof.
  induction 1; simpl; intros l E; try discriminate.
  - injection E as <-. now left.
  - injection E as <-.
    apply (in_map (fun a => String a "")). now apply chars_of_complete.
  - injection E as <-. now left.
  - injection E as <-. now left.
  - destruct (words r1) as [l1|]; [|discriminate].
    destruct (words r2) as [l2|]; [|discriminate].
    injection E as <-. apply in_flat_map. exists w1. split; [auto|].
    apply (in_map (append w1)). auto.
  - destruct (words r1) as [l1|]; [|discriminate].
    destruct (words r2) as [l2|]; [|discriminate].
    injection E as <-. apply in_or_app. left. auto.
  - destruct (words r1) as [l1|]; [|discriminate].
    destruct (words r2) as [l2|]; [|discriminate].
    injection E as <-. apply in_or_app. right. auto.
Qed.

Lemma ends_eol_sound r : ends_eol r = true ->
  forall b w rest, Mat b r w rest -> at_eol rest = true.
Proof.
  induction r; simpl; intros E b w rest H; try discriminate.
  - now inversion H.
  - inversion H; subst. eapply IHr2; eauto.
  - apply andb_true_iff in E as [E1 E2].
    inversion H; subst; [eapply IHr1 | eapply IHr2]; eauto.
Qed.

Lemma mem_string_In k l : mem_string k l = true <-> In k l.
Proof.
  unfold mem_string. rewrite existsb_exists. split.
  - intros (x & Hx & E). apply String.eqb_eq in E. now subst.
  - intros H. exists k. split; [exact H | apply String.eqb_refl].
Qed.

Lemma disk_words_listed :
  match words disk_regex with
  | Some l => forallb (fun w => mem_string w disk_slot_keys) l
  | None => false
  end = true.
Proof. vm_compute. reflexivity. Qed.

Lemma disk_keys_accepted :
  forallb (fun w => is_disk_slot w && is_disk_slot (w ++ String newline ""))
          disk_slot_keys = true.
Proof. vm_compute. reflexivity. Qed.

(** [disk_regex] accepts exactly the keys of [disk_slot_keys], each also
    with one newline after it. *)
Lemma disk_slot_spec key :
  is_disk_slot key = true <->
  exists w, In w disk_slot_keys /\ (key = w \/ key = w ++ String newline "").
Proof.
  unfold is_disk_slot. split.
  - intros H. apply search_anchored in H as (w & rest & -> & H); [|reflexivity].
    pose proof disk_words_listed as L.
    destruct (words disk_regex) as [l|] eqn:E; [|discriminate].
    rewrite forallb_forall in L.
    exists w. split.
    + apply mem_string_In, L. exact (words_sound _ _ _ _ H l E).
    + apply (ends_eol_sound disk_regex) in H; [|reflexivity].
      apply at_eol_inv in H as [->| ->]; [left | right]; auto.
      now rewrite StrFacts.app_nil_r.
  - intros (w & Hw & E).
    pose proof disk_keys_accepted as A. rewrite forallb_forall in A.
    apply A, andb_true_iff in Hw as [H1 H2].
    destruct E as [->| ->]; assumption.
Qed.

(** Of the documented keys, [disk_regex] rejects exactly unused150 to
    unused199. *)
Lemma documented_keys_rejected :
  filter (fun k => negb (is_disk_slot k)) documented_disk_keys
  = slot_keys "unused" 150 50.
Proof. vm_compute. reflexivity. Qed.

(** No disk slot is a network slot. *)
Lemma net_slot_not_disk key : is_net_slot key = true -> is_disk_slot key = false.
Proof.
  intros H. destruct (is_disk_slot key) eqn:D; [|reflexivity].
  apply disk_slot_spec in D as (w & Hw & E).
  apply net_slot_spec in H as (ds & _ & E').
  assert (P : exists x, key = "net" ++ x).
  { destruct E' as [->| ->]; eauto. }
  destruct P as (x & ->).
  assert (Q : forallb (fun w => match w with
                               | String c _ => negb (Ascii.eqb c "n")
                               | EmptyString => true
                               end) disk_slot_keys = true)
    by (vm_compute; reflexivity).
  rewrite forallb_forall in Q. apply Q in Hw.
  destruct w as [|c w]; simpl in E; [destruct E; discriminate|].
  destruct E as [E|E]; injection E as <- _; discriminate.
Qed.

End PatternFacts.

(* ================================================================= *)
(** ** Facts about dictionaries *)

Module DictFacts.
Import Py.

Section Dict.
Context {V : Type}.
Implicit Types (d e : list (string * V)) (k : string) (v : V).

Lemma dict_get_set_eq k v d : dict_get k (dict_set k v d) = Some v.
Proof.
  induction d as [|[k' v'] d IH]; simpl.
  - now rewrite String.eqb_refl.
  - destruct (String.eqb k' k) eqn:E; simpl; rewrite E; auto.
Qed.

Lemma dict_get_set_neq k k0 v d :
  k0 <> k -> dict_get k0 (dict_set k v d) = dict_get k0 d.
Proof.
  intros N. induction d as [|[k' v'] d IH]; simpl.
  - apply String.eqb_neq in N. rewrite String.eqb_sym. now rewrite N.
  - destruct (String.eqb k' k) eqn:E; simpl.
    + apply String.eqb_eq in E. subst k'.
      assert (E : String.eqb k k0 = false)
        by (apply String.eqb_neq; congruence).
      now rewrite E.
    + now rewrite IH.
Qed.

Lemma dict_get_del_eq k d : dict_get k (dict_del k d) = None.
Proof.
  induction d as [|[k' v'] d IH]; simpl; [reflexivity|].
  destruct (String.eqb k' k) eqn:E; simpl; [exact IH | now rewrite E].
Qed.

Lemma dict_get_del_neq k k0 d :
  k0 <> k -> dict_get k0 (dict_del k d) = dict_get k0 d.
Proof.
  intros N. induction d as [|[k' v'] d IH]; simpl; [reflexivity|].
  destruct (String.eqb k' k) eqn:E; simpl.
  - apply String.eqb_eq in E. subst k'.
    assert (E : String.eqb k k0 = false) by (apply String.eqb_neq; congruence).
    now rewrite E.
  - now rewrite IH.
Qed.

Lemma dict_keys_del k d : ~ In k (dict_keys (dict_del k d)).
Proof.
  induction d as [|[k' v'] d IH]; simpl; [tauto|].
  destruct (String.eqb k' k) eqn:E; simpl; [exact IH|].
  apply String.eqb_neq in E. tauto.
Qed.

Lemma dict_get_some_keys k d : dict_get k d <> None <-> In k (dict_keys d).
Proof.
  induction d as [|[k' v'] d IH]; simpl; [tauto|].
  destruct (String.eqb k' k) eqn:E.
  - apply String.eqb_eq in E. split; [auto | discriminate].
  - apply String.eqb_neq in E. rewrite IH. tauto.
Qed.

(** Assigning to a key that is present keeps the order of the keys. *)
Lemma dict_keys_set_present k v d :
  dict_get k d <> None -> dict_keys (dict_set k v d) = dict_keys d.
Proof.
  induction d as [|[k' v'] d IH]; simpl; [congruence|].
  destruct (String.eqb k' k) eqn:E; simpl; [reflexivity|].
  intros H. now rewrite IH.
Qed.


End Dict.

End DictFacts.

(* ================================================================= *)
(** ** The two parsers of slot values *)

Module ParserFacts.
Import Str StrFacts Re ReFacts Py VmInfo PatternFacts DictFacts.

(** What [.+] matches. *)
Lemma star_dot_inv b r w rest :
  Mat b r w rest -> r = Star (Chr Dot) -> contains newline w = false.
Proof.
  induction 1; intros E; try discriminate; [reflexivity|].
  injection E as ->. rewrite contains_app, IHMat2 by reflexivity.
  apply Mat_Chr_inv in H as (c & -> & Hc). simpl in *.
  now destruct (Ascii.eqb c newline).
Qed.

Lemma plus_dot_inv b w rest : Mat b (Plus (Chr Dot)) w rest -> line w = true.
Proof.
  intros H. apply Mat_Seq_inv in H as (w1 & w2 & -> & H1 & H2).
  pose proof (star_dot_inv _ _ _ _ H2 eq_refl) as H3.
  apply Mat_Chr_inv in H1 as (c & -> & Hc). simpl in Hc.
  unfold line. simpl. rewrite H3.
  now destruct (Ascii.eqb c newline).
Qed.

Lemma star_dot w : forall b rest,
  contains newline w = false -> Mat b (Star (Chr Dot)) w rest.
Proof.
  induction w as [|c w IH]; simpl; intros b rest H; [constructor|].
  destruct (Ascii.eqb c newline) eqn:E; [discriminate|].
  change (String c w) with (String c "" ++ w).
  apply MStarS; [constructor; simpl; now rewrite E | now apply IH].
Qed.

Lemma plus_dot b w rest : line w = true -> Mat b (Plus (Chr Dot)) w rest.
Proof.
  unfold line. destruct w as [|c w]; simpl; [discriminate|].
  destruct (Ascii.eqb c newline) eqn:E; simpl; [discriminate|].
  intros H. apply negb_true_iff in H.
  apply (Mat_Seq _ _ _ (String c "") w); [reflexivity | |now apply star_dot].
  constructor. simpl. now rewrite E.
Qed.

(** The storage shape: some text, a colon, a digit, some text, a slash,
    some text, a dot and some text, all on one line; anything may follow. *)
Lemma disk_value_spec data :
  search disk_value_regex data = true <->
  exists a d m f e rest,
    data = a ++ ":" ++ String d (m ++ "/" ++ f ++ "." ++ e ++ rest) /\
    line a = true /\ is_digit d = true /\ line m = true /\
    line f = true /\ line e = true.
Proof.
  rewrite search_anchored by reflexivity. unfold disk_value_regex. simpl cat.
  split.
  - intros (w & rest & -> & H).
    apply Mat_Seq_inv in H as (w0 & w1 & -> & H0 & H).
    apply Mat_Bol_inv in H0. subst w0.
    apply Mat_Seq_inv in H as (a & w2 & -> & Ha & H).
    apply Mat_Seq_inv in H as (c1 & w3 & -> & Hc1 & H).
    apply Mat_Seq_inv in H as (d1 & w4 & -> & Hd & H).
    apply Mat_Seq_inv in H as (m & w5 & -> & Hm & H).
    apply Mat_Seq_inv in H as (c2 & w6 & -> & Hc2 & H).
    apply Mat_Seq_inv in H as (f & w7 & -> & Hf & H).
    apply Mat_Seq_inv in H as (c3 & e & -> & Hc3 & He).
    apply Mat_Lit_inv in Hc1, Hc2, Hc3. subst c1 c2 c3.
    apply Mat_Chr_inv in Hd as (d & -> & Hd).
    apply plus_dot_inv in Ha, Hm, Hf, He.
    exists a, d, m, f, e, rest. repeat split; auto.
    simpl. now repeat (rewrite StrFacts.app_assoc; simpl).
  - intros (a & d & m & f & e & rest & -> & Ha & Hd & Hm & Hf & He).
    exists (a ++ ":" ++ String d (m ++ "/" ++ f ++ "." ++ e)), rest. split.
    + simpl. now repeat (rewrite StrFacts.app_assoc; simpl).
    + eapply Mat_Seq with (w1 := ""); [reflexivity | constructor |].
      eapply Mat_Seq with (w1 := a); [reflexivity | now apply plus_dot |].
      eapply Mat_Seq with (w1 := ":"); [reflexivity | now constructor |].
      eapply Mat_Seq with (w1 := String d ""); [reflexivity | now constructor |].
      eapply Mat_Seq with (w1 := m); [reflexivity | now apply plus_dot |].
      eapply Mat_Seq with (w1 := "/"); [reflexivity | now constructor |].
      eapply Mat_Seq with (w1 := f); [reflexivity | now apply plus_dot |].
      eapply Mat_Seq with (w1 := "."); [reflexivity | now constructor |].
      now apply plus_dot.
Qed.

(** A token of the storage shape: the text before the first colon and the
    text between the first and the second slash are recorded. *)
Lemma disk_token_storage it data :
  search disk_value_regex data = true ->
  exists storage after_colon before path after_path,
    split ":" data = storage :: after_colon /\
    split "/" data = before :: path :: after_path /\
    disk_token it data
    = inr (dict_set "path" path (dict_set "storage" storage it)).
Proof.
  intros S. unfold disk_token. rewrite S. simpl.
  destruct (contains_split "/" data (disk_value_has_slash data S))
    as (h & x & t & E).
  destruct (split ":" data) as [|s0 l0] eqn:C; [now destruct (split_not_nil ":" data)|].
  exists s0, l0, h, x, t. rewrite E. simpl. auto.
Qed.

(** Any other token with an equals sign: the first two pieces of the split
    at every equals sign are key and value. *)
Lemma disk_token_keyval it data :
  search disk_value_regex data = false -> contains "=" data = true ->
  exists k v more,
    split "=" data = k :: v :: more /\ disk_token it data = inr (dict_set k v it).
Proof.
  intros S C. unfold disk_token. rewrite S, C. simpl.
  destruct (contains_split "=" data C) as (h & x & t & E).
  exists h, x, t. rewrite E. simpl. auto.
Qed.

Lemma disk_token_skip it data :
  search disk_value_regex data = false -> contains "=" data = false ->
  disk_token it data = inr it.
Proof. intros S C. unfold disk_token. now rewrite S, C. Qed.

(** The loop over the tokens of a string never raises. *)
Lemma disk_token_total it data : exists it', disk_token it data = inr it'.
Proof.
  destruct (search disk_value_regex data) eqn:S.
  - destruct (disk_token_storage it data S) as (? & ? & ? & ? & ? & _ & _ & E); eauto.
  - destruct (contains "=" data) eqn:C.
    + destruct (disk_token_keyval it data S C) as (? & ? & ? & _ & E); eauto.
    + rewrite (disk_token_skip it data S C); eauto.
Qed.

Lemma disk_tokens_total datas : forall it, exists it', disk_tokens it datas = inr it'.
Proof.
  induction datas as [|data datas IH]; simpl; intros it; [eauto|].
  destruct (disk_token_total it data) as (it1 & ->). apply IH.
Qed.

(** One equals sign in a token. *)
Lemma split_one_equals k v :
  contains "=" k = false -> contains "=" v = false ->
  split "=" (k ++ "=" ++ v) = [k; v].
Proof.
  intros Hk Hv. simpl. rewrite (split_app "=" k v Hk).
  now rewrite (split_no_sep "=" v Hv).
Qed.

Lemma contains_equals k v : contains "=" (k ++ "=" ++ v) = true.
Proof. rewrite contains_app. simpl. apply orb_true_r. Qed.

End ParserFacts.

(* ================================================================= *)
(** ** The methods of the class *)

Module MethodFacts.
Import Str StrFacts Re ReFacts Py VmInfo PatternFacts DictFacts ParserFacts.

(** *** Inversion of the monad *)

Lemma bind_Ret_inv {A B} (m : M A) (k : A -> M B) st b st' :
  bind m k st = (Ret b, st') ->
  exists a st1, m st = (Ret a, st1) /\ k a st1 = (Ret b, st').
Proof.
  unfold bind. destruct (m st) as [[a|e|msg] st1]; intros H;
    try discriminate; eauto.
Qed.

Lemma try_fail_Ret_inv {A} prefix (m : M A) st a st' :
  try_fail prefix m st = (Ret a, st') -> m st = (Ret a, st').
Proof.
  unfold try_fail. destruct (m st) as [[?|?|?] ?]; intros H;
    try discriminate; auto.
Qed.

Lemma of_sum_Ret_inv {A} (r : string + A) st a st' :
  of_sum r st = (Ret a, st') -> r = inr a /\ st' = st.
Proof.
  destruct r; unfold of_sum, ret, raise; intros H; inversion H; auto.
Qed.

Lemma getitem_Ret_inv d k st v st' :
  getitem d k st = (Ret v, st') -> dict_get k d = Some v /\ st' = st.
Proof.
  unfold getitem. destruct (dict_get k d); unfold ret, raise; intros H;
    inversion H; auto.
Qed.

Lemma request_Ret_inv {A} c (r : string + A) st a st' :
  request c r st = (Ret a, st') -> r = inr a /\ st' = snd (log c st).
Proof.
  unfold request. intros H. apply bind_Ret_inv in H as (u & st1 & L & H).
  apply of_sum_Ret_inv in H as [-> ->]. now rewrite L.
Qed.

Lemma ret_inv {A} (a b : A) st st' : ret a st = (Ret b, st') -> a = b /\ st = st'.
Proof. unfold ret. intros H. inversion H. auto. Qed.

(** *** The two parsers as state transformers *)

Ltac nothing_appended st :=
  exists false, st; split; [reflexivity|]; split; [reflexivity|];
  split; [reflexivity|]; exists []; now rewrite List.app_nil_r.

Lemma add_to_disks_ret key val st :
  exists b st', add_to_disks key val st = (Ret b, st') /\
    nets st' = nets st /\ calls st' = calls st /\
    exists l, disks st' = (disks st ++ l)%list.
Proof.
  unfold add_to_disks.
  destruct val as [| | | |s| |]; try nothing_appended st.
  destruct (disk_tokens [("name", key)] (split "," s)) as [e|it].
  - nothing_appended st.
  - eexists true, _. split; [reflexivity|]. simpl. eauto.
Qed.

Lemma add_to_nets_ret key val st :
  exists b st', add_to_nets key val st = (Ret b, st') /\
    disks st' = disks st /\ calls st' = calls st /\
    exists l, nets st' = (nets st ++ l)%list.
Proof.
  unfold add_to_nets.
  destruct val as [| | | |s| |]; try nothing_appended st.
  destruct (net_tokens [("name", key)] (split "," s)) as [e|it].
  - nothing_appended st.
  - eexists true, _. split; [reflexivity|]. simpl. eauto.
Qed.

(** *** The body of the loop of get_vm_configs *)

Lemma classify_key_eq key vm d n st :
  classify_key key (vm, d, n) st =
  match dict_get key vm with
  | None => (Raise (key_error key), st)
  | Some val =>
      if is_disk_slot key then
        (Ret (dict_del key vm, true, n), snd (add_to_disks key val st))
      else if is_net_slot key then
        (Ret (dict_del key vm, d, true), snd (add_to_nets key val st))
      else if String.eqb key "cpu" && is_numeric val then
        (Ret (dict_set "cpu" (VStr "default") vm, d, n), st)
      else (Ret (vm, d, n), st)
  end.
Proof.
  unfold classify_key, bind, getitem.
  destruct (dict_get key vm) as [val|]; [|reflexivity].
  unfold ret at 1. simpl.
  destruct (is_disk_slot key).
  { destruct (add_to_disks_ret key val st) as (b & st' & E & _).
    now rewrite E. }
  destruct (is_net_slot key).
  { destruct (add_to_nets_ret key val st) as (b & st' & E & _).
    now rewrite E. }
  now destruct (String.eqb key "cpu" && is_numeric val).
Qed.

(** The flags tell whether an accumulator was touched. *)
Lemma classify_keys_flags keys : forall vm d n st vm' d' n' st',
  classify_keys keys (vm, d, n) st = (Ret (vm', d', n'), st') ->
  calls st' = calls st /\
  (d' = false -> d = false /\ disks st' = disks st) /\
  (n' = false -> n = false /\ nets st' = nets st).
Proof.
  induction keys as [|key keys IH]; cbn [classify_keys];
    intros vm d n st vm' d' n' st' H.
  - apply ret_inv in H as [E <-]. injection E as <- <- <-. auto.
  - apply bind_Ret_inv in H as ([[vm1 d1] n1] & st1 & S & H).
    apply IH in H as (C & D & N). rewrite classify_key_eq in S.
    destruct (dict_get key vm) as [val|]; [|discriminate].
    destruct (is_disk_slot key).
    { destruct (add_to_disks_ret key val st) as (b & st2 & E & En & Ec & _).
      rewrite E in S. simpl in S. injection S as <- <- <- <-.
      split; [congruence|]. split.
      - intros F. now destruct (D F).
      - intros F. destruct (N F) as [-> ->]. auto. }
    destruct (is_net_slot key).
    { destruct (add_to_nets_ret key val st) as (b & st2 & E & Ed & Ec & _).
      rewrite E in S. simpl in S. injection S as <- <- <- <-.
      split; [congruence|]. split.
      - intros F. destruct (D F) as [-> ->]. auto.
      - intros F. now destruct (N F). }
    destruct (String.eqb key "cpu" && is_numeric val);
      injection S as <- <- <- <-; auto.
Qed.

(** A key that is no slot and is not cpu keeps its value. *)
Lemma classify_keys_get k0 keys : forall vm d n st vm' d' n' st',
  is_disk_slot k0 = false -> is_net_slot k0 = false -> k0 <> "cpu" ->
  classify_keys keys (vm, d, n) st = (Ret (vm', d', n'), st') ->
  dict_get k0 vm' = dict_get k0 vm.
Proof.
  induction keys as [|key keys IH]; cbn [classify_keys];
    intros vm d n st vm' d' n' st' Hd Hn Hc H.
  - apply ret_inv in H as [E _]. now injection E as <- _ _.
  - apply bind_Ret_inv in H as ([[vm1 d1] n1] & st1 & S & H).
    apply IH in H; auto. rewrite H. rewrite classify_key_eq in S.
    destruct (dict_get key vm) as [val|]; [|discriminate].
    destruct (is_disk_slot key) eqn:Kd.
    { injection S as <- _ _ _. apply dict_get_del_neq. congruence. }
    destruct (is_net_slot key) eqn:Kn.
    { injection S as <- _ _ _. apply dict_get_del_neq. congruence. }
    destruct (String.eqb key "cpu" && is_numeric val);
      injection S as <- _ _ _; [now apply dict_get_set_neq | reflexivity].
Qed.

(** *** Records without slot keys *)

Lemma cpu_fix_keys vm : dict_keys (cpu_fix vm) = dict_keys vm.
Proof.
  unfold cpu_fix. destruct (dict_get "cpu" vm) as [v|] eqn:E; [|reflexivity].
  destruct (is_numeric v); [|reflexivity].
  apply dict_keys_set_present. congruence.
Qed.

Lemma cpu_fix_get k vm :
  dict_get k (cpu_fix vm) =
  match dict_get k vm with
  | Some v => Some (if String.eqb k "cpu" && is_numeric v then VStr "default" else v)
  | None => None
  end.
Proof.
  unfold cpu_fix. destruct (String.eqb k "cpu") eqn:K.
  - apply String.eqb_eq in K. subst k.
    destruct (dict_get "cpu" vm) as [v|] eqn:E; [|now rewrite E].
    destruct (is_numeric v) eqn:N; simpl.
    + apply dict_get_set_eq.
    + now rewrite E.
  - apply String.eqb_neq in K. simpl.
    destruct (dict_get "cpu" vm) as [v|] eqn:E.
    + destruct (is_numeric v).
      * rewrite dict_get_set_neq by exact K. now destruct (dict_get k vm).
      * now destruct (dict_get k vm).
    + now destruct (dict_get k vm).
Qed.

Lemma cpu_fix_idem vm v :
  dict_get "cpu" vm = Some v -> is_numeric v = false -> cpu_fix vm = vm.
Proof. intros E N. unfold cpu_fix. now rewrite E, N. Qed.

Lemma classify_keys_plain keys : forall vm d n st,
  (forall k, In k keys ->
     is_disk_slot k = false /\ is_net_slot k = false /\ dict_get k vm <> None) ->
  classify_keys keys (vm, d, n) st
  = (Ret (if mem_string "cpu" keys then cpu_fix vm else vm, d, n), st).
Proof.
  induction keys as [|key keys IH]; intros vm d n st H; [reflexivity|].
  destruct (H key (or_introl eq_refl)) as (Kd & Kn & Kp).
  cbn [classify_keys]. unfold bind. rewrite classify_key_eq, Kd, Kn.
  destruct (dict_get key vm) as [val|] eqn:G; [|congruence].
  change (mem_string "cpu" (key :: keys))
    with (String.eqb "cpu" key || mem_string "cpu" keys).
  rewrite (String.eqb_sym "cpu" key).
  destruct (String.eqb key "cpu") eqn:K; cbn [andb orb].
  - apply String.eqb_eq in K. subst key.
    destruct (is_numeric val) eqn:N.
    + rewrite IH.
      * unfold cpu_fix at 2. rewrite G, N.
        rewrite (cpu_fix_idem _ (VStr "default"));
          [now destruct (mem_string "cpu" keys) | apply dict_get_set_eq | reflexivity].
      * intros k Hk. destruct (H k (or_intror Hk)) as (? & ? & P).
        repeat split; auto.
        destruct (String.eqb k "cpu") eqn:K.
        -- apply String.eqb_eq in K. subst k. rewrite dict_get_set_eq. discriminate.
        -- apply String.eqb_neq in K. now rewrite dict_get_set_neq.
    + rewrite IH by (intros k Hk; apply H; now right).
      rewrite (cpu_fix_idem vm val G N).
      now destruct (mem_string "cpu" keys).
  - apply IH. intros k Hk. apply H. now right.
Qed.

Lemma mem_cpu_fix vm :
  (if mem_string "cpu" (dict_keys vm) then cpu_fix vm else vm) = cpu_fix vm.
Proof.
  destruct (mem_string "cpu" (dict_keys vm)) eqn:E; [reflexivity|].
  unfold cpu_fix. destruct (dict_get "cpu" vm) eqn:G; [|reflexivity].
  assert (In "cpu" (dict_keys vm)) by (apply dict_get_some_keys; congruence).
  apply mem_string_In in H. congruence.
Qed.

(** *** get_vm_configs *)

Lemma get_vm_configs_Ret_inv W node vm st out st' :
  get_vm_configs W node vm st = (Ret out, st') ->
  exists vid cnf vm2 dsw nsw st2,
    dict_get "vmid" vm = Some vid /\ config_get W node vid = inr cnf /\
    classify_keys (dict_keys (merged node vm cnf))
                  (merged node vm cnf, false, false)
                  (snd (log (ConfigGet node vid) st))
    = (Ret (vm2, dsw, nsw), st2) /\
    out = (let vm3 := if dsw then dict_set "disks" (VItems (disks st2)) vm2
                      else vm2 in
           if nsw then dict_set "nets" (VItems (nets st2)) vm3 else vm3) /\
    disks st' = (if dsw then [] else disks st2) /\
    nets st' = (if nsw then [] else nets st2) /\
    calls st' = calls st2.
Proof.
  intros H. apply try_fail_Ret_inv in H.
  apply bind_Ret_inv in H as (vid & s1 & G & H).
  apply getitem_Ret_inv in G as [G ->].
  apply bind_Ret_inv in H as (cnf & s2 & R & H).
  apply request_Ret_inv in R as [R ->].
  apply bind_Ret_inv in H as ([[vm2 dsw] nsw] & st2 & L & H).
  apply bind_Ret_inv in H as (vm3 & s3 & A & H).
  apply bind_Ret_inv in H as (vm4 & s4 & B & H).
  apply ret_inv in H as [<- <-].
  exists vid, cnf, vm2, dsw, nsw, st2.
  split; [exact G|]. split; [exact R|]. split; [exact L|].
  destruct dsw, nsw; unfold attach_disks, attach_nets, ret in A, B;
    inversion A; subst; inversion B; subst; simpl; auto.
Qed.

(** An invocation that starts with empty accumulators leaves them empty. *)
Lemma get_vm_configs_clean W node vm st out st' :
  clean st -> get_vm_configs W node vm st = (Ret out, st') -> clean st'.
Proof.
  intros [Cd Cn] H.
  apply get_vm_configs_Ret_inv in H
    as (vid & cnf & vm2 & dsw & nsw & st2 & _ & _ & L & _ & D & N & _).
  apply classify_keys_flags in L as (_ & Fd & Fn). simpl in Fd, Fn.
  split.
  - rewrite D. destruct dsw; [reflexivity|]. destruct (Fd eq_refl). congruence.
  - rewrite N. destruct nsw; [reflexivity|]. destruct (Fn eq_refl). congruence.
Qed.

(** The fields that the loop cannot touch. *)
Lemma get_vm_configs_field k0 W node vm st out st' :
  is_disk_slot k0 = false -> is_net_slot k0 = false ->
  k0 <> "cpu" -> k0 <> "disks" -> k0 <> "nets" ->
  get_vm_configs W node vm st = (Ret out, st') ->
  exists vid cnf,
    dict_get "vmid" vm = Some vid /\ config_get W node vid = inr cnf /\
    dict_get k0 out = dict_get k0 (merged node vm cnf).
Proof.
  intros Kd Kn Kc K1 K2 H.
  apply get_vm_configs_Ret_inv in H
    as (vid & cnf & vm2 & dsw & nsw & st2 & G & R & L & -> & _).
  exists vid, cnf. split; [exact G|]. split; [exact R|].
  apply (classify_keys_get k0) in L; auto. rewrite <- L.
  destruct dsw, nsw; simpl; now rewrite ?dict_get_set_neq by assumption.
Qed.

(** A record without slot keys. *)
Lemma get_vm_configs_plain W node vm st vid cnf :
  dict_get "vmid" vm = Some vid -> config_get W node vid = inr cnf ->
  (forall k, In k (dict_keys (merged node vm cnf)) ->
     is_disk_slot k = false /\ is_net_slot k = false) ->
  get_vm_configs W node vm st
  = (Ret (cpu_fix (merged node vm cnf)), snd (log (ConfigGet node vid) st)).
Proof.
  intros G R P. unfold get_vm_configs, try_fail, bind, getitem, request, bind.
  rewrite G. cbn [ret log of_sum]. rewrite R. cbn [ret of_sum].
  fold (merged node vm cnf). rewrite classify_keys_plain.
  - now rewrite mem_cpu_fix.
  - intros k Hk. destruct (P k Hk). repeat split; auto.
    now apply dict_get_some_keys.
Qed.

(** *** Independence of the request log *)

Lemma sim_refl st : sim st st.
Proof. now split. Qed.

Lemma respects_ret {A} (a : A) : respects (ret a).
Proof. intros st1 st2 S. now split. Qed.

Lemma respects_raise {A} e : respects (@raise A e).
Proof. intros st1 st2 S. now split. Qed.

Lemma respects_fail_json {A} msg : respects (@fail_json A msg).
Proof. intros st1 st2 S. now split. Qed.

Lemma respects_bind {A B} (m : M A) (k : A -> M B) :
  respects m -> (forall a, respects (k a)) -> respects (bind m k).
Proof.
  intros Hm Hk st1 st2 S. unfold bind. destruct (Hm st1 st2 S) as [E S'].
  destruct (m st1) as [o1 s1], (m st2) as [o2 s2]. simpl in E, S'. subst o2.
  destruct o1; [now apply Hk | now split | now split].
Qed.

Lemma respects_try_fail {A} prefix (m : M A) :
  respects m -> respects (try_fail prefix m).
Proof.
  intros Hm st1 st2 S. unfold try_fail. destruct (Hm st1 st2 S) as [E S'].
  destruct (m st1) as [o1 s1], (m st2) as [o2 s2]. simpl in E, S'. subst o2.
  destruct o1; now split.
Qed.

Lemma respects_getitem d k : respects (getitem d k).
Proof.
  unfold getitem. destruct (dict_get k d);
    [apply respects_ret | apply respects_raise].
Qed.

Lemma respects_request {A} c (r : string + A) : respects (request c r).
Proof.
  intros st1 st2 [D N]. unfold request, bind, log, of_sum.
  destruct r; simpl; repeat split; auto.
Qed.

Lemma respects_add_to_disks key val : respects (add_to_disks key val).
Proof.
  intros st1 st2 [D N]. unfold add_to_disks.
  destruct val; try (repeat split; assumption).
  destruct (disk_tokens _ _); simpl; repeat split; simpl; congruence.
Qed.

Lemma respects_add_to_nets key val : respects (add_to_nets key val).
Proof.
  intros st1 st2 [D N]. unfold add_to_nets.
  destruct val; try (repeat split; assumption).
  destruct (net_tokens _ _); simpl; repeat split; simpl; congruence.
Qed.

Lemma respects_classify_key key acc : respects (classify_key key acc).
Proof.
  destruct acc as [[vm d] n]. unfold classify_key.
  apply respects_bind; [apply respects_getitem|]. intros val.
  destruct (is_disk_slot key).
  { apply respects_bind; [apply respects_add_to_disks|].
    intros _. apply respects_ret. }
  destruct (is_net_slot key).
  { apply respects_bind; [apply respects_add_to_nets|].
    intros _. apply respects_ret. }
  destruct (String.eqb key "cpu" && is_numeric val); apply respects_ret.
Qed.

Lemma respects_classify_keys keys : forall acc, respects (classify_keys keys acc).
Proof.
  induction keys as [|key keys IH]; intros acc; cbn [classify_keys].
  - apply respects_ret.
  - apply respects_bind; [apply respects_classify_key | exact IH].
Qed.

Lemma respects_get_vm_configs W node vm : respects (get_vm_configs W node vm).
Proof.
  unfold get_vm_configs. apply respects_try_fail.
  apply respects_bind; [apply respects_getitem|]. intros vid.
  apply respects_bind; [apply respects_request|]. intros cnf.
  apply respects_bind; [apply respects_classify_keys|]. intros [[vm2 dsw] nsw].
  apply respects_bind.
  { destruct dsw; [|apply respects_ret].
    intros st1 st2 [D N]. unfold attach_disks. simpl. rewrite D.
    repeat split; auto. }
  intros vm3. apply respects_bind; [|intros vm4; apply respects_ret].
  destruct nsw; [|apply respects_ret].
  intros st1 st2 [D N]. unfold attach_nets. simpl. rewrite N.
  repeat split; auto.
Qed.

(** With empty accumulators the record of a virtual machine is the one
    that it gets when it is the first to be processed. *)
Lemma get_vm_configs_fresh W node vm st :
  clean st ->
  fst (get_vm_configs W node vm st) = fst (get_vm_configs W node vm init_state).
Proof.
  intros [D N]. apply respects_get_vm_configs. now split.
Qed.

End MethodFacts.

(* ================================================================= *)
(** ** main *)

Module MainFacts.
Import Str StrFacts Re ReFacts Py VmInfo PatternFacts DictFacts ParserFacts MethodFacts.

Lemma only_helpers_refl st : only_helpers st st.
Proof.
  repeat split. exists []. now rewrite List.app_nil_r.
Qed.

Lemma only_helpers_trans st1 st2 st3 :
  only_helpers st1 st2 -> only_helpers st2 st3 -> only_helpers st1 st3.
Proof.
  intros (D1 & N1 & l1 & C1 & F1) (D2 & N2 & l2 & C2 & F2).
  repeat split; try congruence.
  exists (l1 ++ l2)%list. rewrite C2, C1, <- List.app_assoc. split; [reflexivity|].
  rewrite forallb_app. now rewrite F1, F2.
Qed.

Lemma check_node_helpers W node st r st' :
  check_node W node st = (r, st') -> only_helpers st st'.
Proof.
  unfold check_node. destruct node as [n|].
  - destruct (negb (is_empty n)).
    + unfold bind, helper, bind, log. simpl.
      destruct (get_node W n) as [[d|]|e|msg]; unfold ret, fail_json;
        intros H; inversion H; subst; repeat split; simpl;
        exists [GetNode n]; auto.
    + intros H. inversion H. apply only_helpers_refl.
  - intros H. inversion H. apply only_helpers_refl.
Qed.

Lemma resolve_vmid_helpers W vmid name st r st' :
  resolve_vmid W vmid name st = (r, st') -> only_helpers st st'.
Proof.
  unfold resolve_vmid. destruct name as [n|].
  - destruct (negb (truthy_int vmid) && negb (is_empty n)).
    + unfold bind, helper, bind, log. simpl.
      destruct (get_vmid W n) as [v|e|msg]; [destruct (py_int W v)|..];
        unfold of_sum, ret, raise;
        intros H; inversion H; subst; repeat split; simpl;
        exists [GetVmid n]; auto.
    + intros H. inversion H. apply only_helpers_refl.
  - intros H. inversion H. apply only_helpers_refl.
Qed.

(** A requested vmid stays requested after the lookup by name. *)
Lemma resolve_vmid_some W v name st r st' :
  resolve_vmid W (Some v) name st = (Ret r, st') -> exists z, r = Some z.
Proof.
  unfold resolve_vmid. destruct name as [n|].
  - destruct (negb (truthy_int (Some v)) && negb (is_empty n)).
    + intros H. apply bind_Ret_inv in H as (x & s1 & _ & H).
      apply bind_Ret_inv in H as (z & s2 & _ & H).
      apply ret_inv in H as [<- _]. eauto.
    + intros H. apply ret_inv in H as [<- _]. eauto.
  - intros H. apply ret_inv in H as [<- _]. eauto.
Qed.

(** With type all neither branch of the dispatch is taken. *)
Lemma dispatch_all W node vmid name st :
  main_dispatch W node "all" vmid name st =
  (match vmid with
   | None => Ret []
   | Some v => FailJson (not_exist_msg W v (opt_str_value node))
   end, st).
Proof. unfold main_dispatch. simpl. now destruct vmid. Qed.

(** The end of [main]: with a vmid, an empty list is never returned. *)
Lemma dispatch_vmid_nonempty W node type v name st vms st' :
  main_dispatch W node type (Some v) name st = (Ret vms, st') -> vms <> [].
Proof.
  unfold main_dispatch. intros H.
  apply bind_Ret_inv in H as ([l n] & s1 & _ & H).
  destruct l; [discriminate|]. apply ret_inv in H as [<- _]. discriminate.
Qed.

Lemma main_vmid_nonempty W p v st vms st' :
  p_vmid p = Some v -> main W p st = (Ret vms, st') -> vms <> [].
Proof.
  intros Hv H. unfold main in H. rewrite Hv in H.
  apply bind_Ret_inv in H as (u & s1 & _ & H).
  apply bind_Ret_inv in H as (z & s2 & R & H).
  apply resolve_vmid_some in R as (z' & ->).
  now apply dispatch_vmid_nonempty in H.
Qed.

(** The lookup by name leaves no vmid only when there was none and no name
    to look up. *)
Lemma resolve_vmid_none W vmid name st st' :
  resolve_vmid W vmid name st = (Ret None, st') ->
  vmid = None /\ truthy_str name = false.
Proof.
  unfold resolve_vmid. destruct name as [n|].
  - destruct (negb (truthy_int vmid) && negb (is_empty n)) eqn:B.
    + intros H. apply bind_Ret_inv in H as (x & s1 & _ & H).
      apply bind_Ret_inv in H as (z & s2 & _ & H).
      apply ret_inv in H as [H _]. discriminate.
    + intros H. apply ret_inv in H as [-> _]. split; [reflexivity|].
      cbn in B. cbn. exact B.
  - intros H. apply ret_inv in H as [-> _]. now split.
Qed.

Lemma main_empty_no_vmid W p st st' :
  main W p st = (Ret [], st') ->
  p_vmid p = None /\ truthy_str (p_name p) = false.
Proof.
  unfold main. intros H.
  apply bind_Ret_inv in H as (u & s1 & _ & H).
  apply bind_Ret_inv in H as (z & s2 & R & H).
  destruct z as [v|].
  - apply dispatch_vmid_nonempty in H. congruence.
  - now apply resolve_vmid_none in R.
Qed.

End MainFacts.

(* ================================================================= *)
(** ** The two listings *)

Module ListingFacts.
Import Str StrFacts Re ReFacts Py VmInfo PatternFacts DictFacts ParserFacts MethodFacts.

Lemma filter_vmid_incl z vms : forall st outs st',
  filter_vmid z vms st = (Ret outs, st') -> incl outs vms /\ st' = st.
Proof.
  induction vms as [|vm vms IH]; cbn [filter_vmid]; intros st outs st' H.
  - apply ret_inv in H as [<- <-]. split; [apply incl_refl | reflexivity].
  - apply bind_Ret_inv in H as (v & s1 & G & H).
    apply getitem_Ret_inv in G as [_ ->].
    apply bind_Ret_inv in H as (outs' & s2 & F & H).
    apply IH in F as [I ->]. apply ret_inv in H as [<- <-].
    split; [|reflexivity].
    destruct (py_eq_int v z); [|now apply incl_tl].
    intros x [<-|Hx]; [now left | right; now apply I].
Qed.

Lemma select_vmid_incl vmid vms st outs st' :
  select_vmid vmid vms st = (Ret outs, st') -> incl outs vms /\ st' = st.
Proof.
  destruct vmid as [z|]; simpl.
  - apply filter_vmid_incl.
  - intros H. apply ret_inv in H as [<- <-]. split; [apply incl_refl | reflexivity].
Qed.

Lemma lxc_each_inv W l : forall st outs st',
  lxc_each W l st = (Ret outs, st') ->
  forall out, In out outs ->
  exists vm z, In vm l /\ out = dict_set "vmid" (VInt z) vm.
Proof.
  induction l as [|vm l IH]; cbn [lxc_each]; intros st outs st' H out Hin.
  - apply ret_inv in H as [<- _]. destruct Hin.
  - apply bind_Ret_inv in H as (v & s1 & _ & H).
    apply bind_Ret_inv in H as (z & s2 & _ & H).
    apply bind_Ret_inv in H as (outs' & s3 & E & H).
    apply ret_inv in H as [<- _]. destruct Hin as [<-|Hin].
    + exists vm, z. split; [now left | reflexivity].
    + destruct (IH _ _ _ E out Hin) as (vm' & z' & I & ->).
      exists vm', z'. split; [now right | reflexivity].
Qed.


(** Every record of the listing of virtual machines comes out of a run of
    [get_vm_configs]; from empty accumulators that run leaves them empty
    and gives the record that the virtual machine gets on its own. *)
Lemma qemu_each_inv W node l : forall st outs st',
  qemu_each W node l st = (Ret outs, st') ->
  forall out, In out outs ->
  exists vm z s1 s2,
    In vm l /\ get_vm_configs W node (tagged vm z) s1 = (Ret out, s2).
Proof.
  induction l as [|vm l IH]; cbn [qemu_each]; intros st outs st' H out Hin.
  - apply ret_inv in H as [<- _]. destruct Hin.
  - apply bind_Ret_inv in H as (v & s1 & _ & H).
    apply bind_Ret_inv in H as (z & s2 & _ & H).
    apply bind_Ret_inv in H as (o & s3 & G & H).
    apply bind_Ret_inv in H as (outs' & s4 & E & H).
    apply ret_inv in H as [<- _]. destruct Hin as [<-|Hin].
    + exists vm, z, s2, s3. split; [now left | exact G].
    + destruct (IH _ _ _ E out Hin) as (vm' & z' & a & b & I & G').
      exists vm', z', a, b. split; [now right | exact G'].
Qed.

Lemma qemu_each_fresh W node l : forall st outs st',
  clean st -> qemu_each W node l st = (Ret outs, st') ->
  clean st' /\
  forall out, In out outs ->
  exists vm z,
    In vm l /\ fst (get_vm_configs W node (tagged vm z) init_state) = Ret out.
Proof.
  induction l as [|vm l IH]; cbn [qemu_each]; intros st outs st' C H.
  - apply ret_inv in H as [<- <-]. split; [exact C | intros out []].
  - apply bind_Ret_inv in H as (v & s1 & G1 & H).
    apply getitem_Ret_inv in G1 as [_ ->].
    apply bind_Ret_inv in H as (z & s2 & G2 & H).
    apply of_sum_Ret_inv in G2 as [_ ->].
    apply bind_Ret_inv in H as (o & s3 & G & H).
    apply bind_Ret_inv in H as (outs' & s4 & E & H).
    apply ret_inv in H as [<- <-].
    pose proof (get_vm_configs_clean _ _ _ _ _ _ C G) as C3.
    destruct (IH _ _ _ C3 E) as [C4 F]. split; [exact C4|].
    intros out [<-|Hin].
    + exists vm, z. split; [now left|].
      rewrite <- (get_vm_configs_fresh W node _ st C).
      unfold tagged. now rewrite G.
    + destruct (F out Hin) as (vm' & z' & I & E'). exists vm', z'.
      split; [now right | exact E'].
Qed.


Lemma get_qemu_vms_fresh W node vmid st vms st' :
  clean st -> get_qemu_vms W node vmid st = (Ret vms, st') ->
  clean st' /\
  exists l, qemu_get W node = inr l /\
  forall out, In out vms ->
  exists vm z,
    In vm l /\ fst (get_vm_configs W node (tagged vm z) init_state) = Ret out.
Proof.
  intros C H. apply try_fail_Ret_inv in H.
  apply bind_Ret_inv in H as (l & s1 & R & H).
  apply request_Ret_inv in R as [R ->].
  apply bind_Ret_inv in H as (outs & s2 & E & H).
  apply select_vmid_incl in H as [I ->].
  apply qemu_each_fresh in E as [C2 F]; [|exact C].
  split; [exact C2|]. exists l. split; [exact R|].
  intros out Hin. exact (F out (I out Hin)).
Qed.

(** The fields that [get_vm_configs] hands on. *)
Lemma slot_free_fields :
  is_disk_slot "vmid" = false /\ is_net_slot "vmid" = false /\
  is_disk_slot "type" = false /\ is_net_slot "type" = false /\
  is_disk_slot "node" = false /\ is_net_slot "node" = false.
Proof. repeat split; vm_compute; reflexivity. Qed.

Lemma get_vm_configs_node W node vm st out st' :
  get_vm_configs W node vm st = (Ret out, st') -> dict_get "node" out = Some node.
Proof.
  intros H. destruct slot_free_fields as (_ & _ & _ & _ & D & N).
  apply (get_vm_configs_field "node") in H as (vid & cnf & _ & _ & E);
    try discriminate; auto.
  rewrite E. apply dict_get_set_eq.
Qed.


(** *** A vmid that no container of the listing has *)

Lemma lxc_each_absent W v l :
  vm_absent W (Some v) l ->
  forall st, exists outs,
    lxc_each W l st = (Ret outs, st) /\
    forall s, filter_vmid v outs s = (Ret [], s).
Proof.
  induction 1 as [|vm l (z & (x & G & Z) & N) F IH]; intros st.
  - exists []. now split.
  - destruct (IH st) as (outs & E & Fl).
    exists (dict_set "vmid" (VInt z) vm :: outs). split.
    + cbn [lxc_each]. unfold bind, getitem. rewrite G. cbn.
      rewrite Z. cbn. now rewrite E.
    + intros s. cbn [filter_vmid]. unfold bind, getitem.
      rewrite dict_get_set_eq. cbn. rewrite Fl. cbn.
      destruct (z =? v)%Z eqn:Q; [|reflexivity].
      apply Z.eqb_eq in Q. subst. now destruct N.
Qed.

Lemma get_lxc_vms_absent W node v l st :
  lxc_get W node = inr l -> vm_absent W (Some v) l ->
  get_lxc_vms W node (Some v) st = (Ret [], snd (log (LxcGet node) st)).
Proof.
  intros L A. unfold get_lxc_vms, try_fail, bind, request, bind.
  rewrite L. cbn.
  destruct (lxc_each_absent W v l A (snd (log (LxcGet node) st)))
    as (outs & E & Fl).
  cbn in E. rewrite E. cbn. now rewrite Fl.
Qed.

End ListingFacts.

(* ================================================================= *)
(** ** The properties of the module *)

Import Str StrFacts Re ReFacts Py VmInfo.
Import PatternFacts DictFacts ParserFacts MethodFacts MainFacts ListingFacts.

(** *** The dispatch of main *)

(** C1.  With type all the dispatch takes neither the lxc nor the qemu
    branch: it returns the empty list when no vmid is requested and fails
    with the message that the VM does not exist when one is, without
    changing the state, so without any request.  For the whole of [main]:
    whatever happens, no request lists virtual machines, containers, nodes
    or configurations, a returned list is empty, and without node and name
    the result is that of the dispatch. *)
Theorem C1_type_all_lists_nothing (W : world) (node name : option string)
    (vmid : option Z) (st : state) :
  main_dispatch W node "all" None name st = (Ret [], st) /\
  (forall v,
     main_dispatch W node "all" (Some v) name st
     = (FailJson ("VM with vmid " ++ string_of_Z v ++ " doesn't exist on node "
                  ++ py_str W (opt_str_value node)), st)) /\
  (forall r st',
     main W {| p_node := node; p_type := "all"; p_vmid := vmid; p_name := name |} st
     = (r, st') ->
     only_helpers st st' /\ (forall vms, r = Ret vms -> vms = [])) /\
  main W {| p_node := None; p_type := "all"; p_vmid := None; p_name := None |} st
  = (Ret [], st) /\
  (forall v, v <> 0%Z ->
     main W {| p_node := None; p_type := "all"; p_vmid := Some v; p_name := name |} st
     = (FailJson ("VM with vmid " ++ string_of_Z v ++ " doesn't exist on node None"),
        st)).
Proof.
  split; [apply dispatch_all|]. split; [intros v; apply dispatch_all|].
  split; [|split].
  - intros r st'. unfold main, bind. simpl.
    destruct (check_node W node st) as [o1 s1] eqn:C.
    apply check_node_helpers in C.
    destruct o1 as [u|e|msg]; try (intros H; inversion H; subst; split;
                                   [assumption | discriminate]).
    destruct (resolve_vmid W vmid name s1) as [o2 s2] eqn:R.
    apply resolve_vmid_helpers in R.
    pose proof (only_helpers_trans _ _ _ C R) as T.
    destruct o2 as [z|e|msg]; try (intros H; inversion H; subst; split;
                                   [assumption | discriminate]).
    rewrite dispatch_all. intros H. inversion H; subst. split; [assumption|].
    destruct z; [discriminate|]. intros vms E. now injection E as <-.
  - reflexivity.
  - intros v Hv. unfold main, bind, check_node, resolve_vmid. simpl.
    assert (T : (v =? 0)%Z = false) by now apply Z.eqb_neq.
    destruct name as [n|]; simpl; rewrite ?T; simpl;
      now rewrite dispatch_all.
Qed.

Lemma C1_type_all_witness :
  101%Z <> 0%Z /\
  fst (main (cluster plain_config plain_config)
         {| p_node := None; p_type := "all"; p_vmid := Some 101%Z;
            p_name := Some "test2" |} init_state)
  = FailJson "VM with vmid 101 doesn't exist on node None".
Proof.
  split; [lia|].
  destruct (C1_type_all_lists_nothing (cluster plain_config plain_config)
              None (Some "test2") None init_state) as (_ & _ & _ & _ & H).
  rewrite (H 101%Z); [reflexivity | lia].
Defined.

(** C4, as the code has it.  A request that carries a vmid, given or
    looked up from a name, never ends in an empty list: [main] returns the
    empty list only when no vmid is given and there is no name to look up.
    Once the node check has passed and the vmid of the request is known,
    the module fails with the message that the VM does not exist: with
    type lxc, when the listing of the containers of the node has no entry
    with that vmid; with type qemu and no node, when the vmid is not zero
    or a name is given and [get_qemu_vms] for the node that [get_vm_node]
    returned yields no record; with type all, always. *)
Theorem C4_missing_vmid_fails (W : world) (p : params) (st : state) :
  (forall st', main W p st = (Ret [], st') ->
     p_vmid p = None /\ truthy_str (p_name p) = false) /\
  (forall u s1 v s2,
     check_node W (p_node p) st = (Ret u, s1) ->
     resolve_vmid W (p_vmid p) (p_name p) s1 = (Ret (Some v), s2) ->
     (p_type p = "lxc" ->
      forall l,
        lxc_get W (opt_str_value (p_node p)) = inr l ->
        vm_absent W (Some v) l ->
        main W p st
        = (FailJson (not_exist_msg W v (opt_str_value (p_node p))),
           snd (log (LxcGet (opt_str_value (p_node p))) s2))) /\
     (p_type p = "qemu" ->
      truthy_str (p_node p) = false ->
      truthy_int (Some v) || truthy_str (p_name p) = true ->
      forall n s3 st',
        get_vm_node W (Some v) s2 = (Ret n, s3) ->
        get_qemu_vms W n (Some v) s3 = (Ret [], st') ->
        main W p st
        = (FailJson (not_exist_msg W v (opt_str_value (p_node p))), st')) /\
     (p_type p = "all" ->
      main W p st
      = (FailJson (not_exist_msg W v (opt_str_value (p_node p))), s2))).
Proof.
  split.
  - intros st' H. exact (main_empty_no_vmid W p st st' H).
  - intros u s1 v s2 C R.
    assert (M : main W p st
                = main_dispatch W (p_node p) (p_type p) (Some v) (p_name p) s2).
    { unfold main, bind. now rewrite C, R. }
    rewrite M. split; [|split].
    + intros T l L A. rewrite T. unfold main_dispatch, bind.
      cbn [String.eqb Ascii.eqb Bool.eqb].
      now rewrite (get_lxc_vms_absent W _ v l s2 L A).
    + intros T Hn Hq n s3 st' G Q. rewrite T. unfold main_dispatch, bind.
      cbn [String.eqb Ascii.eqb Bool.eqb]. rewrite Hn, Hq, G, Q. reflexivity.
    + intros T. rewrite T. now rewrite dispatch_all.
Qed.

Lemma C4_missing_vmid_witness :
  fst (main (cluster plain_config plain_config)
         {| p_node := Some "pve1"; p_type := "lxc"; p_vmid := None;
            p_name := Some "test2" |} init_state)
  = FailJson "VM with vmid 101 doesn't exist on node pve1" /\
  fst (main (cluster override_config plain_config)
         {| p_node := None; p_type := "qemu"; p_vmid := Some 100%Z;
            p_name := None |} init_state)
  = FailJson "VM with vmid 100 doesn't exist on node None" /\
  fst (main (cluster plain_config plain_config)
         {| p_node := None; p_type := "all"; p_vmid := Some 999%Z;
            p_name := None |} init_state)
  = FailJson "VM with vmid 999 doesn't exist on node None".
Proof.
  split; [|split].
  - destruct (C4_missing_vmid_fails (cluster plain_config plain_config)
                {| p_node := Some "pve1"; p_type := "lxc"; p_vmid := None;
                   p_name := Some "test2" |} init_state) as [_ H].
    destruct (H tt {| disks := []; nets := []; calls := [GetNode "pve1"] |}
                101%Z
                {| disks := []; nets := [];
                   calls := [GetNode "pve1"; GetVmid "test2"] |}
                eq_refl eq_refl) as (L & _ & _).
    rewrite (L eq_refl
               [[("vmid", VStr "200"); ("name", VStr "ct1");
                 ("status", VStr "running")]] eq_refl).
    + reflexivity.
    + constructor; [|constructor]. exists 200%Z. split; [|discriminate].
      exists (VStr "200"). split; reflexivity.
  - destruct (C4_missing_vmid_fails (cluster override_config plain_config)
                {| p_node := None; p_type := "qemu"; p_vmid := Some 100%Z;
                   p_name := None |} init_state) as [_ H].
    destruct (H tt init_state 100%Z init_state eq_refl eq_refl) as (_ & Q & _).
    destruct (get_vm_node (cluster override_config plain_config) (Some 100%Z)
                init_state) as [o s3] eqn:G.
    assert (O : o = Ret (VStr "pve1")).
    { vm_compute in G. now injection G as <- _. }
    subst o.
    destruct (get_qemu_vms (cluster override_config plain_config) (VStr "pve1")
                (Some 100%Z) s3) as [o st'] eqn:E.
    assert (O : o = Ret []).
    { vm_compute in G. injection G as <-. vm_compute in E.
      now injection E as <- _. }
    subst o.
    rewrite (Q eq_refl eq_refl eq_refl (VStr "pve1") s3 st' eq_refl E).
    reflexivity.
  - destruct (C4_missing_vmid_fails (cluster plain_config plain_config)
                {| p_node := None; p_type := "all"; p_vmid := Some 999%Z;
                   p_name := None |} init_state) as [_ H].
    destruct (H tt init_state 999%Z init_state eq_refl eq_refl) as (_ & _ & A).
    rewrite (A eq_refl). reflexivity.
Defined.

(** C4 as stated fails.  A vmid that no node has, with no node given, ends
    in a failure for every type, and so does type lxc on a valid node with
    a name whose vmid no container of the node has; for no cluster at all
    does a request with a vmid end in an empty list. *)
Lemma C4_missing_vmid_counterexample :
  fst (main (cluster plain_config plain_config)
         {| p_node := None; p_type := "all"; p_vmid := Some 999%Z;
            p_name := None |} init_state)
  = FailJson "VM with vmid 999 doesn't exist on node None" /\
  fst (main (cluster plain_config plain_config)
         {| p_node := None; p_type := "qemu"; p_vmid := Some 999%Z;
            p_name := None |} init_state)
  = FailJson "Failed to retrieve QEMU VMs information: 500 Internal Server Error" /\
  fst (main (cluster plain_config plain_config)
         {| p_node := Some "pve1"; p_type := "lxc"; p_vmid := None;
            p_name := Some "test2" |} init_state)
  = FailJson "VM with vmid 101 doesn't exist on node pve1" /\
  forall W type st,
    fst (main W {| p_node := None; p_type := type; p_vmid := Some 999%Z;
                   p_name := None |} st) <> Ret [].
Proof.
  split; [vm_compute; reflexivity|]. split; [vm_compute; reflexivity|].
  split; [vm_compute; reflexivity|].
  intros W type st E.
  destruct (main W _ st) as [r st'] eqn:M. simpl in E. subst r.
  eapply main_vmid_nonempty in M; [now apply M | reflexivity].
Qed.

(** *** The parser of disk values *)

(** C2 as stated fails: neither example value has a token of the storage
    shape, which asks for a digit right after the colon and for a slash, so
    no storage and no path are recorded for them. *)
Lemma C2_examples_counterexample :
  add_to_disks "ide2" (VStr "local:iso/install.iso,media=cdrom") init_state
  = (Ret true, {| disks := [[("name", "ide2"); ("media", "cdrom")]];
                  nets := []; calls := [] |}) /\
  add_to_disks "scsi0" (VStr "local-lvm:vm-100-disk-0,size=30G") init_state
  = (Ret true, {| disks := [[("name", "scsi0"); ("size", "30G")]];
                  nets := []; calls := [] |}) /\
  dict_get "storage" [("name", "ide2"); ("media", "cdrom")] = None /\
  dict_get "path" [("name", "scsi0"); ("size", "30G")] = None.
Proof. repeat split; vm_compute; reflexivity. Qed.

(** C2, as the code has it.  A token has the storage shape when it is some
    text, a colon, a digit, some text, a slash, some text, a dot and some
    text on one line; for such a token the parser records as storage the
    text before the first colon and as path the text between the first and
    the second slash.  So the value local:100/vm-100-disk-0.qcow2,size=30G
    gives name, storage local, path vm-100-disk-0.qcow2 and size 30G. *)
Theorem C2_storage_shape (it : item) (data : string) :
  search disk_value_regex data = true ->
  (exists a d m f e rest,
     data = a ++ ":" ++ String d (m ++ "/" ++ f ++ "." ++ e ++ rest) /\
     line a = true /\ is_digit d = true /\ line m = true /\
     line f = true /\ line e = true) /\
  (exists storage after_colon before path after_path,
     split ":" data = storage :: after_colon /\
     split "/" data = before :: path :: after_path /\
     disk_token it data
     = inr (dict_set "path" path (dict_set "storage" storage it))) /\
  add_to_disks "scsi0" (VStr "local:100/vm-100-disk-0.qcow2,size=30G") init_state
  = (Ret true,
     {| disks := [[("name", "scsi0"); ("storage", "local");
                   ("path", "vm-100-disk-0.qcow2"); ("size", "30G")]];
        nets := []; calls := [] |}).
Proof.
  intros S. split; [now apply disk_value_spec|].
  split; [now apply disk_token_storage | vm_compute; reflexivity].
Qed.

Lemma C2_storage_shape_witness :
  search disk_value_regex "cloud:100/vm-100-cloudinit.qcow2" = true /\
  disk_token [("name", "ide2")] "cloud:100/vm-100-cloudinit.qcow2"
  = inr [("name", "ide2"); ("storage", "cloud"); ("path", "vm-100-cloudinit.qcow2")].
Proof.
  split; [vm_compute; reflexivity|].
  destruct (C2_storage_shape [("name", "ide2")] "cloud:100/vm-100-cloudinit.qcow2")
    as (_ & (s & ac & b & p & ap & Es & Ep & E) & _); [vm_compute; reflexivity|].
  rewrite E. vm_compute in Es, Ep.
  injection Es as <- _. injection Ep as _ <- _. reflexivity.
Defined.

(** C6 as stated fails: with a second equals sign in a token the disk
    parser keeps only the text between the first two signs, and the network
    parser raises, so that the whole record is dropped. *)
Lemma C6_second_equals_counterexample :
  disk_token [("name", "scsi0")] "serial=a=b"
  = inr [("name", "scsi0"); ("serial", "a")] /\
  net_token [("name", "net0")] "tag=a=b"
  = inl "too many values to unpack (expected 2)" /\
  add_to_nets "net0" (VStr "virtio=28:08:FE:80:DE:A3,tag=a=b") init_state
  = (Ret false, init_state).
Proof. repeat split; vm_compute; reflexivity. Qed.

(** C6, as the code has it.  A token with exactly one equals sign is split
    there into key and value.  The network parser inserts the pair, as model
    and mac when the key names a model of network card; the disk parser
    inserts the pair unless the token has the storage shape. *)
Theorem C6_single_equals (it : item) (k v : string) :
  contains "=" k = false -> contains "=" v = false ->
  net_token it (k ++ "=" ++ v)
  = inr (if is_nic_model k then dict_set "mac" v (dict_set "model" k it)
         else dict_set k v it) /\
  (search disk_value_regex (k ++ "=" ++ v) = false ->
   disk_token it (k ++ "=" ++ v) = inr (dict_set k v it)).
Proof.
  intros Hk Hv. split.
  - unfold net_token. rewrite contains_equals, (split_one_equals k v Hk Hv).
    now destruct (is_nic_model k).
  - intros S. unfold disk_token.
    rewrite S, contains_equals, (split_one_equals k v Hk Hv). reflexivity.
Qed.

Lemma C6_single_equals_witness :
  net_token [("name", "net0")] "bridge=vmbr0"
  = inr [("name", "net0"); ("bridge", "vmbr0")] /\
  disk_token [("name", "scsi0")] "size=30G"
  = inr [("name", "scsi0"); ("size", "30G")].
Proof.
  destruct (C6_single_equals [("name", "net0")] "bridge" "vmbr0" eq_refl eq_refl)
    as [N _].
  destruct (C6_single_equals [("name", "scsi0")] "size" "30G" eq_refl eq_refl)
    as [_ D].
  split; [exact N | exact (D eq_refl)].
Defined.

(** *** The classification of the keys *)

(** C3 at the keys the pattern misses.  A key is a disk slot exactly when it
    is one of [disk_slot_keys], possibly with one newline after it; these
    are the documented keys without unused150 to unused199, which the
    pattern rejects.  A configuration with unused149 and unused150 shows the
    difference: the first is parsed and removed, the second stays in the
    flat record and gives no disk record. *)
Theorem C3_unused150_not_routed :
  is_disk_slot "unused150" = false /\ is_net_slot "unused150" = false /\
  (forall key,
     is_disk_slot key = true <->
     exists w, In w disk_slot_keys /\
               (key = w \/ key = w ++ String newline "")) /\
  filter (fun k => negb (is_disk_slot k)) documented_disk_keys
  = slot_keys "unused" 150 50 /\
  exists vm rest,
    fst (main (cluster unused_config plain_config)
           {| p_node := Some "pve1"; p_type := "qemu"; p_vmid := None;
              p_name := None |} init_state) = Ret (vm :: rest) /\
    dict_get "unused150" vm = Some (VStr "local:100/vm-100-disk-9.raw") /\
    dict_get "unused149" vm = None /\
    dict_get "disks" vm
    = Some (VItems [[("name", "unused149"); ("storage", "local");
                     ("path", "vm-100-disk-8.raw")]]).
Proof.
  split; [vm_compute; reflexivity|]. split; [vm_compute; reflexivity|].
  split; [exact disk_slot_spec|].
  split; [exact documented_keys_rejected|].
  eexists _, _. split; [vm_compute; reflexivity|].
  repeat split; vm_compute; reflexivity.
Qed.

(** C8 as stated fails: the bare word net and net100 are network slots
    too, and net100 is parsed and removed like net0. *)
Lemma C8_net_slots_counterexample :
  is_net_slot "net" = true /\ is_disk_slot "net" = false /\
  is_net_slot "net100" = true /\ is_disk_slot "net100" = false /\
  exists vm rest,
    fst (main (cluster net100_config plain_config)
           {| p_node := Some "pve1"; p_type := "qemu"; p_vmid := None;
              p_name := None |} init_state) = Ret (vm :: rest) /\
    dict_get "net100" vm = None /\
    dict_get "nets" vm
    = Some (VItems [[("name", "net100"); ("model", "virtio");
                     ("mac", "28:08:FE:80:DE:A3"); ("bridge", "vmbr0")]]).
Proof.
  do 4 (split; [vm_compute; reflexivity|]).
  eexists _, _. split; [vm_compute; reflexivity|].
  split; vm_compute; reflexivity.
Qed.

(** C8, as the code has it.  A key goes to the parser of network values
    exactly when it is the word net followed by decimal digits, any number
    of them and also none; the pattern ends with a dollar sign, so one
    newline after the key is accepted as well.  Such a key is parsed and
    removed from the flat record. *)
Theorem C8_net_slot_keys (key : string) :
  (is_disk_slot key = false /\ is_net_slot key = true <->
   exists ds, all_digits ds = true /\
              (key = "net" ++ ds \/ key = "net" ++ ds ++ String newline "")) /\
  (forall vm d n st val,
     is_net_slot key = true -> dict_get key vm = Some val ->
     classify_key key (vm, d, n) st
     = (Ret (dict_del key vm, d, true), snd (add_to_nets key val st))).
Proof.
  split.
  - rewrite <- net_slot_spec. split; [tauto|].
    intros H. split; [now apply net_slot_not_disk | exact H].
  - intros vm d n st val N G.
    rewrite classify_key_eq, G, (net_slot_not_disk key N), N. reflexivity.
Qed.

Lemma C8_net_slot_keys_witness :
  is_net_slot "net7" = true /\
  classify_key "net7" ([("net7", VStr "virtio=28:08:FE:80:DE:A3")], false, false)
    init_state
  = (Ret ([], false, true),
     {| disks := [];
        nets := [[("name", "net7"); ("model", "virtio");
                  ("mac", "28:08:FE:80:DE:A3")]];
        calls := [] |}).
Proof.
  split; [vm_compute; reflexivity|].
  destruct (C8_net_slot_keys "net7") as [_ H].
  rewrite (H [("net7", VStr "virtio=28:08:FE:80:DE:A3")] false false init_state
             (VStr "virtio=28:08:FE:80:DE:A3")); reflexivity.
Defined.

(** *** Exceptions in the parser of disk values *)

(** C5 as stated fails: the value of unused0 is no string, so that
    [add_to_disks] raises inside and returns [False], yet the list of disks
    of the record is built and holds the record of scsi0. *)
Lemma C5_other_disks_counterexample :
  add_to_disks "unused0" (VInt 7) init_state = (Ret false, init_state) /\
  exists vm rest,
    fst (main (cluster broken_disk_config plain_config)
           {| p_node := Some "pve1"; p_type := "qemu"; p_vmid := None;
              p_name := None |} init_state) = Ret (vm :: rest) /\
    dict_get "unused0" vm = None /\
    dict_get "disks" vm
    = Some (VItems [[("name", "scsi0"); ("storage", "local");
                     ("path", "vm-100-disk-0.qcow2"); ("size", "30G")]]).
Proof.
  split; [reflexivity|].
  eexists _, _. split; [vm_compute; reflexivity|].
  split; vm_compute; reflexivity.
Qed.

(** C5, as the code has it.  No string makes the parser of disk values
    raise: for a string one record is appended.  A value that is no string
    makes [value.split] raise; then nothing is appended and nothing
    propagates: the step of the loop for that key succeeds, removes the key,
    sets the flag of the disks and leaves the state, with the records
    collected so far, as it was. *)
Theorem C5_swallowed_exception (name : string) (v : value) (st : state) :
  (forall s, v = VStr s ->
     exists it, add_to_disks name v st
                = (Ret true, {| disks := disks st ++ [it]; nets := nets st;
                                calls := calls st |})) /\
  ((forall s, v <> VStr s) ->
     add_to_disks name v st = (Ret false, st) /\
     forall vm d n,
       is_disk_slot name = true -> dict_get name vm = Some v ->
       classify_key name (vm, d, n) st = (Ret (dict_del name vm, true, n), st)).
Proof.
  split.
  - intros s ->. unfold add_to_disks.
    destruct (disk_tokens_total (split "," s) [("name", name)]) as (it & ->).
    now exists it.
  - intros N.
    assert (E : add_to_disks name v st = (Ret false, st)).
    { destruct v; try reflexivity. now destruct (N s). }
    split; [exact E|]. intros vm d n D G.
    now rewrite classify_key_eq, G, D, E.
Qed.

Lemma C5_swallowed_exception_witness :
  (forall s, VInt 7 <> VStr s) /\
  classify_key "unused0" (broken_disk_config, false, false) init_state
  = (Ret ([("scsi0", VStr "local:100/vm-100-disk-0.qcow2,size=30G")], true, false),
     init_state).
Proof.
  assert (N : forall s, VInt 7 <> VStr s) by discriminate.
  split; [exact N|].
  destruct (C5_swallowed_exception "unused0" (VInt 7) init_state) as [_ H].
  destruct (H N) as [_ K].
  exact (K broken_disk_config false false eq_refl eq_refl).
Defined.

(** *** Records without slots *)

(** C7.  When the record that enters the loop, which is the entry of the
    listing updated with the configuration and with the node, has no disk
    and no network slot among its keys, [get_vm_configs] returns a record
    with the same keys in the same order, so that no disks and no nets
    field is attached, and with the same values, except that a numeric
    value of the key cpu has become the string default.  The accumulators
    are not touched. *)
Theorem C7_plain_record_passes (W : world) (node : value) (vm : dict)
    (st : state) (vid : value) (cnf : dict) :
  dict_get "vmid" vm = Some vid ->
  config_get W node vid = inr cnf ->
  (forall k, In k (dict_keys (merged node vm cnf)) ->
     is_disk_slot k = false /\ is_net_slot k = false) ->
  exists out st',
    get_vm_configs W node vm st = (Ret out, st') /\
    disks st' = disks st /\ nets st' = nets st /\
    dict_keys out = dict_keys (merged node vm cnf) /\
    (dict_get "disks" (merged node vm cnf) = None -> dict_get "disks" out = None) /\
    (dict_get "nets" (merged node vm cnf) = None -> dict_get "nets" out = None) /\
    forall k,
      dict_get k out =
      match dict_get k (merged node vm cnf) with
      | Some v =>
          Some (if String.eqb k "cpu" && is_numeric v then VStr "default" else v)
      | None => None
      end.
Proof.
  intros G R P. eexists _, _.
  split; [exact (get_vm_configs_plain W node vm st vid cnf G R P)|].
  split; [reflexivity|]. split; [reflexivity|].
  split; [apply cpu_fix_keys|].
  split; [|split].
  - intros E. now rewrite cpu_fix_get, E.
  - intros E. now rewrite cpu_fix_get, E.
  - intros k. apply cpu_fix_get.
Qed.

Lemma C7_plain_record_witness :
  exists out st',
    get_vm_configs (cluster plain_config plain_config) (VStr "pve1")
      [("vmid", VInt 100); ("cpu", VFloat 1 (-6))] init_state = (Ret out, st') /\
    dict_keys out = ["vmid"; "cpu"; "cores"; "memory"; "ostype"; "node"] /\
    dict_get "cpu" out = Some (VStr "default") /\
    dict_get "memory" out = Some (VInt 2048) /\
    dict_get "disks" out = None.
Proof.
  destruct (C7_plain_record_passes (cluster plain_config plain_config)
              (VStr "pve1") [("vmid", VInt 100); ("cpu", VFloat 1 (-6))]
              init_state (VInt 100) plain_config eq_refl eq_refl)
    as (out & st' & E & _ & _ & K & D & _ & F).
  - intros k Hk. vm_compute in Hk.
    repeat (destruct Hk as [<-|Hk]; [split; vm_compute; reflexivity|]).
    destruct Hk.
  - exists out, st'. split; [exact E|]. split; [exact K|].
    split; [rewrite F; reflexivity|]. split; [rewrite F; reflexivity|].
    apply D. reflexivity.
Defined.

(** *** The accumulators *)

(** C9.  When the processing of a virtual machine starts with empty
    accumulators and returns, the accumulators are empty again; the record
    of the virtual machine processed next is therefore the record that it
    gets in the initial state of the class, where nothing has been parsed
    before.  The same holds along the listing of a node: every record that
    [get_qemu_vms] returns is the record of its virtual machine in the
    initial state. *)
Theorem C9_accumulators_do_not_leak (W : world) (node1 node2 : value)
    (vm1 vm2 : dict) (st st1 : state) (out1 : dict) :
  clean st ->
  get_vm_configs W node1 vm1 st = (Ret out1, st1) ->
  clean st1 /\
  fst (get_vm_configs W node2 vm2 st1)
  = fst (get_vm_configs W node2 vm2 init_state) /\
  (forall vmid vms st',
     get_qemu_vms W node2 vmid st1 = (Ret vms, st') ->
     clean st' /\
     exists l, qemu_get W node2 = inr l /\
     forall out, In out vms ->
     exists vm z,
       In vm l /\
       fst (get_vm_configs W node2 (tagged vm z) init_state) = Ret out).
Proof.
  intros C H. pose proof (get_vm_configs_clean _ _ _ _ _ _ C H) as C1.
  split; [exact C1|]. split; [now apply get_vm_configs_fresh|].
  intros vmid vms st' Q. exact (get_qemu_vms_fresh W node2 vmid st1 vms st' C1 Q).
Qed.

Lemma C9_accumulators_witness :
  clean init_state /\
  exists st1,
    snd (get_vm_configs (cluster disk_config disk_config) (VStr "pve1")
           [("vmid", VInt 100)] init_state) = st1 /\
    clean st1 /\
    fst (get_vm_configs (cluster disk_config disk_config) (VStr "pve1")
           [("vmid", VInt 101)] st1)
    = Ret [("vmid", VInt 101); ("cores", VInt 2); ("node", VStr "pve1");
           ("disks", VItems [[("name", "scsi0"); ("storage", "local");
                              ("path", "vm-100-disk-0.qcow2"); ("size", "30G")]]);
           ("nets", VItems [[("name", "net0"); ("model", "virtio");
                             ("mac", "28:08:FE:80:DE:A3"); ("bridge", "br0");
                             ("tag", "100"); ("firewall", "0")]])].
Proof.
  assert (C : clean init_state) by (split; reflexivity).
  split; [exact C|].
  destruct (get_vm_configs (cluster disk_config disk_config) (VStr "pve1")
              [("vmid", VInt 100)] init_state) as [o st1] eqn:E.
  exists st1. split; [reflexivity|].
  assert (O : exists out1, o = Ret out1).
  { vm_compute in E. injection E as <- _. eauto. }
  destruct O as (out1 & ->).
  destruct (C9_accumulators_do_not_leak (cluster disk_config disk_config)
              (VStr "pve1") (VStr "pve1") [("vmid", VInt 100)]
              [("vmid", VInt 101)] init_state st1 out1 C E) as (C1 & F & _).
  split; [exact C1|]. rewrite F. vm_compute. reflexivity.
Defined.

(** *** The fields of the records *)




(* ================================================================= *)
(** ** The record that get_vm_configs builds *)

Module RecordFacts.
Import Str StrFacts Re ReFacts Py VmInfo.
Import PatternFacts DictFacts ParserFacts MethodFacts MainFacts ListingFacts.

Lemma add_to_disks_record name v st :
  disks (snd (add_to_disks name v st))
  = (disks st ++ opt_list (disk_record name v))%list /\
  nets (snd (add_to_disks name v st)) = nets st /\
  calls (snd (add_to_disks name v st)) = calls st.
Proof.
  unfold add_to_disks, disk_record.
  destruct v as [| | | |s| |]; simpl; rewrite ?List.app_nil_r; auto.
  destruct (disk_tokens _ _); simpl; rewrite ?List.app_nil_r; auto.
Qed.

Lemma add_to_nets_record name v st :
  nets (snd (add_to_nets name v st))
  = (nets st ++ opt_list (net_record name v))%list /\
  disks (snd (add_to_nets name v st)) = disks st /\
  calls (snd (add_to_nets name v st)) = calls st.
Proof.
  unfold add_to_nets, net_record.
  destruct v as [| | | |s| |]; simpl; rewrite ?List.app_nil_r; auto.
  destruct (net_tokens _ _); simpl; rewrite ?List.app_nil_r; auto.
Qed.

Lemma cpu_no_slot : is_slot "cpu" = false.
Proof. vm_compute. reflexivity. Qed.

Lemma slot_not_cpu k : is_slot k = true -> k <> "cpu".
Proof. intros H ->. rewrite cpu_no_slot in H. discriminate. Qed.

(** The values of the slot keys are those of the record [m] that entered
    the loop, as long as the keys are there. *)
Lemma slots_kept_del (m vm : dict) key :
  (forall k, is_slot k = true ->
     dict_get k vm = None \/ dict_get k vm = dict_get k m) ->
  forall k, is_slot k = true ->
    dict_get k (dict_del key vm) = None \/
    dict_get k (dict_del key vm) = dict_get k m.
Proof.
  intros I k Hk. destruct (String.eqb k key) eqn:E.
  - apply String.eqb_eq in E. subst. left. apply dict_get_del_eq.
  - apply String.eqb_neq in E. rewrite dict_get_del_neq by exact E. now apply I.
Qed.

Lemma slots_kept_cpu (m vm : dict) v :
  (forall k, is_slot k = true ->
     dict_get k vm = None \/ dict_get k vm = dict_get k m) ->
  forall k, is_slot k = true ->
    dict_get k (dict_set "cpu" v vm) = None \/
    dict_get k (dict_set "cpu" v vm) = dict_get k m.
Proof.
  intros I k Hk. rewrite dict_get_set_neq by now apply slot_not_cpu.
  now apply I.
Qed.

Lemma slot_records_cons rec p m k keys :
  slot_records rec p m (k :: keys)
  = ((if p k then match dict_get k m with
                  | Some v => opt_list (rec k v)
                  | None => []
                  end
      else []) ++ slot_records rec p m keys)%list.
Proof. reflexivity. Qed.

(** What the loop appends to the accumulators and how it sets the flags. *)
Lemma loop_records keys : forall (m vm : dict) d n st vm' d' n' st',
  (forall k, is_slot k = true ->
     dict_get k vm = None \/ dict_get k vm = dict_get k m) ->
  classify_keys keys (vm, d, n) st = (Ret (vm', d', n'), st') ->
  disks st' = (disks st ++ slot_records disk_record is_disk_slot m keys)%list /\
  nets st' = (nets st ++ slot_records net_record is_net_routed m keys)%list /\
  d' = d || existsb is_disk_slot keys /\
  n' = n || existsb is_net_routed keys.
Proof.
  induction keys as [|key keys IH]; cbn [classify_keys];
    intros m vm d n st vm' d' n' st' I H.
  - apply ret_inv in H as [E <-]. injection E as <- <- <-.
    cbn. now rewrite !List.app_nil_r, !orb_false_r.
  - apply bind_Ret_inv in H as ([[vm1 d1] n1] & st1 & S & H).
    rewrite classify_key_eq in S.
    destruct (dict_get key vm) as [val|] eqn:G; [|discriminate].
    rewrite !slot_records_cons. cbn [existsb]. unfold is_net_routed at 1 3.
    destruct (is_disk_slot key) eqn:Kd.
    { injection S as <- <- <- <-.
      assert (Gm : dict_get key m = Some val).
      { destruct (I key) as [E|E]; [unfold is_slot; now rewrite Kd | congruence
                                   | congruence]. }
      apply (IH m) in H; [|now apply slots_kept_del].
      destruct (add_to_disks_record key val st) as (A1 & A2 & _).
      destruct H as (H1 & H2 & -> & ->). rewrite H1, H2, A1, A2, Gm.
      cbn. rewrite <- List.app_assoc. repeat split; auto.
      now destruct d. }
    destruct (is_net_slot key) eqn:Kn.
    { injection S as <- <- <- <-.
      assert (Gm : dict_get key m = Some val).
      { destruct (I key) as [E|E];
          [unfold is_slot; rewrite Kn; apply orb_true_r | congruence | congruence]. }
      apply (IH m) in H; [|now apply slots_kept_del].
      destruct (add_to_nets_record key val st) as (A1 & A2 & _).
      destruct H as (H1 & H2 & -> & ->). rewrite H1, H2, A1, A2, Gm.
      cbn. rewrite <- List.app_assoc. repeat split; auto.
      now destruct n. }
    cbn.
    destruct (String.eqb key "cpu" && is_numeric val);
      injection S as <- <- <- <-; apply (IH m) in H; auto.
    now apply slots_kept_cpu.
Qed.

(** A slot key is gone after the loop. *)
Lemma loop_deleted keys : forall (vm : dict) d n st vm' d' n' st',
  classify_keys keys (vm, d, n) st = (Ret (vm', d', n'), st') ->
  forall k, is_slot k = true ->
    In k keys \/ dict_get k vm = None -> dict_get k vm' = None.
Proof.
  induction keys as [|key keys IH]; cbn [classify_keys];
    intros vm d n st vm' d' n' st' H k Hk P.
  - apply ret_inv in H as [E _]. injection E as <- _ _.
    destruct P as [[]|P]; exact P.
  - apply bind_Ret_inv in H as ([[vm1 d1] n1] & st1 & S & H).
    apply (IH _ _ _ _ _ _ _ _ H k Hk). clear H IH.
    rewrite classify_key_eq in S.
    destruct (dict_get key vm) as [val|] eqn:G; [|discriminate].
    assert (D : dict_get k (dict_del key vm) = None \/ In k keys).
    { destruct (String.eqb k key) eqn:E.
      - apply String.eqb_eq in E. subst. left. apply dict_get_del_eq.
      - apply String.eqb_neq in E. rewrite dict_get_del_neq by exact E.
        destruct P as [[->|P]|P]; [congruence | now right | now left]. }
    destruct (is_disk_slot key) eqn:Kd.
    { injection S as <- _ _ _. tauto. }
    destruct (is_net_slot key) eqn:Kn.
    { injection S as <- _ _ _. tauto. }
    assert (N : k <> key).
    { intros ->. unfold is_slot in Hk. rewrite Kd, Kn in Hk. discriminate. }
    assert (Q : In k keys \/ dict_get k vm = None).
    { destruct P as [[E|P]|P]; [congruence | now left | now right]. }
    destruct (String.eqb key "cpu" && is_numeric val);
      injection S as <- _ _ _; [|exact Q].
    rewrite dict_get_set_neq by now apply slot_not_cpu. exact Q.
Qed.

(** A key that is no slot keeps its value, up to the rule for cpu. *)
Lemma loop_cpu keys : forall (vm : dict) d n st vm' d' n' st',
  classify_keys keys (vm, d, n) st = (Ret (vm', d', n'), st') ->
  dict_get "cpu" vm' =
  if mem_string "cpu" keys then option_map (normal "cpu") (dict_get "cpu" vm)
  else dict_get "cpu" vm.
Proof.
  induction keys as [|key keys IH]; cbn [classify_keys];
    intros vm d n st vm' d' n' st' H.
  - apply ret_inv in H as [E _]. now injection E as <- _ _.
  - apply bind_Ret_inv in H as ([[vm1 d1] n1] & st1 & S & H).
    apply IH in H. rewrite H. clear H IH.
    change (mem_string "cpu" (key :: keys))
      with (String.eqb "cpu" key || mem_string "cpu" keys).
    rewrite (String.eqb_sym "cpu" key).
    rewrite classify_key_eq in S.
    destruct (dict_get key vm) as [val|] eqn:G; [|discriminate].
    destruct (String.eqb key "cpu") eqn:K.
    + apply String.eqb_eq in K. subst key.
      assert (Kd : is_disk_slot "cpu" = false) by (vm_compute; reflexivity).
      assert (Kn : is_net_slot "cpu" = false) by (vm_compute; reflexivity).
      rewrite Kd, Kn, G in *. cbn [andb orb] in *. unfold normal. cbn.
      destruct (is_numeric val) eqn:N; injection S as <- _ _ _.
      * rewrite dict_get_set_eq. cbn. now destruct (mem_string "cpu" keys).
      * rewrite G. cbn. rewrite N. now destruct (mem_string "cpu" keys).
    + apply String.eqb_neq in K. cbn [andb orb] in *.
      assert (E : dict_get "cpu" vm1 = dict_get "cpu" vm).
      { destruct (is_disk_slot key);
          [injection S as <- _ _ _; apply dict_get_del_neq; congruence|].
        destruct (is_net_slot key);
          [injection S as <- _ _ _; apply dict_get_del_neq; congruence|].
        now injection S as <- _ _ _. }
      now rewrite E.
Qed.

Lemma normal_other k v : k <> "cpu" -> normal k v = v.
Proof.
  intros N. unfold normal. apply String.eqb_neq in N. now rewrite N.
Qed.

Lemma dict_get_update_present (k : string) (d e : dict) :
  dict_get k d <> None -> dict_get k (dict_update d e) <> None.
Proof.
  revert d. induction e as [|[k' v'] e IH]; simpl; intros d H; [exact H|].
  apply IH. destruct (String.eqb k k') eqn:E.
  - apply String.eqb_eq in E. subst. rewrite dict_get_set_eq. discriminate.
  - apply String.eqb_neq in E. now rewrite dict_get_set_neq.
Qed.

(** The record that [get_vm_configs] returns, key by key. *)
Lemma get_vm_configs_record W node vm st out st' :
  get_vm_configs W node vm st = (Ret out, st') ->
  exists vid cnf,
    dict_get "vmid" vm = Some vid /\ config_get W node vid = inr cnf /\
    (forall k, is_slot k = true -> dict_get k out = None) /\
    (forall k, is_slot k = false -> k <> "disks" -> k <> "nets" ->
       dict_get k out = option_map (normal k) (dict_get k (merged node vm cnf))) /\
    dict_get "disks" out =
      (if existsb is_disk_slot (dict_keys (merged node vm cnf)) then
         Some (VItems (disks st ++ slot_records disk_record is_disk_slot
                                     (merged node vm cnf)
                                     (dict_keys (merged node vm cnf))))
       else dict_get "disks" (merged node vm cnf)) /\
    dict_get "nets" out =
      (if existsb is_net_routed (dict_keys (merged node vm cnf)) then
         Some (VItems (nets st ++ slot_records net_record is_net_routed
                                    (merged node vm cnf)
                                    (dict_keys (merged node vm cnf))))
       else dict_get "nets" (merged node vm cnf)) /\
    calls st' = (calls st ++ [ConfigGet node vid])%list.
Proof.
  intros H.
  apply get_vm_configs_Ret_inv in H
    as (vid & cnf & vm2 & dsw & nsw & st2 & G & R & L & -> & _ & _ & C).
  exists vid, cnf. split; [exact G|]. split; [exact R|].
  set (m := merged node vm cnf) in *.
  pose proof (loop_records _ m m _ _ _ _ _ _ _ (fun k _ => or_intror eq_refl) L)
    as (Rd & Rn & Fd & Fn).
  pose proof (loop_deleted _ _ _ _ _ _ _ _ _ L) as Del.
  pose proof (loop_cpu _ _ _ _ _ _ _ _ _ L) as Cpu.
  pose proof (classify_keys_flags _ _ _ _ _ _ _ _ _ L) as (Cl & _ & _).
  assert (Sd : is_slot "disks" = false) by (vm_compute; reflexivity).
  assert (Sn : is_slot "nets" = false) by (vm_compute; reflexivity).
  assert (Plain : forall k, is_slot k = false ->
            dict_get k vm2 = option_map (normal k) (dict_get k m)).
  { intros k Hk. destruct (String.eqb k "cpu") eqn:E.
    - apply String.eqb_eq in E. subst k. rewrite Cpu.
      destruct (mem_string "cpu" (dict_keys m)) eqn:Mem; [reflexivity|].
      destruct (dict_get "cpu" m) eqn:Gc; [|reflexivity].
      assert (In "cpu" (dict_keys m)) by (apply dict_get_some_keys; congruence).
      apply mem_string_In in H. congruence.
    - apply String.eqb_neq in E.
      apply orb_false_iff in Hk as [Kd Kn].
      rewrite (classify_keys_get k _ _ _ _ _ _ _ _ _ Kd Kn E L).
      destruct (dict_get k m); [|reflexivity]. cbn. now rewrite normal_other. }
  assert (Nd : forall v, normal "disks" v = v) by (intros; apply normal_other; discriminate).
  assert (Nn : forall v, normal "nets" v = v) by (intros; apply normal_other; discriminate).
  simpl in Fd, Fn, Rd, Rn, Cl. subst dsw nsw.
  split; [|split; [|split; [|split]]].
  - intros k Hk.
    assert (E : dict_get k vm2 = None).
    { apply Del; [exact Hk|]. destruct (dict_get k m) eqn:Gk; [left|now right].
      apply dict_get_some_keys. congruence. }
    assert (k <> "disks") by (intros ->; congruence).
    assert (k <> "nets") by (intros ->; congruence).
    destruct (existsb is_disk_slot _), (existsb is_net_routed _); simpl;
      now rewrite ?dict_get_set_neq by assumption.
  - intros k Hk K1 K2. rewrite <- (Plain k Hk).
    destruct (existsb is_disk_slot _), (existsb is_net_routed _); simpl;
      now rewrite ?dict_get_set_neq by assumption.
  - destruct (existsb is_disk_slot _) eqn:Ed, (existsb is_net_routed _); simpl;
      rewrite ?dict_get_set_neq by discriminate;
      rewrite ?dict_get_set_eq; rewrite ?Rd; try reflexivity;
      rewrite (Plain "disks" Sd); destruct (dict_get "disks" m); cbn;
      now rewrite ?Nd.
  - destruct (existsb is_disk_slot _), (existsb is_net_routed _) eqn:En; simpl;
      rewrite ?dict_get_set_eq; rewrite ?Rn; try reflexivity;
      rewrite ?dict_get_set_neq by discriminate;
      rewrite (Plain "nets" Sn); destruct (dict_get "nets" m); cbn;
      now rewrite ?Nn.
  - now rewrite C, Cl.
Qed.

End RecordFacts.

(* ================================================================= *)
(** ** Listings, selection and failures *)

Module SelectionFacts.
Import Str StrFacts Re ReFacts Py VmInfo.
Import PatternFacts DictFacts ParserFacts MethodFacts MainFacts ListingFacts.
Import RecordFacts.

(** *** The selection by vmid *)

Lemma filter_vmid_eq z vms st :
  (forall vm, In vm vms -> dict_get "vmid" vm <> None) ->
  filter_vmid z vms st = (Ret (filter (vmid_is z) vms), st).
Proof.
  induction vms as [|vm vms IH]; intros P; cbn [filter_vmid filter]; [reflexivity|].
  unfold bind, getitem, vmid_is.
  destruct (dict_get "vmid" vm) as [v|] eqn:G;
    [|now destruct (P vm (or_introl eq_refl))].
  cbn. rewrite IH by (intros x Hx; apply P; now right). reflexivity.
Qed.

Lemma tagged_vmid vm z : dict_get "vmid" (tagged vm z) = Some (VInt z).
Proof.
  unfold tagged. rewrite dict_get_set_neq by discriminate. apply dict_get_set_eq.
Qed.

Lemma get_vm_configs_has_vmid W node vm st out st' :
  get_vm_configs W node vm st = (Ret out, st') -> dict_get "vmid" out <> None.
Proof.
  intros H. destruct slot_free_fields as (D & N & _).
  apply (get_vm_configs_field "vmid") in H as (vid & cnf & G & _ & E);
    try discriminate; auto.
  rewrite E. unfold merged. rewrite dict_get_set_neq by discriminate.
  apply dict_get_update_present. congruence.
Qed.

Lemma qemu_each_has_vmid W node l st outs st' :
  qemu_each W node l st = (Ret outs, st') ->
  forall out, In out outs -> dict_get "vmid" out <> None.
Proof.
  intros H out Hin.
  destruct (qemu_each_inv W node l _ _ _ H out Hin) as (vm & z & s1 & s2 & _ & G).
  exact (get_vm_configs_has_vmid _ _ _ _ _ _ G).
Qed.

Lemma lxc_each_has_vmid W l st outs st' :
  lxc_each W l st = (Ret outs, st') ->
  forall out, In out outs -> dict_get "vmid" out <> None.
Proof.
  intros H out Hin.
  destruct (lxc_each_inv W l _ _ _ H out Hin) as (vm & z & _ & ->).
  rewrite dict_get_set_eq. discriminate.
Qed.

(** *** The listing of the containers *)

Lemma lxc_each_spec W l : forall st outs st',
  lxc_each W l st = (Ret outs, st') ->
  st' = st /\
  Forall2 (fun vm out => exists z, entry_vmid W vm z /\
                                   out = dict_set "vmid" (VInt z) vm) l outs.
Proof.
  induction l as [|vm l IH]; cbn [lxc_each]; intros st outs st' H.
  - apply ret_inv in H as [<- <-]. split; [reflexivity | constructor].
  - apply bind_Ret_inv in H as (v & s1 & G & H).
    apply getitem_Ret_inv in G as [G ->].
    apply bind_Ret_inv in H as (z & s2 & Z & H).
    apply of_sum_Ret_inv in Z as [Z ->].
    apply bind_Ret_inv in H as (outs' & s3 & E & H).
    apply IH in E as [-> F]. apply ret_inv in H as [<- <-].
    split; [reflexivity|]. constructor; [|exact F].
    exists z. split; [now exists v | reflexivity].
Qed.

(** *** The listing of the virtual machines *)

Lemma qemu_each_spec W node l : forall st outs st',
  clean st -> qemu_each W node l st = (Ret outs, st') ->
  exists zos : list (Z * dict),
    outs = map snd zos /\
    Forall2 (fun vm zo =>
               entry_vmid W vm (fst zo) /\
               fst (get_vm_configs W node (tagged vm (fst zo)) init_state)
               = Ret (snd zo)) l zos /\
    calls st' = (calls st ++ map (fun zo => ConfigGet node (VInt (fst zo))) zos)%list /\
    clean st'.
Proof.
  induction l as [|vm l IH]; cbn [qemu_each]; intros st outs st' C H.
  - apply ret_inv in H as [<- <-]. exists []. cbn.
    rewrite List.app_nil_r.
    split; [reflexivity|]. split; [constructor|]. split; [reflexivity | exact C].
  - apply bind_Ret_inv in H as (v & s1 & G1 & H).
    apply getitem_Ret_inv in G1 as [G1 ->].
    apply bind_Ret_inv in H as (z & s2 & G2 & H).
    apply of_sum_Ret_inv in G2 as [G2 ->].
    apply bind_Ret_inv in H as (o & s3 & G & H).
    apply bind_Ret_inv in H as (outs' & s4 & E & H).
    apply ret_inv in H as [<- <-]. fold (tagged vm z) in G.
    pose proof (get_vm_configs_clean _ _ _ _ _ _ C G) as C3.
    destruct (IH _ _ _ C3 E) as (zos & -> & F & Cl & C4).
    exists ((z, o) :: zos). cbn. split; [reflexivity|]. split; [|split].
    + constructor; [|exact F]. cbn. split; [now exists v|].
      rewrite <- (get_vm_configs_fresh W node _ st C). now rewrite G.
    + apply get_vm_configs_record in G as (vid & cnf & Gv & _ & _ & _ & _ & _ & Cg).
      rewrite tagged_vmid in Gv. injection Gv as <-.
      rewrite Cl, Cg, <- List.app_assoc. reflexivity.
    + exact C4.
Qed.

(** *** Independence of the request log, continued *)

Lemma respects_of_sum {A} (r : string + A) : respects (of_sum r).
Proof. destruct r; [apply respects_raise | apply respects_ret]. Qed.

Lemma respects_qemu_each W node l : respects (qemu_each W node l).
Proof.
  induction l as [|vm l IH]; cbn [qemu_each]; [apply respects_ret|].
  apply respects_bind; [apply respects_getitem|]. intros v.
  apply respects_bind; [apply respects_of_sum|]. intros z.
  apply respects_bind; [apply respects_get_vm_configs|]. intros o.
  apply respects_bind; [exact IH|]. intros outs. apply respects_ret.
Qed.

Lemma respects_filter_vmid z vms : respects (filter_vmid z vms).
Proof.
  induction vms as [|vm vms IH]; cbn [filter_vmid]; [apply respects_ret|].
  apply respects_bind; [apply respects_getitem|]. intros v.
  apply respects_bind; [exact IH|]. intros outs. apply respects_ret.
Qed.

Lemma respects_get_qemu_vms W node vmid : respects (get_qemu_vms W node vmid).
Proof.
  unfold get_qemu_vms. apply respects_try_fail.
  apply respects_bind; [apply respects_request|]. intros l.
  apply respects_bind; [apply respects_qemu_each|]. intros vms.
  destruct vmid; [apply respects_filter_vmid | apply respects_ret].
Qed.

Lemma get_qemu_vms_from_init W node vmid st :
  clean st ->
  fst (get_qemu_vms W node vmid st) = fst (get_qemu_vms W node vmid init_state).
Proof. intros [D N]. apply respects_get_qemu_vms. now split. Qed.

(** *** The loop over all nodes *)

Lemma all_nodes_spec W nodes : forall vms node st vms' node' st',
  clean st ->
  all_nodes W nodes vms node st = (Ret (vms', node'), st') ->
  clean st' /\
  exists parts,
    Forall2 (fun entry part =>
               exists n, dict_get "node" entry = Some n /\
                         fst (get_qemu_vms W n None init_state) = Ret part)
            nodes parts /\
    vms' = (vms ++ concat parts)%list.
Proof.
  induction nodes as [|entry nodes IH]; cbn [all_nodes];
    intros vms node st vms' node' st' C H.
  - apply ret_inv in H as [E <-]. injection E as <- _.
    split; [exact C|]. exists []. split; [constructor|].
    cbn. now rewrite List.app_nil_r.
  - apply bind_Ret_inv in H as (n & s1 & G & H).
    apply getitem_Ret_inv in G as [G ->].
    apply bind_Ret_inv in H as (part & s2 & Q & H).
    destruct (get_qemu_vms_fresh W n None st part s2 C Q) as [C2 _].
    apply IH in H as (C3 & parts & F & ->); [|exact C2].
    split; [exact C3|]. exists (part :: parts). split.
    + constructor; [|exact F]. exists n. split; [exact G|].
      rewrite <- (get_qemu_vms_from_init W n None st C). now rewrite Q.
    + cbn. destruct part; [reflexivity|].
      now rewrite <- List.app_assoc.
Qed.

(** *** Failures *)

Lemma fail_prefix_ret {A} p (a : A) : fail_prefix p (ret a).
Proof. intros st msg H. discriminate. Qed.

Lemma fail_prefix_of_sum {A} p (r : string + A) : fail_prefix p (of_sum r).
Proof. intros st msg H. destruct r; discriminate. Qed.

Lemma fail_prefix_getitem p d k : fail_prefix p (getitem d k).
Proof. intros st msg H. unfold getitem in H. destruct (dict_get k d); discriminate. Qed.

Lemma fail_prefix_request {A} p c (r : string + A) : fail_prefix p (request c r).
Proof. intros st msg H. unfold request, bind, log in H. destruct r; discriminate. Qed.

Lemma fail_prefix_bind {A B} p (m : M A) (k : A -> M B) :
  fail_prefix p m -> (forall a, fail_prefix p (k a)) -> fail_prefix p (bind m k).
Proof.
  intros Hm Hk st msg H. unfold bind in H. specialize (Hm st).
  destruct (m st) as [[a|e|msg'] st1]; simpl in *.
  - exact (Hk a st1 msg H).
  - discriminate.
  - injection H as <-. now apply Hm.
Qed.

Lemma fail_prefix_try_fail {A} p (m : M A) :
  fail_prefix p m -> fail_prefix p (try_fail p m).
Proof.
  intros Hm st msg H. unfold try_fail in H. specialize (Hm st).
  destruct (m st) as [[a|e|msg'] st1]; simpl in *.
  - discriminate.
  - injection H as <-. now exists e.
  - injection H as <-. now apply Hm.
Qed.

Lemma try_fail_fails_with {A} p (m : M A) st :
  fail_prefix p m -> fails_with p (fst (try_fail p m st)).
Proof.
  intros Hm. unfold try_fail. specialize (Hm st).
  destruct (m st) as [[a|e|msg'] st1]; simpl in *; [exact I | now exists e | now apply Hm].
Qed.

Lemma fail_prefix_classify_keys keys : forall acc,
  fail_prefix qemu_prefix (classify_keys keys acc).
Proof.
  induction keys as [|key keys IH]; intros acc; cbn [classify_keys].
  - apply fail_prefix_ret.
  - apply fail_prefix_bind; [|exact IH].
    intros st msg H. destruct acc as [[vm d] n].
    rewrite classify_key_eq in H.
    destruct (dict_get key vm); [|discriminate].
    destruct (is_disk_slot key); [discriminate|].
    destruct (is_net_slot key); [discriminate|].
    destruct (String.eqb key "cpu" && is_numeric v); discriminate.
Qed.

Lemma fail_prefix_get_vm_configs_body W node vm :
  fail_prefix qemu_prefix
    (vmid <- getitem vm "vmid" ;;
     vmcnf <- request (ConfigGet node vmid) (config_get W node vmid) ;;
     let vm1 := dict_set "node" node (dict_update vm vmcnf) in
     '(vm2, dsw, nsw) <- classify_keys (dict_keys vm1) (vm1, false, false) ;;
     vm3 <- (if dsw then attach_disks vm2 else ret vm2) ;;
     vm4 <- (if nsw then attach_nets vm3 else ret vm3) ;;
     ret vm4).
Proof.
  apply fail_prefix_bind; [apply fail_prefix_getitem|]. intros vid.
  apply fail_prefix_bind; [apply fail_prefix_request|]. intros cnf.
  apply fail_prefix_bind; [apply fail_prefix_classify_keys|].
  intros [[vm2 dsw] nsw].
  apply fail_prefix_bind.
  { destruct dsw; [|apply fail_prefix_ret]. intros st msg H. discriminate. }
  intros vm3. apply fail_prefix_bind; [|intros; apply fail_prefix_ret].
  destruct nsw; [|apply fail_prefix_ret]. intros st msg H. discriminate.
Qed.

Lemma fail_prefix_get_vm_configs W node vm :
  fail_prefix qemu_prefix (get_vm_configs W node vm).
Proof. apply fail_prefix_try_fail, fail_prefix_get_vm_configs_body. Qed.

Lemma fail_prefix_qemu_each W node l : fail_prefix qemu_prefix (qemu_each W node l).
Proof.
  induction l as [|vm l IH]; cbn [qemu_each]; [apply fail_prefix_ret|].
  apply fail_prefix_bind; [apply fail_prefix_getitem|]. intros v.
  apply fail_prefix_bind; [apply fail_prefix_of_sum|]. intros z.
  apply fail_prefix_bind; [apply fail_prefix_get_vm_configs|]. intros o.
  apply fail_prefix_bind; [exact IH|]. intros outs. apply fail_prefix_ret.
Qed.

Lemma fail_prefix_filter_vmid p z vms : fail_prefix p (filter_vmid z vms).
Proof.
  induction vms as [|vm vms IH]; cbn [filter_vmid]; [apply fail_prefix_ret|].
  apply fail_prefix_bind; [apply fail_prefix_getitem|]. intros v.
  apply fail_prefix_bind; [exact IH|]. intros outs. apply fail_prefix_ret.
Qed.

Lemma fail_prefix_select_vmid p vmid vms : fail_prefix p (select_vmid vmid vms).
Proof. destruct vmid; [apply fail_prefix_filter_vmid | apply fail_prefix_ret]. Qed.

Lemma fail_prefix_lxc_each p W l : fail_prefix p (lxc_each W l).
Proof.
  induction l as [|vm l IH]; cbn [lxc_each]; [apply fail_prefix_ret|].
  apply fail_prefix_bind; [apply fail_prefix_getitem|]. intros v.
  apply fail_prefix_bind; [apply fail_prefix_of_sum|]. intros z.
  apply fail_prefix_bind; [exact IH|]. intros outs. apply fail_prefix_ret.
Qed.

Lemma fail_prefix_vm_in_list p W vmid l : fail_prefix p (vm_in_list W vmid l).
Proof.
  induction l as [|vm l IH]; cbn [vm_in_list]; [apply fail_prefix_ret|].
  apply fail_prefix_bind; [apply fail_prefix_getitem|]. intros v.
  apply fail_prefix_bind; [apply fail_prefix_of_sum|]. intros z.
  destruct (int_eq_opt z vmid); [apply fail_prefix_ret | exact IH].
Qed.

(** *** vm_in_node and get_vm_node *)

Lemma vm_in_list_spec W vmid l : forall st b st',
  vm_in_list W vmid l st = (Ret b, st') ->
  st' = st /\
  if b then exists vm z, In vm l /\ entry_vmid W vm z /\ vmid = Some z
  else vm_absent W vmid l.
Proof.
  induction l as [|vm l IH]; cbn [vm_in_list]; intros st b st' H.
  - apply ret_inv in H as [<- <-]. split; [reflexivity | constructor].
  - apply bind_Ret_inv in H as (v & s1 & G & H).
    apply getitem_Ret_inv in G as [G ->].
    apply bind_Ret_inv in H as (z & s2 & Z & H).
    apply of_sum_Ret_inv in Z as [Z ->].
    destruct (int_eq_opt z vmid) eqn:E.
    + apply ret_inv in H as [<- <-]. split; [reflexivity|].
      exists vm, z. split; [now left|]. split; [now exists v|].
      unfold int_eq_opt in E. destruct vmid as [x|]; [|discriminate].
      apply Z.eqb_eq in E. now subst.
    + apply IH in H as [-> H]. split; [reflexivity|].
      destruct b.
      * destruct H as (vm' & z' & I & P). exists vm', z'. split; [now right | exact P].
      * constructor; [|exact H]. exists z. split; [now exists v|].
        intros ->. simpl in E. now rewrite Z.eqb_refl in E.
Qed.

Lemma vm_in_node_spec W vmid node st b st' :
  vm_in_node W vmid node st = (Ret b, st') ->
  exists l, qemu_get W node = inr l /\
    if b then exists vm z, In vm l /\ entry_vmid W vm z /\ vmid = Some z
    else vm_absent W vmid l.
Proof.
  intros H. apply try_fail_Ret_inv in H.
  apply bind_Ret_inv in H as (l & s1 & R & H).
  apply request_Ret_inv in R as [R _].
  apply vm_in_list_spec in H as [_ H]. now exists l.
Qed.

Lemma node_of_vm_spec W vmid nodes : forall st n st',
  node_of_vm W vmid nodes st = (Ret n, st') ->
  (exists entry l vm z,
     In entry nodes /\ dict_get "node" entry = Some n /\
     qemu_get W n = inr l /\ In vm l /\ entry_vmid W vm z /\ vmid = Some z) \/
  (n = VNone /\
   Forall (fun entry => exists n' l, dict_get "node" entry = Some n' /\
                                     qemu_get W n' = inr l /\
                                     vm_absent W vmid l) nodes).
Proof.
  induction nodes as [|entry nodes IH]; cbn [node_of_vm]; intros st n st' H.
  - apply ret_inv in H as [<- _]. right. split; [reflexivity | constructor].
  - apply bind_Ret_inv in H as (n1 & s1 & G & H).
    apply getitem_Ret_inv in G as [G ->].
    apply bind_Ret_inv in H as (b & s2 & V & H).
    apply vm_in_node_spec in V as (l & R & P).
    destruct b.
    + apply ret_inv in H as [<- _]. left.
      destruct P as (vm & z & I & E & ->).
      exists entry, l, vm, z. repeat split; auto. now left.
    + apply IH in H as [(e & l' & vm & z & I & P')|[-> F]].
      * left. exists e, l', vm, z. destruct P' as (? & ? & ? & ? & ?).
        repeat split; auto. now right.
      * right. split; [reflexivity|]. constructor; [|exact F].
        now exists n1, l.
Qed.

End SelectionFacts.

(* ================================================================= *)
(** ** Tokens of network values, and the log in main *)

Module ComposeFacts.
Import Str StrFacts Re ReFacts Py VmInfo.
Import PatternFacts DictFacts ParserFacts MethodFacts MainFacts ListingFacts.
Import RecordFacts SelectionFacts.

Lemma split_length c s : length (split c s) = S (count c s).
Proof.
  induction s as [|a s IH]; cbn [split count]; [reflexivity|].
  destruct (Ascii.eqb a c); cbn [length]; [now rewrite IH|].
  destruct (split c s) as [|h t]; cbn [length] in *; lia.
Qed.

Lemma contains_count c s : contains c s = negb (count c s =? 0)%nat.
Proof.
  induction s as [|a s IH]; cbn [contains count]; [reflexivity|].
  destruct (Ascii.eqb a c); [reflexivity | exact IH].
Qed.

(** A token passes the network parser exactly when it has at most one
    equals sign. *)
Lemma net_token_ok it data :
  (count "=" data <= 1)%nat -> exists it', net_token it data = inr it'.
Proof.
  intros H. unfold net_token. rewrite contains_count.
  pose proof (split_length "=" data) as L.
  destruct (count "=" data) as [|[|n]]; cbn; [eauto | | lia].
  destruct (split "=" data) as [|k [|v [|x l]]]; try discriminate.
  match goal with |- context [if ?b then _ else _] => destruct b end; eauto.
Qed.

Lemma net_token_fail it data :
  (2 <= count "=" data)%nat -> exists e, net_token it data = inl e.
Proof.
  intros H. unfold net_token. rewrite contains_count.
  pose proof (split_length "=" data) as L.
  destruct (count "=" data) as [|[|n]]; [lia | lia |]. cbn.
  destruct (split "=" data) as [|k [|v [|x l]]]; try discriminate. eauto.
Qed.

Lemma net_tokens_ok datas : forall it,
  forallb (fun t => count "=" t <=? 1)%nat datas = true ->
  exists it', net_tokens it datas = inr it'.
Proof.
  induction datas as [|data datas IH]; cbn; intros it H; [eauto|].
  apply andb_true_iff in H as [H1 H2]. apply Nat.leb_le in H1.
  destruct (net_token_ok it data H1) as (it1 & ->). now apply IH.
Qed.

Lemma net_tokens_fail datas : forall it,
  forallb (fun t => count "=" t <=? 1)%nat datas = false ->
  exists e, net_tokens it datas = inl e.
Proof.
  induction datas as [|data datas IH]; cbn; intros it H; [discriminate|].
  destruct (count "=" data <=? 1)%nat eqn:E.
  - apply Nat.leb_le in E. destruct (net_token_ok it data E) as (it1 & ->).
    now apply IH.
  - apply Nat.leb_gt in E. destruct (net_token_fail it data E) as (e & ->). eauto.
Qed.

(** *** The whole of main does not depend on the log *)

Lemma respects_lxc_each W l : respects (lxc_each W l).
Proof.
  induction l as [|vm l IH]; cbn [lxc_each]; [apply respects_ret|].
  apply respects_bind; [apply respects_getitem|]. intros v.
  apply respects_bind; [apply respects_of_sum|]. intros z.
  apply respects_bind; [exact IH|]. intros outs. apply respects_ret.
Qed.

Lemma respects_get_lxc_vms W node vmid : respects (get_lxc_vms W node vmid).
Proof.
  unfold get_lxc_vms. apply respects_try_fail.
  apply respects_bind; [apply respects_request|]. intros l.
  apply respects_bind; [apply respects_lxc_each|]. intros vms.
  destruct vmid; [apply respects_filter_vmid | apply respects_ret].
Qed.

Lemma respects_vm_in_list W vmid l : respects (vm_in_list W vmid l).
Proof.
  induction l as [|vm l IH]; cbn [vm_in_list]; [apply respects_ret|].
  apply respects_bind; [apply respects_getitem|]. intros v.
  apply respects_bind; [apply respects_of_sum|]. intros z.
  destruct (int_eq_opt z vmid); [apply respects_ret | exact IH].
Qed.

Lemma respects_vm_in_node W vmid node : respects (vm_in_node W vmid node).
Proof.
  unfold vm_in_node. apply respects_try_fail.
  apply respects_bind; [apply respects_request|]. intros l.
  apply respects_vm_in_list.
Qed.

Lemma respects_node_of_vm W vmid nodes : respects (node_of_vm W vmid nodes).
Proof.
  induction nodes as [|entry nodes IH]; cbn [node_of_vm]; [apply respects_ret|].
  apply respects_bind; [apply respects_getitem|]. intros n.
  apply respects_bind; [apply respects_vm_in_node|]. intros b.
  destruct b; [apply respects_ret | exact IH].
Qed.

Lemma respects_get_vm_node W vmid : respects (get_vm_node W vmid).
Proof.
  unfold get_vm_node. apply respects_try_fail.
  apply respects_bind; [apply respects_request|]. intros nodes.
  apply respects_node_of_vm.
Qed.

Lemma respects_all_nodes W nodes : forall vms node,
  respects (all_nodes W nodes vms node).
Proof.
  induction nodes as [|entry nodes IH]; intros vms node; cbn [all_nodes];
    [apply respects_ret|].
  apply respects_bind; [apply respects_getitem|]. intros n.
  apply respects_bind; [apply respects_get_qemu_vms|]. intros part.
  apply IH.
Qed.

Lemma respects_main_dispatch W node type vmid name :
  respects (main_dispatch W node type vmid name).
Proof.
  unfold main_dispatch. apply respects_bind.
  - destruct (String.eqb type "lxc").
    { apply respects_bind; [apply respects_get_lxc_vms|].
      intros vms. apply respects_ret. }
    destruct (String.eqb type "qemu"); [|apply respects_ret].
    destruct (truthy_str node).
    { apply respects_bind; [apply respects_get_qemu_vms|].
      intros vms. apply respects_ret. }
    destruct (truthy_int vmid || truthy_str name).
    { apply respects_bind; [apply respects_get_vm_node|]. intros n.
      apply respects_bind; [apply respects_get_qemu_vms|].
      intros vms. apply respects_ret. }
    apply respects_bind; [apply respects_request|]. intros nodes.
    apply respects_all_nodes.
  - intros [vms n]. destruct vms; [destruct vmid|];
      try apply respects_ret. apply respects_fail_json.
Qed.

(** *** The second branch of the loop *)

Lemma is_net_routed_eq k : is_net_routed k = is_net_slot k.
Proof.
  unfold is_net_routed. destruct (is_net_slot k) eqn:K.
  - now rewrite (net_slot_not_disk k K).
  - apply andb_false_r.
Qed.

Lemma existsb_same {A} (f g : A -> bool) l :
  (forall x, f x = g x) -> existsb f l = existsb g l.
Proof. intros E. induction l as [|x l IH]; cbn; [reflexivity | now rewrite E, IH]. Qed.

Lemma slot_records_same rec (p q : string -> bool) m keys :
  (forall k, p k = q k) -> slot_records rec p m keys = slot_records rec q m keys.
Proof.
  intros E. induction keys as [|k keys IH]; [reflexivity|].
  rewrite !slot_records_cons. now rewrite E, IH.
Qed.

End ComposeFacts.

(* ================================================================= *)
(** ** Further properties of the module *)

Import RecordFacts SelectionFacts ComposeFacts.

(** *** The record of a virtual machine *)

(** X1.  A record that [get_vm_configs] returns has no key that is a disk
    slot or a network slot: every such key of the listing entry or of the
    configuration has been removed. *)
Theorem X1_no_raw_slot_keys (W : world) (node : value) (vm out : dict)
    (st st' : state) :
  get_vm_configs W node vm st = (Ret out, st') ->
  forall k, is_disk_slot k = true \/ is_net_slot k = true ->
    dict_get k out = None /\ ~ In k (dict_keys out).
Proof.
  intros H k Hk.
  apply get_vm_configs_record in H as (vid & cnf & _ & _ & S & _).
  assert (E : dict_get k out = None).
  { apply S. unfold is_slot. destruct Hk as [-> | ->]; auto using orb_true_r. }
  split; [exact E|]. intros I. apply dict_get_some_keys in I. congruence.
Qed.

Lemma X1_no_raw_slot_keys_witness :
  exists out st',
    get_vm_configs (cluster disk_config disk_config) (VStr "pve1")
      [("vmid", VInt 100)] init_state = (Ret out, st') /\
    dict_get "scsi0" out = None /\ dict_get "net0" out = None.
Proof.
  destruct (get_vm_configs (cluster disk_config disk_config) (VStr "pve1")
              [("vmid", VInt 100)] init_state) as [o st'] eqn:E.
  assert (O : exists out, o = Ret out).
  { vm_compute in E. injection E as <- _. eauto. }
  destruct O as (out & ->). exists out, st'. split; [reflexivity|].
  split.
  - apply (X1_no_raw_slot_keys _ _ _ _ _ _ E "scsi0"). left. reflexivity.
  - apply (X1_no_raw_slot_keys _ _ _ _ _ _ E "net0"). right. reflexivity.
Defined.

(** X2.  Started with empty accumulators, [get_vm_configs] attaches a disks
    field exactly when the record that enters the loop has a disk slot
    among its keys, and the field then holds, in the order of the keys, the
    record of every disk slot whose value the parser accepts; the same holds
    for nets and the network slots.  Without such a key the field is what
    the record already had under that name. *)
Theorem X2_slot_lists (W : world) (node : value) (vm out : dict)
    (st st' : state) :
  clean st ->
  get_vm_configs W node vm st = (Ret out, st') ->
  exists vid cnf,
    dict_get "vmid" vm = Some vid /\ config_get W node vid = inr cnf /\
    dict_get "disks" out =
      (if existsb is_disk_slot (dict_keys (merged node vm cnf)) then
         Some (VItems (slot_records disk_record is_disk_slot
                         (merged node vm cnf) (dict_keys (merged node vm cnf))))
       else dict_get "disks" (merged node vm cnf)) /\
    dict_get "nets" out =
      (if existsb is_net_slot (dict_keys (merged node vm cnf)) then
         Some (VItems (slot_records net_record is_net_slot
                         (merged node vm cnf) (dict_keys (merged node vm cnf))))
       else dict_get "nets" (merged node vm cnf)).
Proof.
  intros [Cd Cn] H.
  apply get_vm_configs_record in H as (vid & cnf & G & R & _ & _ & D & N & _).
  exists vid, cnf. split; [exact G|]. split; [exact R|].
  rewrite Cd in D. rewrite Cn in N. split; [exact D|].
  rewrite N, (existsb_same _ _ _ is_net_routed_eq).
  now rewrite (slot_records_same _ _ _ _ _ is_net_routed_eq).
Qed.

Lemma X2_slot_lists_witness :
  clean init_state /\
  exists out st',
    get_vm_configs (cluster broken_disk_config plain_config) (VStr "pve1")
      [("vmid", VInt 100)] init_state = (Ret out, st') /\
    dict_get "disks" out
    = Some (VItems [[("name", "scsi0"); ("storage", "local");
                     ("path", "vm-100-disk-0.qcow2"); ("size", "30G")]]) /\
    dict_get "nets" out = None.
Proof.
  assert (C : clean init_state) by (split; reflexivity).
  split; [exact C|].
  destruct (get_vm_configs (cluster broken_disk_config plain_config) (VStr "pve1")
              [("vmid", VInt 100)] init_state) as [o st'] eqn:E.
  assert (O : exists out, o = Ret out).
  { vm_compute in E. injection E as <- _. eauto. }
  destruct O as (out & ->). exists out, st'. split; [reflexivity|].
  destruct (X2_slot_lists _ _ _ _ _ _ C E) as (vid & cnf & G & R & D & N).
  injection G as <-. vm_compute in R. injection R as <-.
  rewrite D, N. split; vm_compute; reflexivity.
Defined.

(** X3.  Whatever slots a record has, every key that is no slot and is not
    disks or nets keeps its value through [get_vm_configs], except that a
    numeric value of cpu becomes the string default; a key that the record
    entering the loop does not have is not created.  The node field is the
    node that was asked. *)
Theorem X3_other_keys_pass (W : world) (node : value) (vm out : dict)
    (st st' : state) :
  get_vm_configs W node vm st = (Ret out, st') ->
  dict_get "node" out = Some node /\
  exists vid cnf,
    dict_get "vmid" vm = Some vid /\ config_get W node vid = inr cnf /\
    forall k, is_disk_slot k = false -> is_net_slot k = false ->
      k <> "disks" -> k <> "nets" ->
      dict_get k out =
      match dict_get k (merged node vm cnf) with
      | Some v =>
          Some (if String.eqb k "cpu" && is_numeric v then VStr "default" else v)
      | None => None
      end.
Proof.
  intros H. split; [exact (get_vm_configs_node _ _ _ _ _ _ H)|].
  apply get_vm_configs_record in H as (vid & cnf & G & R & _ & P & _).
  exists vid, cnf. split; [exact G|]. split; [exact R|].
  intros k Kd Kn K1 K2.
  assert (S : is_slot k = false) by (unfold is_slot; now rewrite Kd, Kn).
  rewrite (P k S K1 K2). now destruct (dict_get k (merged node vm cnf)).
Qed.

Lemma X3_other_keys_pass_witness :
  exists out st',
    get_vm_configs (cluster disk_config disk_config) (VStr "pve1")
      [("vmid", VInt 100); ("cpu", VFloat 1 (-6)); ("name", VStr "test1")]
      init_state = (Ret out, st') /\
    dict_get "cpu" out = Some (VStr "default") /\
    dict_get "name" out = Some (VStr "test1") /\
    dict_get "cores" out = Some (VInt 2) /\
    dict_get "node" out = Some (VStr "pve1").
Proof.
  destruct (get_vm_configs (cluster disk_config disk_config) (VStr "pve1")
              [("vmid", VInt 100); ("cpu", VFloat 1 (-6)); ("name", VStr "test1")]
              init_state) as [o st'] eqn:E.
  assert (O : exists out, o = Ret out).
  { vm_compute in E. injection E as <- _. eauto. }
  destruct O as (out & ->). exists out, st'. split; [reflexivity|].
  destruct (X3_other_keys_pass _ _ _ _ _ _ E) as (N & vid & cnf & G & R & P).
  injection G as <-. vm_compute in R. injection R as <-.
  split; [rewrite P by (reflexivity || discriminate); reflexivity|].
  split; [rewrite P by (reflexivity || discriminate); reflexivity|].
  split; [rewrite P by (reflexivity || discriminate); reflexivity | exact N].
Defined.

(** *** The two listings *)

(** X4.  Started with empty accumulators and without a vmid,
    [get_qemu_vms] returns one record for every entry of the listing of the
    node, in the order of the listing, and each is the record that its
    entry, with the integer vmid and the type qemu, gets from
    [get_vm_configs] in the initial state.  It sends the request for the
    listing and then one request for a configuration per entry, in order,
    and leaves the accumulators empty. *)
Theorem X4_one_record_per_entry (W : world) (node : value) (st st' : state)
    (vms : list dict) :
  clean st ->
  get_qemu_vms W node None st = (Ret vms, st') ->
  exists l (zos : list (Z * dict)),
    qemu_get W node = inr l /\
    vms = map snd zos /\
    Forall2 (fun vm zo =>
               entry_vmid W vm (fst zo) /\
               fst (get_vm_configs W node (tagged vm (fst zo)) init_state)
               = Ret (snd zo)) l zos /\
    calls st' = (calls st ++ QemuGet node ::
                 map (fun zo => ConfigGet node (VInt (fst zo))) zos)%list /\
    clean st'.
Proof.
  intros C H. apply try_fail_Ret_inv in H.
  apply bind_Ret_inv in H as (l & s1 & R & H).
  apply request_Ret_inv in R as [R ->].
  apply bind_Ret_inv in H as (outs & s2 & E & H).
  apply ret_inv in H as [<- <-].
  apply qemu_each_spec in E as (zos & -> & F & Cl & C2); [|exact C].
  exists l, zos. repeat split; auto; try apply C2.
  rewrite Cl. cbn. now rewrite <- List.app_assoc.
Qed.

Lemma X4_one_record_per_entry_witness :
  clean init_state /\
  exists vms st',
    get_qemu_vms (cluster plain_config disk_config) (VStr "pve1") None init_state
    = (Ret vms, st') /\
    length vms = 2 /\ clean st'.
Proof.
  assert (C : clean init_state) by (split; reflexivity).
  split; [exact C|].
  destruct (get_qemu_vms (cluster plain_config disk_config) (VStr "pve1") None
              init_state) as [o st'] eqn:E.
  assert (O : exists vms, o = Ret vms).
  { vm_compute in E. injection E as <- _. eauto. }
  destruct O as (vms & ->). exists vms, st'. split; [reflexivity|].
  destruct (X4_one_record_per_entry _ _ _ _ _ C E)
    as (l & zos & R & -> & F & _ & C').
  vm_compute in R. injection R as <-.
  split; [|exact C'].
  rewrite length_map, <- (Forall2_length F). reflexivity.
Defined.

(** X5.  Asking [get_qemu_vms] for a vmid is asking it for all virtual
    machines of the node and keeping the records whose vmid equals the one
    asked: the same requests, the same failures, and on success the
    filtered list in the same order. *)
Theorem X5_qemu_vmid_is_a_filter (W : world) (node : value) (z : Z) (st : state) :
  get_qemu_vms W node (Some z) st =
  match get_qemu_vms W node None st with
  | (Ret all, st') => (Ret (filter (vmid_is z) all), st')
  | r => r
  end.
Proof.
  unfold get_qemu_vms, try_fail, bind.
  destruct (request (QemuGet node) (qemu_get W node) st) as [[l|e|msg] s1];
    cbn; try reflexivity.
  destruct (qemu_each W node l s1) as [[outs|e|msg] s2] eqn:E; cbn;
    try reflexivity.
  now rewrite (filter_vmid_eq z outs s2 (qemu_each_has_vmid _ _ _ _ _ _ E)).
Qed.

(** X6.  The same for the containers: [get_lxc_vms] with a vmid returns the
    entries of [get_lxc_vms] without one whose vmid equals the one asked. *)
Theorem X6_lxc_vmid_is_a_filter (W : world) (node : value) (z : Z) (st : state) :
  get_lxc_vms W node (Some z) st =
  match get_lxc_vms W node None st with
  | (Ret all, st') => (Ret (filter (vmid_is z) all), st')
  | r => r
  end.
Proof.
  unfold get_lxc_vms, try_fail, bind.
  destruct (request (LxcGet node) (lxc_get W node) st) as [[l|e|msg] s1];
    cbn; try reflexivity.
  destruct (lxc_each W l s1) as [[outs|e|msg] s2] eqn:E; cbn;
    try reflexivity.
  now rewrite (filter_vmid_eq z outs s2 (lxc_each_has_vmid _ _ _ _ _ E)).
Qed.

(** X7.  Without a vmid [get_lxc_vms] returns the entries of the listing
    of the containers one by one and in order; each has its vmid converted
    to an integer and is otherwise unchanged, in its keys, their order and
    their values.  The only request is the one for the listing, and the
    accumulators are not touched. *)
Theorem X7_containers_as_listed (W : world) (node : value) (st st' : state)
    (vms : list dict) :
  get_lxc_vms W node None st = (Ret vms, st') ->
  exists l,
    lxc_get W node = inr l /\
    Forall2 (fun entry out =>
               exists z, entry_vmid W entry z /\
                 dict_get "vmid" out = Some (VInt z) /\
                 dict_keys out = dict_keys entry /\
                 forall k, k <> "vmid" -> dict_get k out = dict_get k entry)
            l vms /\
    disks st' = disks st /\ nets st' = nets st /\
    calls st' = (calls st ++ [LxcGet node])%list.
Proof.
  intros H. apply try_fail_Ret_inv in H.
  apply bind_Ret_inv in H as (l & s1 & R & H).
  apply request_Ret_inv in R as [R ->].
  apply bind_Ret_inv in H as (outs & s2 & E & H).
  apply ret_inv in H as [<- <-].
  apply lxc_each_spec in E as [-> F].
  exists l. split; [exact R|]. split; [|repeat split].
  clear R.
  induction F as [|entry out l' outs' (z & Z & ->) F IH]; [constructor|].
  constructor; [|exact IH].
  exists z. split; [exact Z|]. split; [apply dict_get_set_eq|].
  destruct Z as (v & G & _). split.
  - apply dict_keys_set_present. congruence.
  - intros k N. now apply dict_get_set_neq.
Qed.

Lemma X7_containers_as_listed_witness :
  exists vms st',
    get_lxc_vms (cluster plain_config plain_config) (VStr "pve1") None init_state
    = (Ret vms, st') /\
    vms = [[("vmid", VInt 200); ("name", VStr "ct1"); ("status", VStr "running")]] /\
    calls st' = [LxcGet (VStr "pve1")].
Proof.
  destruct (get_lxc_vms (cluster plain_config plain_config) (VStr "pve1") None
              init_state) as [o st'] eqn:E.
  assert (O : exists vms, o = Ret vms /\
                vms = [[("vmid", VInt 200); ("name", VStr "ct1");
                        ("status", VStr "running")]]).
  { vm_compute in E. injection E as <- _. eauto. }
  destruct O as (vms & -> & V). exists vms, st'.
  split; [reflexivity|]. split; [exact V|].
  destruct (X7_containers_as_listed _ _ _ _ _ E) as (l & _ & _ & _ & _ & C).
  exact C.
Defined.

(** *** main over all nodes *)

(** X8.  With type qemu and neither node nor vmid nor name, a run of [main]
    that starts with empty accumulators and returns a list returns the
    lists of [get_qemu_vms] for the nodes of the cluster, in the order in
    which the cluster lists its nodes, one after the other. *)
Theorem X8_all_nodes_concatenated (W : world) (node name : option string)
    (vmid : option Z) (st st' : state) (vms : list dict) :
  clean st ->
  truthy_str node = false -> truthy_int vmid = false -> truthy_str name = false ->
  main W {| p_node := node; p_type := "qemu"; p_vmid := vmid; p_name := name |} st
  = (Ret vms, st') ->
  exists nodes parts,
    nodes_get W = inr nodes /\
    Forall2 (fun entry part =>
               exists n, dict_get "node" entry = Some n /\
                         fst (get_qemu_vms W n None init_state) = Ret part)
            nodes parts /\
    vms = concat parts.
Proof.
  intros C Hn Hv Hm H. unfold main in H. cbn [p_node p_type p_vmid p_name] in H.
  apply bind_Ret_inv in H as (u & s1 & Ck & H).
  assert (E1 : s1 = st).
  { unfold check_node in Ck. destruct node as [n|]; [|now apply ret_inv in Ck].
    simpl in Hn. rewrite Hn in Ck. now apply ret_inv in Ck. }
  subst s1. apply bind_Ret_inv in H as (vmid' & s2 & Rv & H).
  assert (E2 : vmid' = vmid /\ s2 = st).
  { unfold resolve_vmid in Rv. destruct name as [n|];
      [|apply ret_inv in Rv as [<- <-]; now split].
    simpl in Hm. rewrite Hm, andb_false_r in Rv.
    apply ret_inv in Rv as [<- <-]. now split. }
  destruct E2 as [-> ->]. unfold main_dispatch in H.
  apply bind_Ret_inv in H as ([l n] & s3 & D & H).
  cbn [String.eqb Ascii.eqb Bool.eqb] in D. rewrite Hn, Hv, Hm in D.
  cbn [orb] in D.
  apply bind_Ret_inv in D as (nodes & s4 & R & D).
  apply request_Ret_inv in R as [R ->].
  apply all_nodes_spec in D as (_ & parts & F & E); [|exact C].
  exists nodes, parts. split; [exact R|]. split; [exact F|].
  cbn in E. subst l.
  destruct (concat parts) eqn:P; [destruct vmid|];
    try (apply ret_inv in H as [<- _]; reflexivity).
  discriminate.
Qed.

Lemma X8_all_nodes_concatenated_witness :
  clean init_state /\
  exists vms st',
    main (cluster plain_config disk_config)
      {| p_node := None; p_type := "qemu"; p_vmid := None; p_name := None |}
      init_state = (Ret vms, st') /\
    fst (get_qemu_vms (cluster plain_config disk_config) (VStr "pve1") None
           init_state) = Ret vms.
Proof.
  assert (C : clean init_state) by (split; reflexivity).
  split; [exact C|].
  destruct (main (cluster plain_config disk_config)
              {| p_node := None; p_type := "qemu"; p_vmid := None; p_name := None |}
              init_state) as [o st'] eqn:E.
  assert (O : exists vms, o = Ret vms).
  { vm_compute in E. injection E as <- _. eauto. }
  destruct O as (vms & ->). exists vms, st'. split; [reflexivity|].
  destruct (X8_all_nodes_concatenated (cluster plain_config disk_config)
              None None None init_state st' vms C eq_refl eq_refl eq_refl E)
    as (nodes & parts & R & F & ->).
  vm_compute in R. injection R as <-.
  inversion F as [|? part ? parts1 (n & G & Q) F1]; subst.
  inversion F1; subst. vm_compute in G. injection G as <-.
  rewrite Q. cbn. now rewrite List.app_nil_r.
Defined.

(** *** Failures *)

(** X9.  No exception leaves [vm_in_node], [get_vm_node], [get_vm_configs],
    [get_qemu_vms] or [get_lxc_vms]: each of them returns or ends the module
    through [fail_json], with a message that starts with the text of the
    method (for [get_vm_node] its own text or that of [vm_in_node]).  In
    particular an exception of the listing request is reported with its
    text after that prefix. *)
Theorem X9_failures_are_reported (W : world) (node : value) (vmid : option Z)
    (vm : dict) (st : state) :
  fails_with qemu_prefix (fst (vm_in_node W vmid node st)) /\
  fails_with qemu_prefix (fst (get_vm_configs W node vm st)) /\
  fails_with qemu_prefix (fst (get_qemu_vms W node vmid st)) /\
  fails_with lxc_prefix (fst (get_lxc_vms W node vmid st)) /\
  match fst (get_vm_node W vmid st) with
  | Ret _ => True
  | Raise _ => False
  | FailJson msg =>
      (exists e, msg = node_prefix ++ e) \/ (exists e, msg = qemu_prefix ++ e)
  end /\
  (forall e, lxc_get W node = inl e ->
     fst (get_lxc_vms W node vmid st) = FailJson (lxc_prefix ++ e)) /\
  (forall e, qemu_get W node = inl e ->
     fst (get_qemu_vms W node vmid st) = FailJson (qemu_prefix ++ e)).
Proof.
  split; [|split; [|split; [|split; [|split; [|split]]]]].
  - apply try_fail_fails_with.
    apply fail_prefix_bind; [apply fail_prefix_request|].
    intros l. apply fail_prefix_vm_in_list.
  - apply try_fail_fails_with, fail_prefix_get_vm_configs_body.
  - apply try_fail_fails_with.
    apply fail_prefix_bind; [apply fail_prefix_request|]. intros l.
    apply fail_prefix_bind; [apply fail_prefix_qemu_each|]. intros vms.
    apply fail_prefix_select_vmid.
  - apply try_fail_fails_with.
    apply fail_prefix_bind; [apply fail_prefix_request|]. intros l.
    apply fail_prefix_bind; [apply fail_prefix_lxc_each|]. intros vms.
    apply fail_prefix_select_vmid.
  - assert (P : fail_prefix qemu_prefix
                  (nodes <- request NodesGet (nodes_get W) ;;
                   node_of_vm W vmid nodes)).
    { apply fail_prefix_bind; [apply fail_prefix_request|]. intros nodes.
      induction nodes as [|entry nodes IH]; cbn [node_of_vm];
        [apply fail_prefix_ret|].
      apply fail_prefix_bind; [apply fail_prefix_getitem|]. intros n.
      apply fail_prefix_bind.
      - apply fail_prefix_try_fail.
        apply fail_prefix_bind; [apply fail_prefix_request|].
        intros l. apply fail_prefix_vm_in_list.
      - intros b. destruct b; [apply fail_prefix_ret | exact IH]. }
    unfold get_vm_node, try_fail. specialize (P st).
    destruct ((nodes <- request NodesGet (nodes_get W) ;;
               node_of_vm W vmid nodes) st) as [[n|e|msg] s1]; cbn in *.
    + exact I.
    + left. now exists e.
    + right. now apply P.
  - intros e H. unfold get_lxc_vms, try_fail, bind, request, bind, log.
    now rewrite H.
  - intros e H. unfold get_qemu_vms, try_fail, bind, request, bind, log.
    now rewrite H.
Qed.

Lemma X9_failures_are_reported_witness :
  fst (get_lxc_vms offline_cluster (VStr "pve1") None init_state)
  = FailJson "Failed to retrieve LXC VMs information: Connection refused" /\
  fst (get_qemu_vms offline_cluster (VStr "pve1") None init_state)
  = FailJson "Failed to retrieve QEMU VMs information: Connection refused".
Proof.
  destruct (X9_failures_are_reported offline_cluster (VStr "pve1") None []
              init_state) as (_ & _ & _ & _ & _ & L & Q).
  split; [exact (L "Connection refused" eq_refl) | exact (Q "Connection refused" eq_refl)].
Defined.

(** X10.  The loop of [main] over all nodes is not inside a try: with type
    qemu and neither node nor vmid nor name, an exception of the request for
    the nodes leaves [main] as an exception, not through [fail_json], and so
    does a node entry without the key node. *)
Theorem X10_uncaught_in_all_nodes (W : world) (node name : option string)
    (vmid : option Z) (st : state) :
  truthy_str node = false -> truthy_int vmid = false -> truthy_str name = false ->
  (forall e, nodes_get W = inl e ->
     main W {| p_node := node; p_type := "qemu"; p_vmid := vmid; p_name := name |} st
     = (Raise e, snd (log NodesGet st))) /\
  (forall entry rest, nodes_get W = inr (entry :: rest) ->
     dict_get "node" entry = None ->
     main W {| p_node := node; p_type := "qemu"; p_vmid := vmid; p_name := name |} st
     = (Raise "'node'", snd (log NodesGet st))).
Proof.
  intros Hn Hv Hm.
  assert (E : main W {| p_node := node; p_type := "qemu"; p_vmid := vmid;
                        p_name := name |} st
              = main_dispatch W node "qemu" vmid name st).
  { unfold main, bind. cbn [p_node p_type p_vmid p_name].
    assert (C : check_node W node st = (Ret tt, st)).
    { unfold check_node. destruct node as [n|]; [|reflexivity].
      simpl in Hn. now rewrite Hn. }
    assert (R : resolve_vmid W vmid name st = (Ret vmid, st)).
    { unfold resolve_vmid. destruct name as [n|]; [|reflexivity].
      simpl in Hm. now rewrite Hm, andb_false_r. }
    now rewrite C, R. }
  rewrite E. unfold main_dispatch, bind.
  cbn [String.eqb Ascii.eqb Bool.eqb]. rewrite Hn, Hv, Hm. cbn [orb].
  unfold request, bind, log. split.
  - intros e H. now rewrite H.
  - intros entry rest H G. rewrite H. cbn. unfold bind, getitem. now rewrite G.
Qed.

Lemma X10_uncaught_in_all_nodes_witness :
  main offline_cluster
    {| p_node := None; p_type := "qemu"; p_vmid := None; p_name := None |}
    init_state
  = (Raise "Connection refused", {| disks := []; nets := []; calls := [NodesGet] |}).
Proof.
  destruct (X10_uncaught_in_all_nodes offline_cluster None None None init_state
              eq_refl eq_refl eq_refl) as [H _].
  exact (H "Connection refused" eq_refl).
Defined.

(** *** The lookup of the node of a virtual machine *)

(** X11.  When [get_vm_node] returns a node, some entry of the listing of
    the nodes names it and the listing of its virtual machines has an entry
    whose integer vmid is the one asked; when it returns [None] otherwise,
    every node was listed and no entry of any listing has that vmid. *)
Theorem X11_node_of_a_vmid (W : world) (vmid : option Z) (st st' : state)
    (n : value) :
  get_vm_node W vmid st = (Ret n, st') ->
  exists nodes,
    nodes_get W = inr nodes /\
    ((exists entry l vm z,
        In entry nodes /\ dict_get "node" entry = Some n /\
        qemu_get W n = inr l /\ In vm l /\ entry_vmid W vm z /\ vmid = Some z) \/
     (n = VNone /\
      Forall (fun entry => exists n' l, dict_get "node" entry = Some n' /\
                                        qemu_get W n' = inr l /\
                                        vm_absent W vmid l) nodes)).
Proof.
  intros H. apply try_fail_Ret_inv in H.
  apply bind_Ret_inv in H as (nodes & s1 & R & H).
  apply request_Ret_inv in R as [R _].
  exists nodes. split; [exact R|]. exact (node_of_vm_spec _ _ _ _ _ _ H).
Qed.

Lemma X11_node_of_a_vmid_witness :
  exists st',
    get_vm_node (cluster plain_config plain_config) (Some 101%Z) init_state
    = (Ret (VStr "pve1"), st') /\
    exists l vm,
      qemu_get (cluster plain_config plain_config) (VStr "pve1") = inr l /\
      In vm l /\ entry_vmid (cluster plain_config plain_config) vm 101%Z.
Proof.
  destruct (get_vm_node (cluster plain_config plain_config) (Some 101%Z)
              init_state) as [o st'] eqn:E.
  assert (O : o = Ret (VStr "pve1")).
  { vm_compute in E. now injection E as <- _. }
  subst o. exists st'. split; [reflexivity|].
  destruct (X11_node_of_a_vmid _ _ _ _ _ E)
    as (nodes & _ & [(entry & l & vm & z & _ & _ & Q & I & V & Z)|[N _]]);
    [|discriminate].
  injection Z as <-. now exists l, vm.
Defined.

(** X12.  [vm_in_node] answers [True] only when the listing of the node has
    an entry whose integer vmid is the one asked, and [False] only when
    every entry has an integer vmid and none is the one asked; it sends the
    one request for the listing. *)
Theorem X12_vm_in_node_answer (W : world) (vmid : option Z) (node : value)
    (st st' : state) (b : bool) :
  vm_in_node W vmid node st = (Ret b, st') ->
  exists l,
    qemu_get W node = inr l /\
    (b = true -> exists vm z, In vm l /\ entry_vmid W vm z /\ vmid = Some z) /\
    (b = false -> vm_absent W vmid l) /\
    st' = snd (log (QemuGet node) st).
Proof.
  intros H. apply try_fail_Ret_inv in H.
  apply bind_Ret_inv in H as (l & s1 & R & H).
  apply request_Ret_inv in R as [R ->].
  apply vm_in_list_spec in H as [-> P].
  exists l. split; [exact R|].
  destruct b; repeat split; auto; discriminate.
Qed.

Lemma X12_vm_in_node_answer_witness :
  exists st',
    vm_in_node (cluster plain_config plain_config) (Some 999%Z) (VStr "pve1")
      init_state = (Ret false, st') /\
    calls st' = [QemuGet (VStr "pve1")].
Proof.
  destruct (vm_in_node (cluster plain_config plain_config) (Some 999%Z)
              (VStr "pve1") init_state) as [o st'] eqn:E.
  assert (O : o = Ret false).
  { vm_compute in E. now injection E as <- _. }
  subst o. exists st'. split; [reflexivity|].
  destruct (X12_vm_in_node_answer _ _ _ _ _ _ E) as (l & _ & _ & _ & ->).
  reflexivity.
Defined.

(** *** The parser of network values and the patterns *)

(** X13.  For a string value [add_to_nets] appends one record when every
    token between the commas has at most one equals sign, and otherwise
    appends nothing and returns [False], leaving the state as it was. *)
Theorem X13_net_record_or_nothing (name s : string) (st : state) :
  (forallb (fun t => count "=" t <=? 1)%nat (split "," s) = true ->
   exists it,
     add_to_nets name (VStr s) st
     = (Ret true, {| disks := disks st; nets := nets st ++ [it];
                     calls := calls st |})) /\
  (forallb (fun t => count "=" t <=? 1)%nat (split "," s) = false ->
   add_to_nets name (VStr s) st = (Ret false, st)).
Proof.
  unfold add_to_nets. split; intros H.
  - destruct (net_tokens_ok (split "," s) [("name", name)] H) as (it & ->).
    now exists it.
  - now destruct (net_tokens_fail (split "," s) [("name", name)] H) as (e & ->).
Qed.

Lemma X13_net_record_or_nothing_witness :
  (exists it,
     add_to_nets "net0" (VStr "virtio=28:08:FE:80:DE:A3,bridge=br0,up") init_state
     = (Ret true, {| disks := []; nets := [it]; calls := [] |})) /\
  add_to_nets "net1" (VStr "bridge=br0,tag=1=2") init_state = (Ret false, init_state).
Proof.
  split.
  - destruct (X13_net_record_or_nothing "net0"
                "virtio=28:08:FE:80:DE:A3,bridge=br0,up" init_state) as [H _].
    exact (H eq_refl).
  - destruct (X13_net_record_or_nothing "net1" "bridge=br0,tag=1=2" init_state)
      as [_ H].
    exact (H eq_refl).
Defined.

(** X14.  No key matches both the pattern of the disk slots and the
    pattern of the network slots, so the order of the two tests in the loop
    of [get_vm_configs] decides nothing. *)
Theorem X14_slots_disjoint (key : string) :
  is_disk_slot key && is_net_slot key = false.
Proof.
  destruct (is_net_slot key) eqn:N; [|apply andb_false_r].
  now rewrite (net_slot_not_disk key N).
Qed.

(** *** Selection by name *)

(** X15.  Selecting by name is selecting by the vmid that the name stands
    for: when [get_vmid] returns a value for the name and [int] converts it,
    [main] gives the same result for the name alone as for the name together
    with that vmid. *)
Theorem X15_name_selects_its_vmid (W : world) (node : option string)
    (type n : string) (v : value) (z : Z) (st : state) :
  get_vmid W n = Ret v -> py_int W v = inr z -> is_empty n = false ->
  fst (main W {| p_node := node; p_type := type; p_vmid := None;
                 p_name := Some n |} st)
  = fst (main W {| p_node := node; p_type := type; p_vmid := Some z;
                   p_name := Some n |} st).
Proof.
  intros G Z E. unfold main, bind. cbn [p_node p_type p_vmid p_name].
  destruct (check_node W node st) as [[u|e|msg] s1]; try reflexivity.
  assert (R : resolve_vmid W None (Some n) s1
              = (Ret (Some z), snd (log (GetVmid n) s1))).
  { unfold resolve_vmid, helper, bind, log, of_sum. cbn. now rewrite E, G, Z. }
  rewrite R. unfold resolve_vmid. cbn [truthy_int].
  destruct (z =? 0)%Z eqn:Z0.
  - cbn [negb andb]. rewrite E. cbn [negb].
    unfold helper, bind, log, of_sum. rewrite G, Z. reflexivity.
  - cbn [negb andb]. unfold ret.
    destruct (respects_main_dispatch W node type (Some z) (Some n)
                (snd (log (GetVmid n) s1)) s1) as [F _]; [now split|].
    destruct (main_dispatch W node type (Some z) (Some n) (snd (log (GetVmid n) s1))),
             (main_dispatch W node type (Some z) (Some n) s1).
    exact F.
Qed.

Lemma X15_name_selects_its_vmid_witness :
  fst (main (cluster plain_config disk_config)
         {| p_node := None; p_type := "qemu"; p_vmid := None;
            p_name := Some "test2" |} init_state)
  = fst (main (cluster plain_config disk_config)
           {| p_node := None; p_type := "qemu"; p_vmid := Some 101%Z;
              p_name := Some "test2" |} init_state).
Proof.
  exact (X15_name_selects_its_vmid (cluster plain_config disk_config) None "qemu"
           "test2" (VInt 101) 101%Z init_state eq_refl eq_refl eq_refl).
Defined.

(** *** The node parameter *)

(** X16.  With a node and type qemu the vmid is not handed to
    [get_qemu_vms]: whenever the node has at least one virtual machine,
    [main] returns all the records of the node, whatever vmid was given or
    resolved from a name. *)
Theorem X16_node_lists_every_vm (W : world) (n type : string) (vmid : option Z)
    (name : option string) (st st' : state) (vms : list dict) :
  is_empty n = false -> type = "qemu" -> vms <> [] ->
  get_qemu_vms W (VStr n) None st = (Ret vms, st') ->
  main_dispatch W (Some n) type vmid name st = (Ret vms, st').
Proof.
  intros E -> N G. unfold main_dispatch, bind.
  cbn [String.eqb Ascii.eqb Bool.eqb truthy_str opt_str_value]. rewrite E.
  cbn [negb]. rewrite G. cbn.
  destruct vms as [|vm rest]; [congruence|]. now destruct vmid.
Qed.

Lemma X16_node_lists_every_vm_witness :
  exists vms st',
    main_dispatch (cluster plain_config disk_config) (Some "pve1") "qemu"
      (Some 101%Z) (Some "test2") init_state = (Ret vms, st') /\
    length vms = 2%nat.
Proof.
  destruct (get_qemu_vms (cluster plain_config disk_config) (VStr "pve1") None
              init_state) as [o st'] eqn:G.
  assert (O : exists a b, o = Ret [a; b]).
  { vm_compute in G. injection G as <- _. eauto. }
  destruct O as (a & b & ->). exists [a; b], st'. split; [|reflexivity].
  apply (X16_node_lists_every_vm (cluster plain_config disk_config) "pve1" "qemu"
           (Some 101%Z) (Some "test2") init_state st' [a; b] eq_refl eq_refl);
    [discriminate | exact G].
Defined.

(** X17.  A node that [get_node] does not know ends [main] at once: the
    failure names the node, and the only request sent is the lookup of the
    node, whatever the type, the vmid and the name are. *)
Theorem X17_unknown_node_fails_first (W : world) (n type : string)
    (vmid : option Z) (name : option string) (st : state) :
  is_empty n = false -> get_node W n = Ret None ->
  main W {| p_node := Some n; p_type := type; p_vmid := vmid; p_name := name |} st
  = (FailJson ("Node " ++ n ++ " doesn't exist in PVE cluster"),
     {| disks := disks st; nets := nets st;
        calls := (calls st ++ [GetNode n])%list |}).
Proof.
  intros E G. unfold main, bind. cbn [p_node p_type p_vmid p_name].
  unfold check_node. rewrite E. cbn [negb].
  unfold helper, bind, log. rewrite G. reflexivity.
Qed.

Lemma X17_unknown_node_fails_first_witness :
  main (cluster plain_config disk_config)
    {| p_node := Some "pve9"; p_type := "lxc"; p_vmid := None; p_name := None |}
    init_state
  = (FailJson "Node pve9 doesn't exist in PVE cluster",
     {| disks := []; nets := []; calls := [GetNode "pve9"] |}).
Proof.
  exact (X17_unknown_node_fails_first (cluster plain_config disk_config) "pve9"
           "lxc" None None init_state eq_refl eq_refl).
Defined.
